(** * Dayonegame: the gameplay core, embedded in Rocq

    A shallow embedding of the simulation core of the side-view soccer game:
    [Ball] (kick physics), [Player] (state machine and timers),
    [AIController] (behaviour selection and the controls it gives its
    player), [GameUI] (scores and the match timer) and [GameScene] (contact,
    collision and goal handlers, kickoff, pause and the end of the game),
    followed by the properties proved about them.

    Numbers.  Every numeric value of the TypeScript sources is a JavaScript
    [number].  They are idealised here as real numbers: [Math.sqrt] is
    [sqrt], [Math.abs] is [Rabs], [Math.min]/[Math.max] are [Rmin]/[Rmax],
    and no rounding, overflow, [NaN] or infinity is modelled.

    Engine.  Phaser is an external library.  Of it, only what the game logic
    observes is modelled: [Phaser.Math.Vector2], [Phaser.Math.Distance.Between],
    the position and velocity of an arcade body, one-shot timer events of
    the scene clock and the repeating timer event of the match clock.  Sounds, tints, tweens, animations and console output
    have no counterpart.  Every sprite is given its arcade body by its
    constructor ([scene.physics.add.existing(this)]), so the [if (!this.body)]
    guards are modelled with the body present.

    Configuration.  The values of [gameConfig.json] are parameters, grouped
    in records of the same names. *)

From Stdlib Require Import Reals Lra Psatz Bool List ZArith Lia.
Import ListNotations.

Local Open Scope R_scope.

(** ** JavaScript comparisons on numbers, as booleans *)

Module Num.

Definition ltb (a b : R) : bool := if Rlt_dec a b then true else false.
Definition leb (a b : R) : bool := if Rle_dec a b then true else false.
Definition gtb (a b : R) : bool := ltb b a.
Definition geb (a b : R) : bool := leb b a.

(** Truthiness of a number: every number but [0] is truthy. *)
Definition truthy (a : R) : bool := if Req_dec_T a 0 then false else true.

(** [Math.sign]. *)
Definition sign (a : R) : R :=
  if ltb 0 a then 1 else if ltb a 0 then -1 else 0.

End Num.

Infix "<?" := Num.ltb (at level 70, no associativity) : R_scope.
Infix "<=?" := Num.leb (at level 70, no associativity) : R_scope.
Infix ">?" := Num.gtb (at level 70, no associativity) : R_scope.
Infix ">=?" := Num.geb (at level 70, no associativity) : R_scope.

(** ** Phaser.Math.Vector2 and Phaser.Math.Distance *)

Module Vector2.

Record t : Type := mk { x : R; y : R }.

Definition clone (v : t) : t := v.

Definition scale (v : t) (k : R) : t := mk (x v * k) (y v * k).

Definition length (v : t) : R := sqrt (x v * x v + y v * y v).

(** [normalize] leaves the zero vector alone and otherwise multiplies both
    components by [1 / Math.sqrt(x*x + y*y)]. *)
Definition normalize (v : t) : t :=
  let len := x v * x v + y v * y v in
  if len >? 0 then mk (x v * (1 / sqrt len)) (y v * (1 / sqrt len)) else v.

End Vector2.

Module Distance.

Definition Between (x1 y1 x2 y2 : R) : R :=
  let dx := x1 - x2 in
  let dy := y1 - y2 in
  sqrt (dx * dx + dy * dy).

End Distance.

(** ** gameConfig.json *)

Record BallConfig : Type := {
  maxSpeed : R;
  normalKickForce : R;
  slideKickForce : R;
  jumpKickForce : R;
  runningKickForce : R
}.

Record PlayerConfig : Type := {
  moveSpeed : R;
  jumpPower : R;
  slideSpeed : R;
  slideDuration : R;
  kickDuration : R;
  stunDuration : R
}.

Record FieldConfig : Type := {
  goalWidth : R;
  goalHeight : R
}.

Record GameConfig : Type := {
  kickoffDelay : R;
  goalCelebrationTime : R
}.

Record ScreenSize : Type := {
  width : R;
  height : R
}.

Inductive KickType : Type := normal | slide | jump.

(** ** Ball.ts *)

Module Ball.

Record t : Type := mk {
  x : R;
  y : R;
  velocity : Vector2.t;
  angularVelocity : R
}.

Section WithConfig.

Variable ballConfig : BallConfig.

(** The [switch (kickType)] of [kick]: the value of the local [finalForce]
    when the switch is left, before the speed limit is applied. *)
Definition shapedForce (force : Vector2.t) (kickType : KickType) (distance : R)
  : Vector2.t :=
  let finalForce := Vector2.clone force in
  match kickType with
  | slide =>
      let finalForce := Vector2.scale finalForce 1.5 in
      Vector2.mk (Vector2.x finalForce) (Vector2.y finalForce * 0.3)
  | jump =>
      let fy := Rabs (Vector2.y finalForce) * -2.0 in
      Vector2.mk (Vector2.x finalForce * 0.8) fy
  | normal =>
      let distanceMultiplier := Rmin (distance / 150) 2.0 in
      let finalForce := Vector2.scale finalForce (0.8 + distanceMultiplier * 0.4) in
      let upwardBoost := Rmax 200 (distance * 1.5) in
      Vector2.mk (Vector2.x finalForce) (- upwardBoost)
  end.

(** The factor by which a normal kick scales the raw impulse. *)
Definition powerFactor (distance : R) : R :=
  let distanceMultiplier := Rmin (distance / 150) 2.0 in
  0.8 + distanceMultiplier * 0.4.

(** "Apply maximum speed limit". *)
Definition limitSpeed (finalForce : Vector2.t) : Vector2.t :=
  let magnitude := Vector2.length finalForce in
  if magnitude >? maxSpeed ballConfig * 1.2
  then Vector2.scale (Vector2.normalize finalForce) (maxSpeed ballConfig * 1.2)
  else finalForce.

Definition kick (force : Vector2.t) (playerHeight : R) (kickType : KickType)
  (distance : R) (b : t) : t :=
  let finalForce := shapedForce force kickType distance in
  let magnitude := Vector2.length finalForce in
  let finalForce := limitSpeed finalForce in
  let spinSpeed := magnitude * 0.02 in
  {| x := x b;
     y := y b;
     velocity := Vector2.mk (Vector2.x finalForce) (Vector2.y finalForce);
     angularVelocity := if Vector2.x force >? 0 then spinSpeed else - spinSpeed |}.

End WithConfig.

Definition onGoalPostHit (b : t) : t :=
  let currentVelocity := velocity b in
  {| x := x b;
     y := y b;
     velocity := Vector2.mk (- Vector2.x currentVelocity * 1.2)
                            (- Rabs (Vector2.y currentVelocity) * 0.8);
     angularVelocity := angularVelocity b |}.

Definition resetPosition (x0 y0 : R) (b : t) : t :=
  {| x := x0; y := y0; velocity := Vector2.mk 0 0; angularVelocity := 0 |}.

(** The per-tick [update]: the manual boundary check, then the stability
    check.  [velocity] in the source is the body's live vector, so each
    read sees the assignments before it. *)
Definition update (b : t) : t :=
  let margin := 25 in
  let b :=
    if x b <? margin then
      mk margin (y b)
         (Vector2.mk (- Vector2.x (velocity b) * 0.8) (Vector2.y (velocity b)))
         (angularVelocity b)
    else if x b >? 1152 - margin then
      mk (1152 - margin) (y b)
         (Vector2.mk (- Vector2.x (velocity b) * 0.8) (Vector2.y (velocity b)))
         (angularVelocity b)
    else b in
  let b :=
    if y b <? margin then
      mk (x b) margin
         (Vector2.mk (Vector2.x (velocity b)) (- Vector2.y (velocity b) * 0.8))
         (angularVelocity b)
    else b in
  if Vector2.length (velocity b) <? 3
  then mk (x b) (y b) (Vector2.mk 0 0) 0
  else b.

Definition isMoving (b : t) : bool := Vector2.length (velocity b) >? 20.

Definition getVelocity (b : t) : Vector2.t :=
  Vector2.mk (Vector2.x (velocity b)) (Vector2.y (velocity b)).

Definition setVelocity (vx vy : R) (b : t) : t :=
  {| x := x b; y := y b; velocity := Vector2.mk vx vy;
     angularVelocity := angularVelocity b |}.

End Ball.

(** ** One-shot timer events of the scene clock ([scene.time.delayedCall]) *)

Module TimerEvent.

Record t : Type := mk { delay : R; elapsed : R; hasDispatched : bool }.

Definition delayedCall (d : R) : t := mk d 0 false.

(** The clock adds the frame's [delta] to a pending event. *)
Definition advance (delta : R) (e : t) : t :=
  if hasDispatched e then e else mk (delay e) (elapsed e + delta) false.

(** A pending event is due once its elapsed time has reached its delay. *)
Definition due (e : t) : bool :=
  negb (hasDispatched e) && (elapsed e >=? delay e).

(** A dispatched event: the clock caps its elapsed time at the delay. *)
Definition dispatched (e : t) : t := mk (delay e) (delay e) true.

End TimerEvent.

(** ** Player.ts *)

Module Side.
Inductive t : Type := left | right.

Definition eqb (a b : t) : bool :=
  match a, b with
  | left, left | right, right => true
  | _, _ => false
  end.
End Side.

Inductive PlayerState : Type :=
  idle | walking | jumping | sliding | kicking | stunned.

Definition PlayerState_eqb (a b : PlayerState) : bool :=
  match a, b with
  | idle, idle | walking, walking | jumping, jumping
  | sliding, sliding | kicking, kicking | stunned, stunned => true
  | _, _ => false
  end.

Record KickInfo : Type := {
  force : Vector2.t;
  type : KickType;
  distance : R
}.

Module Player.

Record t : Type := mk {
  playerSide : Side.t;
  playerState : PlayerState;
  isStunned : bool;
  stunTimer : R;
  slideTimer : R;
  kickTimer : R;
  facingRight : bool;
  isOnGround : bool;
  kickCooldown : R;
  jumpFallTimer : option TimerEvent.t;
  jumpLandTimer : option TimerEvent.t;
  x : R;
  y : R;
  velocity : Vector2.t
}.

(** Assignments to one field. *)
Definition set_playerState (v : PlayerState) (p : t) : t :=
  mk (playerSide p) v (isStunned p) (stunTimer p) (slideTimer p) (kickTimer p)
     (facingRight p) (isOnGround p) (kickCooldown p) (jumpFallTimer p)
     (jumpLandTimer p) (x p) (y p) (velocity p).
Definition set_isStunned (v : bool) (p : t) : t :=
  mk (playerSide p) (playerState p) v (stunTimer p) (slideTimer p) (kickTimer p)
     (facingRight p) (isOnGround p) (kickCooldown p) (jumpFallTimer p)
     (jumpLandTimer p) (x p) (y p) (velocity p).
Definition set_stunTimer (v : R) (p : t) : t :=
  mk (playerSide p) (playerState p) (isStunned p) v (slideTimer p) (kickTimer p)
     (facingRight p) (isOnGround p) (kickCooldown p) (jumpFallTimer p)
     (jumpLandTimer p) (x p) (y p) (velocity p).
Definition set_slideTimer (v : R) (p : t) : t :=
  mk (playerSide p) (playerState p) (isStunned p) (stunTimer p) v (kickTimer p)
     (facingRight p) (isOnGround p) (kickCooldown p) (jumpFallTimer p)
     (jumpLandTimer p) (x p) (y p) (velocity p).
Definition set_kickTimer (v : R) (p : t) : t :=
  mk (playerSide p) (playerState p) (isStunned p) (stunTimer p) (slideTimer p) v
     (facingRight p) (isOnGround p) (kickCooldown p) (jumpFallTimer p)
     (jumpLandTimer p) (x p) (y p) (velocity p).
Definition set_facingRight (v : bool) (p : t) : t :=
  mk (playerSide p) (playerState p) (isStunned p) (stunTimer p) (slideTimer p)
     (kickTimer p) v (isOnGround p) (kickCooldown p) (jumpFallTimer p)
     (jumpLandTimer p) (x p) (y p) (velocity p).
Definition set_isOnGround (v : bool) (p : t) : t :=
  mk (playerSide p) (playerState p) (isStunned p) (stunTimer p) (slideTimer p)
     (kickTimer p) (facingRight p) v (kickCooldown p) (jumpFallTimer p)
     (jumpLandTimer p) (x p) (y p) (velocity p).
Definition set_kickCooldown (v : R) (p : t) : t :=
  mk (playerSide p) (playerState p) (isStunned p) (stunTimer p) (slideTimer p)
     (kickTimer p) (facingRight p) (isOnGround p) v (jumpFallTimer p)
     (jumpLandTimer p) (x p) (y p) (velocity p).
Definition set_jumpFallTimer (v : option TimerEvent.t) (p : t) : t :=
  mk (playerSide p) (playerState p) (isStunned p) (stunTimer p) (slideTimer p)
     (kickTimer p) (facingRight p) (isOnGround p) (kickCooldown p) v
     (jumpLandTimer p) (x p) (y p) (velocity p).
Definition set_jumpLandTimer (v : option TimerEvent.t) (p : t) : t :=
  mk (playerSide p) (playerState p) (isStunned p) (stunTimer p) (slideTimer p)
     (kickTimer p) (facingRight p) (isOnGround p) (kickCooldown p)
     (jumpFallTimer p) v (x p) (y p) (velocity p).
Definition setX (v : R) (p : t) : t :=
  mk (playerSide p) (playerState p) (isStunned p) (stunTimer p) (slideTimer p)
     (kickTimer p) (facingRight p) (isOnGround p) (kickCooldown p)
     (jumpFallTimer p) (jumpLandTimer p) v (y p) (velocity p).
Definition setY (v : R) (p : t) : t :=
  mk (playerSide p) (playerState p) (isStunned p) (stunTimer p) (slideTimer p)
     (kickTimer p) (facingRight p) (isOnGround p) (kickCooldown p)
     (jumpFallTimer p) (jumpLandTimer p) (x p) v (velocity p).
Definition setVelocity (vx vy : R) (p : t) : t :=
  mk (playerSide p) (playerState p) (isStunned p) (stunTimer p) (slideTimer p)
     (kickTimer p) (facingRight p) (isOnGround p) (kickCooldown p)
     (jumpFallTimer p) (jumpLandTimer p) (x p) (y p) (Vector2.mk vx vy).
Definition setVelocityX (vx : R) (p : t) : t :=
  setVelocity vx (Vector2.y (velocity p)) p.
Definition setVelocityY (vy : R) (p : t) : t :=
  setVelocity (Vector2.x (velocity p)) vy p.
Definition setPosition (x0 y0 : R) (p : t) : t := setY y0 (setX x0 p).

(** The constructor: the field initialisers, then the facing of the side. *)
Definition new (x0 y0 : R) (side : Side.t) : t :=
  {| playerSide := side;
     playerState := idle;
     isStunned := false;
     stunTimer := 0;
     slideTimer := 0;
     kickTimer := 0;
     facingRight := Side.eqb side Side.left;
     isOnGround := false;
     kickCooldown := 0;
     jumpFallTimer := None;
     jumpLandTimer := None;
     x := x0;
     y := y0;
     velocity := Vector2.mk 0 0 |}.

Definition isSliding (p : t) : bool := PlayerState_eqb (playerState p) sliding.
Definition isKicking (p : t) : bool := PlayerState_eqb (playerState p) kicking.
Definition getPlayerSide (p : t) : Side.t := playerSide p.
Definition getFacingDirection (p : t) : Side.t :=
  if facingRight p then Side.right else Side.left.
Definition getFacingRight (p : t) : bool := facingRight p.

Definition clearJumpTimers (p : t) : t :=
  let p := match jumpFallTimer p with
           | Some _ => set_jumpFallTimer None p
           | None => p
           end in
  match jumpLandTimer p with
  | Some _ => set_jumpLandTimer None p
  | None => p
  end.

Section WithConfig.

Variable playerConfig : PlayerConfig.
Variable ballConfig : BallConfig.

(** The callback of a jump's fall timer (the same at both places that
    create one). *)
Definition onJumpFall (p : t) : t :=
  if PlayerState_eqb (playerState p) jumping
  then setVelocityY (jumpPower playerConfig * 0.8) p
  else p.

(** The callback of a jump's land timer (the same at both places). *)
Definition onJumpLand (p : t) : t :=
  if PlayerState_eqb (playerState p) jumping
  then set_playerState idle (setVelocityY 0 (setY 648 p))
  else p.

(** The scene clock, as far as this player's timer events go: both are
    advanced by the frame's delta and a due one runs its callback, the fall
    timer (created first) before the land timer. *)
Definition clockUpdate (delta : R) (p : t) : t :=
  let p :=
    match jumpFallTimer p with
    | Some e =>
        let e := TimerEvent.advance delta e in
        if TimerEvent.due e
        then onJumpFall (set_jumpFallTimer (Some (TimerEvent.dispatched e)) p)
        else set_jumpFallTimer (Some e) p
    | None => p
    end in
  match jumpLandTimer p with
  | Some e =>
      let e := TimerEvent.advance delta e in
      if TimerEvent.due e
      then onJumpLand (set_jumpLandTimer (Some (TimerEvent.dispatched e)) p)
      else set_jumpLandTimer (Some e) p
  | None => p
  end.

Definition startSlide (p : t) : t :=
  set_slideTimer (slideDuration playerConfig * 1000) (set_playerState sliding p).

Definition startKick (p : t) : t :=
  set_kickCooldown 500
    (set_kickTimer (kickDuration playerConfig * 1000)
       (set_playerState kicking p)).

Definition triggerKick (p : t) : t :=
  if kickCooldown p <=? 0 then startKick p else p.

Definition stun (p : t) : t :=
  setVelocityX 0
    (set_playerState stunned
       (set_stunTimer (stunDuration playerConfig * 1000)
          (set_isStunned true p))).

(** The stun block of [updateTimers]. *)
Definition updateStunTimer (deltaTime : R) (p : t) : t :=
  if stunTimer p >? 0 then
    let p := set_stunTimer (stunTimer p - deltaTime) p in
    if stunTimer p <=? 0 then
      let p := set_isStunned false p in
      if PlayerState_eqb (playerState p) stunned
      then set_playerState idle p
      else p
    else p
  else p.

(** The slide block of [updateTimers]. *)
Definition updateSlideTimer (deltaTime : R) (p : t) : t :=
  if slideTimer p >? 0 then
    let p := set_slideTimer (slideTimer p - deltaTime) p in
    if (slideTimer p <=? 0) && PlayerState_eqb (playerState p) sliding
    then set_playerState idle p
    else p
  else p.

(** The kick block of [updateTimers], with its "smart state recovery". *)
Definition updateKickTimer (deltaTime : R) (p : t) : t :=
  if kickTimer p >? 0 then
    let p := set_kickTimer (kickTimer p - deltaTime) p in
    if (kickTimer p <=? 0) && PlayerState_eqb (playerState p) kicking then
      if negb (isOnGround p) then
        let p := set_playerState jumping p in
        match jumpFallTimer p, jumpLandTimer p with
        | None, None =>
            let p :=
              if Vector2.y (velocity p) <? 0
              then set_jumpFallTimer (Some (TimerEvent.delayedCall 300)) p
              else p in
            set_jumpLandTimer (Some (TimerEvent.delayedCall 600)) p
        | _, _ => p
        end
      else set_playerState idle p
    else p
  else p.

Definition updateKickCooldown (deltaTime : R) (p : t) : t :=
  if kickCooldown p >? 0
  then set_kickCooldown (kickCooldown p - deltaTime) p
  else p.

Definition updateTimers (deltaTime : R) (p : t) : t :=
  updateKickCooldown deltaTime
    (updateKickTimer deltaTime
       (updateSlideTimer deltaTime
          (updateStunTimer deltaTime p))).

Definition updateGroundStatus (p : t) : t :=
  let groundLevel := 648 in
  let p :=
    if PlayerState_eqb (playerState p) jumping
    then set_isOnGround false p
    else set_isOnGround (y p >=? groundLevel - 10) p in
  let p := if y p >? groundLevel + 10 then setY groundLevel p else p in
  let leftBound := 10 in
  let rightBound := 1142 in
  let p :=
    if x p <? leftBound then setX leftBound p
    else if x p >? rightBound then setX rightBound p
    else p in
  let p :=
    if Rabs (Vector2.x (velocity p)) >? 800
    then setVelocityX (Num.sign (Vector2.x (velocity p)) * 800) p
    else p in
  if Rabs (Vector2.y (velocity p)) >? 1200
  then setVelocityY (Num.sign (Vector2.y (velocity p)) * 1200) p
  else p.

Definition handleStunnedState (p : t) : t := setVelocityX 0 p.

Definition handleSlidingState (p : t) : t :=
  let slideVelocity :=
    if facingRight p then slideSpeed playerConfig else - slideSpeed playerConfig in
  setVelocityX slideVelocity p.

Definition handleKickingState (p : t) : t := setVelocityX 0 p.

(** The horizontal movement shared by [handleJumpingState] and
    [handleInput]: the velocity chosen from the two keys and the facing
    that goes with it. *)
Definition moveHorizontally (leftKey rightKey : bool) (p : t) : t :=
  if leftKey && negb rightKey then
    setVelocityX (- moveSpeed playerConfig) (set_facingRight false p)
  else if rightKey && negb leftKey then
    setVelocityX (moveSpeed playerConfig) (set_facingRight true p)
  else setVelocityX 0 p.

Definition handleJumpingState (leftKey rightKey : bool) (p : t) : t :=
  moveHorizontally leftKey rightKey p.

(** The "jumping" step of [handleInput]'s action priority system. *)
Definition inputJump (upKey : bool) (st : t * bool) : t * bool :=
  let '(p, actionTaken) := st in
  if upKey && isOnGround p && PlayerState_eqb (playerState p) idle
     && negb actionTaken
  then
    let p := set_playerState jumping p in
    let p := setVelocityY (- jumpPower playerConfig) p in
    let p := clearJumpTimers p in
    let p := set_jumpFallTimer (Some (TimerEvent.delayedCall 300)) p in
    let p := set_jumpLandTimer (Some (TimerEvent.delayedCall 600)) p in
    (p, true)
  else (p, actionTaken).

(** The "sliding" step. *)
Definition inputSlide (downKey : bool) (st : t * bool) : t * bool :=
  let '(p, actionTaken) := st in
  if downKey && isOnGround p && (slideTimer p <=? 0)
     && PlayerState_eqb (playerState p) idle && negb actionTaken
  then (startSlide p, true)
  else (p, actionTaken).

(** The "kicking" step. *)
Definition inputKick (kickKey : bool) (st : t * bool) : t * bool :=
  let '(p, actionTaken) := st in
  if kickKey && (kickCooldown p <=? 0)
     && negb (PlayerState_eqb (playerState p) sliding) && negb actionTaken
  then (startKick p, true)
  else (p, actionTaken).

(** The "special case: air kick" step; the jump timers are not cleared. *)
Definition inputAirKick (kickKey : bool) (st : t * bool) : t * bool :=
  let '(p, actionTaken) := st in
  if kickKey && (kickCooldown p <=? 0)
     && PlayerState_eqb (playerState p) jumping
  then
    let p := set_playerState kicking p in
    let p := set_kickTimer (kickDuration playerConfig * 1000) p in
    let p := set_kickCooldown 500 p in
    (p, actionTaken)
  else (p, actionTaken).

Definition handleInput (leftKey rightKey upKey downKey kickKey : bool) (p : t)
  : t :=
  if isStunned p then p
  else if PlayerState_eqb (playerState p) sliding then p
  else
    let p := moveHorizontally leftKey rightKey p in
    let actionTaken := false in
    fst (inputAirKick kickKey
           (inputKick kickKey
              (inputSlide downKey
                 (inputJump upKey (p, actionTaken))))).

(** [update]: timers, ground status, then the handler of the current
    state; only a player that is neither stunned, sliding, kicking nor
    jumping reaches [handleInput]. *)
Definition update (deltaTime : R)
  (leftKey rightKey upKey downKey kickKey : bool) (p : t) : t :=
  let p := updateTimers deltaTime p in
  let p := updateGroundStatus p in
  if isStunned p then handleStunnedState p
  else if PlayerState_eqb (playerState p) sliding then handleSlidingState p
  else if PlayerState_eqb (playerState p) kicking then handleKickingState p
  else if PlayerState_eqb (playerState p) jumping
  then handleJumpingState leftKey rightKey p
  else handleInput leftKey rightKey upKey downKey kickKey p.

Definition getKickForce (p : t) : Vector2.t :=
  let speedX := Rabs (Vector2.x (velocity p)) in
  let isRunning := speedX >? 150 in
  let isInAir := negb (isOnGround p) in
  let isSliding := PlayerState_eqb (playerState p) sliding in
  let '(kickForce, verticalForce) :=
    if isSliding then (slideKickForce ballConfig, -50)
    else if isInAir then (jumpKickForce ballConfig, -150)
    else if isRunning then (runningKickForce ballConfig, -120)
    else (normalKickForce ballConfig, -100) in
  let kickDirection := if facingRight p then 1 else -1 in
  Vector2.mk (kickDirection * kickForce) verticalForce.

Definition getKickInfo (p : t) : KickInfo :=
  let speedX := Rabs (Vector2.x (velocity p)) in
  let isRunning := speedX >? 150 in
  let isSliding := PlayerState_eqb (playerState p) sliding in
  let isInAir := negb (isOnGround p) in
  let '(kickType, distance) :=
    if isSliding then (slide, 200)
    else if isInAir then (jump, 120)
    else if isRunning then (normal, 180)
    else (normal, 100) in
  {| force := getKickForce p; type := kickType; distance := distance |}.

End WithConfig.

Definition resetToKickoff (p : t) : t :=
  let p := setVelocity 0 0 p in
  let p := set_isStunned false p in
  let p := set_stunTimer 0 p in
  let p := set_slideTimer 0 p in
  let p := set_kickTimer 0 p in
  let p := set_kickCooldown 0 p in
  let p := set_playerState idle p in
  let p := clearJumpTimers p in
  set_facingRight (Side.eqb (playerSide p) Side.left) p.

End Player.

(** ** AIController.ts: the decision clock and behaviour selection *)

Module Action.
Inductive t : Type := idle | chase | defend | attack.
End Action.

Inductive Difficulty : Type := easy | medium | hard.

Module AIController.

Record t : Type := mk {
  reactionTime : R;
  lastDecisionTime : R;
  currentAction : Action.t;
  actionTimer : R;
  jumpTimer : R;
  kickTimer : R;
  moveAccuracy : R;
  reactionSpeed : R;
  aggressiveness : R;
  kickAccuracy : R
}.

Definition setDifficulty (difficulty : Difficulty) (ai : t) : t :=
  let '(ma, rs, ag, ka, rt) :=
    match difficulty with
    | easy => (0.6, 0.7, 0.4, 0.4, 400)
    | medium => (0.8, 1.0, 0.7, 0.6, 200)
    | hard => (0.95, 1.3, 0.9, 0.8, 100)
    end in
  mk rt (lastDecisionTime ai) (currentAction ai) (actionTimer ai)
     (jumpTimer ai) (kickTimer ai) ma rs ag ka.

(** The constructor: the field initialisers, then [setDifficulty]. *)
Definition new (difficulty : Difficulty) : t :=
  setDifficulty difficulty (mk 200 0 Action.idle 0 0 0 0.8 1.0 0.7 0.6).

Definition decide (action : Action.t) (timer : R) (ai : t) : t :=
  mk (reactionTime ai) (lastDecisionTime ai) action timer (jumpTimer ai)
     (kickTimer ai) (moveAccuracy ai) (reactionSpeed ai) (aggressiveness ai)
     (kickAccuracy ai).

Definition set_lastDecisionTime (v : R) (ai : t) : t :=
  mk (reactionTime ai) v (currentAction ai) (actionTimer ai) (jumpTimer ai)
     (kickTimer ai) (moveAccuracy ai) (reactionSpeed ai) (aggressiveness ai)
     (kickAccuracy ai).

(** [makeDecision]; [cameraWidth] is [scene.cameras.main.width] and
    [random] the value drawn from [Math.random()] in the branch taken. *)
Definition makeDecision (player : Player.t) (ball : Ball.t) (cameraWidth : R)
  (random : R) (ai : t) : t :=
  let distanceToBall :=
    Distance.Between (Player.x player) (Player.y player) (Ball.x ball) (Ball.y ball) in
  let ballVelocity := Ball.getVelocity ball in
  let isRightSide := Side.eqb (Player.getPlayerSide player) Side.right in
  let ownGoalX := if isRightSide then cameraWidth * 0.9 else cameraWidth * 0.1 in
  if (distanceToBall <? 80) && Bool.eqb (Ball.isMoving ball) false then
    decide Action.attack (1000 + random * 500) ai
  else if (distanceToBall <? 120) && (Vector2.length ballVelocity <? 100) then
    decide Action.chase (800 + random * 400) ai
  else if (Ball.x ball <? ownGoalX + 200) && (Ball.x ball >? ownGoalX - 200) then
    decide Action.defend (600 + random * 300) ai
  else
    decide Action.idle (400 + random * 200) ai.

(** The first half of [update]: the three timers count down and, when the
    decision clock is due, a decision is made at scene time [now]. *)
Definition updateDecision (deltaTime now : R) (player : Player.t)
  (ball : Ball.t) (cameraWidth random : R) (ai : t) : t :=
  let ai :=
    mk (reactionTime ai) (lastDecisionTime ai) (currentAction ai)
       (actionTimer ai - deltaTime) (jumpTimer ai - deltaTime)
       (kickTimer ai - deltaTime) (moveAccuracy ai) (reactionSpeed ai)
       (aggressiveness ai) (kickAccuracy ai) in
  if now - lastDecisionTime ai >? reactionTime ai / reactionSpeed ai
  then set_lastDecisionTime now (makeDecision player ball cameraWidth random ai)
  else ai.

End AIController.

(** ** GameUI.ts and Goal.ts, as far as the match controller reads them *)

Module GameUI.

Record t : Type := mk {
  player1Score : nat;
  player2Score : nat;
  isGamePaused : bool
}.

Definition updateScore (s1 s2 : nat) (ui : t) : t := mk s1 s2 (isGamePaused ui).
Definition pauseGame (ui : t) : t := mk (player1Score ui) (player2Score ui) true.
Definition resumeGame (ui : t) : t := mk (player1Score ui) (player2Score ui) false.
Definition isPaused (ui : t) : bool := isGamePaused ui.

End GameUI.

Module Goal.
Record t : Type := mk { x : R; y : R; goalSide : Side.t }.
End Goal.

(** ** GameScene.ts: the match controller *)

(** The five booleans of one player's input. *)
Record Controls : Type := {
  c_left : bool;
  c_right : bool;
  c_jump : bool;
  c_slide : bool;
  c_kick : bool
}.

Inductive PlayerId : Type := P1 | P2.

(** What a delayed call of the scene does when it fires. *)
Inductive SceneCallback : Type :=
| AfterCelebration   (* handleGoal: hide the goal text, resetToKickoff *)
| AfterKickoff.      (* resetToKickoff: isGameActive = true *)

Module GameScene.

Record t : Type := mk {
  isGameActive : bool;
  isGamePaused : bool;
  player1Score : nat;
  player2Score : nat;
  lastManualCollisionP1 : R;
  lastManualCollisionP2 : R;
  lastGoalTime : R;
  groundTopY : R;
  player1 : Player.t;
  player2 : Player.t;
  ball : Ball.t;
  leftGoal : Goal.t;
  rightGoal : Goal.t;
  gameUI : GameUI.t;
  delayedCalls : list (TimerEvent.t * SceneCallback)
}.

Definition set_isGameActive (v : bool) (s : t) : t :=
  mk v (isGamePaused s) (player1Score s) (player2Score s)
     (lastManualCollisionP1 s) (lastManualCollisionP2 s) (lastGoalTime s)
     (groundTopY s) (player1 s) (player2 s) (ball s) (leftGoal s) (rightGoal s)
     (gameUI s) (delayedCalls s).
Definition set_isGamePaused (v : bool) (s : t) : t :=
  mk (isGameActive s) v (player1Score s) (player2Score s)
     (lastManualCollisionP1 s) (lastManualCollisionP2 s) (lastGoalTime s)
     (groundTopY s) (player1 s) (player2 s) (ball s) (leftGoal s) (rightGoal s)
     (gameUI s) (delayedCalls s).
Definition set_player1Score (v : nat) (s : t) : t :=
  mk (isGameActive s) (isGamePaused s) v (player2Score s)
     (lastManualCollisionP1 s) (lastManualCollisionP2 s) (lastGoalTime s)
     (groundTopY s) (player1 s) (player2 s) (ball s) (leftGoal s) (rightGoal s)
     (gameUI s) (delayedCalls s).
Definition set_player2Score (v : nat) (s : t) : t :=
  mk (isGameActive s) (isGamePaused s) (player1Score s) v
     (lastManualCollisionP1 s) (lastManualCollisionP2 s) (lastGoalTime s)
     (groundTopY s) (player1 s) (player2 s) (ball s) (leftGoal s) (rightGoal s)
     (gameUI s) (delayedCalls s).
Definition set_lastManualCollisionP1 (v : R) (s : t) : t :=
  mk (isGameActive s) (isGamePaused s) (player1Score s) (player2Score s)
     v (lastManualCollisionP2 s) (lastGoalTime s)
     (groundTopY s) (player1 s) (player2 s) (ball s) (leftGoal s) (rightGoal s)
     (gameUI s) (delayedCalls s).
Definition set_lastManualCollisionP2 (v : R) (s : t) : t :=
  mk (isGameActive s) (isGamePaused s) (player1Score s) (player2Score s)
     (lastManualCollisionP1 s) v (lastGoalTime s)
     (groundTopY s) (player1 s) (player2 s) (ball s) (leftGoal s) (rightGoal s)
     (gameUI s) (delayedCalls s).
Definition set_lastGoalTime (v : R) (s : t) : t :=
  mk (isGameActive s) (isGamePaused s) (player1Score s) (player2Score s)
     (lastManualCollisionP1 s) (lastManualCollisionP2 s) v
     (groundTopY s) (player1 s) (player2 s) (ball s) (leftGoal s) (rightGoal s)
     (gameUI s) (delayedCalls s).
Definition set_player1 (v : Player.t) (s : t) : t :=
  mk (isGameActive s) (isGamePaused s) (player1Score s) (player2Score s)
     (lastManualCollisionP1 s) (lastManualCollisionP2 s) (lastGoalTime s)
     (groundTopY s) v (player2 s) (ball s) (leftGoal s) (rightGoal s)
     (gameUI s) (delayedCalls s).
Definition set_player2 (v : Player.t) (s : t) : t :=
  mk (isGameActive s) (isGamePaused s) (player1Score s) (player2Score s)
     (lastManualCollisionP1 s) (lastManualCollisionP2 s) (lastGoalTime s)
     (groundTopY s) (player1 s) v (ball s) (leftGoal s) (rightGoal s)
     (gameUI s) (delayedCalls s).
Definition set_ball (v : Ball.t) (s : t) : t :=
  mk (isGameActive s) (isGamePaused s) (player1Score s) (player2Score s)
     (lastManualCollisionP1 s) (lastManualCollisionP2 s) (lastGoalTime s)
     (groundTopY s) (player1 s) (player2 s) v (leftGoal s) (rightGoal s)
     (gameUI s) (delayedCalls s).
Definition set_gameUI (v : GameUI.t) (s : t) : t :=
  mk (isGameActive s) (isGamePaused s) (player1Score s) (player2Score s)
     (lastManualCollisionP1 s) (lastManualCollisionP2 s) (lastGoalTime s)
     (groundTopY s) (player1 s) (player2 s) (ball s) (leftGoal s) (rightGoal s)
     v (delayedCalls s).
Definition set_delayedCalls (v : list (TimerEvent.t * SceneCallback)) (s : t) : t :=
  mk (isGameActive s) (isGamePaused s) (player1Score s) (player2Score s)
     (lastManualCollisionP1 s) (lastManualCollisionP2 s) (lastGoalTime s)
     (groundTopY s) (player1 s) (player2 s) (ball s) (leftGoal s) (rightGoal s)
     (gameUI s) v.

(** [this.time.delayedCall(d, callback)]. *)
Definition delayedCall (d : R) (cb : SceneCallback) (s : t) : t :=
  set_delayedCalls (delayedCalls s ++ [(TimerEvent.delayedCall d, cb)]) s.

Definition getPlayer (who : PlayerId) (s : t) : Player.t :=
  match who with P1 => player1 s | P2 => player2 s end.

Definition setPlayer (who : PlayerId) (p : Player.t) (s : t) : t :=
  match who with P1 => set_player1 p s | P2 => set_player2 p s end.

Definition resetGameState (s : t) : t :=
  let s := set_player1Score 0%nat s in
  let s := set_player2Score 0%nat s in
  let s := set_isGameActive true s in
  let s := set_isGamePaused false s in
  let s := set_lastGoalTime 0 s in
  let s := set_lastManualCollisionP1 0 s in
  set_lastManualCollisionP2 0 s.

Definition pauseGame (s : t) : t :=
  set_gameUI (GameUI.pauseGame (gameUI s)) (set_isGamePaused true s).

Definition resumeGame (s : t) : t :=
  set_gameUI (GameUI.resumeGame (gameUI s)) (set_isGamePaused false s).

Definition handleGameEnd (s : t) : t := set_isGameActive false s.

(** The directional contact detection of [handlePlayerBallContact]. *)
Definition isProperKick (playerFacing : Side.t) (ballRelativeToPlayer : R)
  : bool :=
  if Side.eqb playerFacing Side.right && (ballRelativeToPlayer >? 0) then true
  else if Side.eqb playerFacing Side.left && (ballRelativeToPlayer <? 0) then true
  else false.

Section WithConfig.

Variable screenSize : ScreenSize.
Variable fieldConfig : FieldConfig.
Variable gameConfig : GameConfig.
Variable playerConfig : PlayerConfig.
Variable ballConfig : BallConfig.

Definition resetToKickoff (s : t) : t :=
  let centerX := width screenSize / 2 in
  let s := set_isGameActive false s in
  let ballRadius := 25 in
  let ballBottomY := groundTopY s - 1 in
  let ballCenterY := ballBottomY - ballRadius in
  let s := set_ball (Ball.resetPosition centerX ballCenterY (ball s)) s in
  let player1X := centerX - 200 in
  let player2X := centerX + 200 in
  let playerY := groundTopY s in
  let s := set_player1 (Player.setPosition player1X playerY (player1 s)) s in
  let s := set_player2 (Player.setPosition player2X playerY (player2 s)) s in
  let s := set_player1 (Player.resetToKickoff (player1 s)) s in
  let s := set_player2 (Player.resetToKickoff (player2 s)) s in
  delayedCall (kickoffDelay gameConfig * 1000) AfterKickoff s.

Definition startGame (s : t) : t :=
  resetToKickoff (set_isGameActive true s).

(** The "proper kick" branch of [handlePlayerBallContact]. *)
Definition properKick (who : PlayerId) (s : t) : t :=
  let player := getPlayer who s in
  let kickInfo := Player.getKickInfo ballConfig player in
  let ballDistance :=
    Distance.Between (Player.x player) (Player.y player)
                     (Ball.x (ball s)) (Ball.y (ball s)) in
  let s :=
    set_ball (Ball.kick ballConfig (force kickInfo) (Player.y player)
                (type kickInfo) ballDistance (ball s)) s in
  if negb (Player.isSliding player) && negb (Player.isKicking player)
  then setPlayer who (Player.triggerKick playerConfig player) s
  else s.

(** The "body bounce" branch. *)
Definition bodyBounce (ballRelativeToPlayer : R) (s : t) : t :=
  let bounceForceX := if ballRelativeToPlayer >? 0 then 200 else -200 in
  let bounceForceY := -100 in
  set_ball (Ball.setVelocity bounceForceX bounceForceY (ball s)) s.

Definition handlePlayerBallContact (who : PlayerId) (s : t) : t :=
  if negb (isGameActive s) || GameUI.isPaused (gameUI s) then s
  else
    let player := getPlayer who s in
    let playerFacing := Player.getFacingDirection player in
    let ballRelativeToPlayer := Ball.x (ball s) - Player.x player in
    if isProperKick playerFacing ballRelativeToPlayer
    then properKick who s
    else bodyBounce ballRelativeToPlayer s.

Definition handlePlayerCollision (s : t) : t :=
  if negb (isGameActive s) || GameUI.isPaused (gameUI s) then s
  else if Player.isSliding (player1 s) && negb (Player.isSliding (player2 s))
  then set_player2 (Player.stun playerConfig (player2 s)) s
  else if Player.isSliding (player2 s) && negb (Player.isSliding (player1 s))
  then set_player1 (Player.stun playerConfig (player1 s)) s
  else s.

Definition handleGoal (now : R) (scoringPlayer : PlayerId) (s : t) : t :=
  if negb (isGameActive s) then s
  else if Num.truthy (lastGoalTime s) && (now - lastGoalTime s <? 1000) then s
  else
    let s := set_lastGoalTime now s in
    let s := set_isGameActive false s in
    let s := set_player1 (Player.setVelocity 0 0 (player1 s)) s in
    let s := set_player2 (Player.setVelocity 0 0 (player2 s)) s in
    let s := set_ball (Ball.setVelocity 0 0 (ball s)) s in
    let s :=
      match scoringPlayer with
      | P1 => set_player1Score (S (player1Score s)) s
      | P2 => set_player2Score (S (player2Score s)) s
      end in
    let s :=
      set_gameUI (GameUI.updateScore (player1Score s) (player2Score s) (gameUI s)) s in
    delayedCall (goalCelebrationTime gameConfig * 1000) AfterCelebration s.

(** The collision check of one player in [checkManualCollisions]:
    [dist] is the distance from the ball, [last] the time of the player's
    last manual contact and [stamp] the assignment to it. *)
Definition manualContact (who : PlayerId) (now dist last : R)
  (stamp : R -> t -> t) (s : t) : t :=
  let collisionDistance := 70 in
  if (dist <? collisionDistance) && (now - last >? 200)
  then handlePlayerBallContact who (stamp now s)
  else s.

(** The detection of one goal in [checkManualCollisions]: [crossed] is the
    position test of that goal. *)
Definition manualGoal (crossed : bool) (now : R) (scoringPlayer : PlayerId)
  (s : t) : t :=
  if crossed
  then if now - lastGoalTime s >? 1000 then handleGoal now scoringPlayer s else s
  else s.

Definition checkManualCollisions (now : R) (s : t) : t :=
  if negb (isGameActive s) || GameUI.isPaused (gameUI s) then s
  else
    let ballX := Ball.x (ball s) in
    let ballY := Ball.y (ball s) in
    let player1X := Player.x (player1 s) in
    let player1Y := Player.y (player1 s) in
    let player2X := Player.x (player2 s) in
    let player2Y := Player.y (player2 s) in
    let distToP1 :=
      sqrt ((ballX - player1X) * (ballX - player1X)
            + (ballY - player1Y) * (ballY - player1Y)) in
    let distToP2 :=
      sqrt ((ballX - player2X) * (ballX - player2X)
            + (ballY - player2Y) * (ballY - player2Y)) in
    let s :=
      manualContact P1 now distToP1 (lastManualCollisionP1 s)
        set_lastManualCollisionP1 s in
    let s :=
      manualContact P2 now distToP2 (lastManualCollisionP2 s)
        set_lastManualCollisionP2 s in
    let leftGoalX := Goal.x (leftGoal s) in
    let rightGoalX := Goal.x (rightGoal s) in
    let goalY := Goal.y (leftGoal s) in
    let goalHeight := goalHeight fieldConfig in
    let s :=
      manualGoal ((ballX <=? leftGoalX + 20)
                  && (ballY >=? goalY - goalHeight - 20)
                  && (ballY <=? goalY + 20)) now P2 s in
    manualGoal ((ballX >=? rightGoalX - 20)
                && (ballY >=? goalY - goalHeight - 20)
                && (ballY <=? goalY + 20)) now P1 s.

(** A delayed call that fires. *)
Definition runCallback (cb : SceneCallback) (s : t) : t :=
  match cb with
  | AfterCelebration => resetToKickoff s
  | AfterKickoff => set_isGameActive true s
  end.

(** The scene clock's update over the delayed calls that were pending when
    the frame began: each is advanced by [delta]; a due one fires and is
    dropped, the others are kept.  Calls scheduled by a callback are added
    behind them and start counting with the next frame. *)
Fixpoint runDelayedCalls (delta : R)
  (events kept : list (TimerEvent.t * SceneCallback)) (s : t) : t :=
  match events with
  | [] => set_delayedCalls (kept ++ delayedCalls s) s
  | (e, cb) :: rest =>
      let e := TimerEvent.advance delta e in
      if TimerEvent.due e
      then runDelayedCalls delta rest kept (runCallback cb s)
      else runDelayedCalls delta rest (kept ++ [(e, cb)]) s
  end.

(** One frame of the scene clock.  The jump timers of the players run on
    the same clock; a live one was created during play, hence before any
    delayed call of the scene that is still pending, and is served first. *)
Definition clockUpdate (delta : R) (s : t) : t :=
  let s := set_player1 (Player.clockUpdate playerConfig delta (player1 s)) s in
  let s := set_player2 (Player.clockUpdate playerConfig delta (player2 s)) s in
  runDelayedCalls delta (delayedCalls s) [] (set_delayedCalls [] s).

(** [update(time, delta)]: [c1] are the keys of player 1 and [c2] the
    controls of player 2, read from the keyboard in a two-player match and
    synthesised by the AI controller otherwise. *)
Definition update (now delta : R) (c1 c2 : Controls) (s : t) : t :=
  if negb (isGameActive s) || GameUI.isPaused (gameUI s) then s
  else
    let s :=
      set_player1
        (Player.update playerConfig delta (c_left c1) (c_right c1) (c_jump c1)
           (c_slide c1) (c_kick c1) (player1 s)) s in
    let s :=
      set_player2
        (Player.update playerConfig delta (c_left c2) (c_right c2) (c_jump c2)
           (c_slide c2) (c_kick c2) (player2 s)) s in
    let s := set_ball (Ball.update (ball s)) s in
    checkManualCollisions now s.

(** What the engine delivers to the scene: overlap notifications, frames
    of the scene clock, and calls of [update]. *)
Inductive Event : Type :=
| GoalZoneOverlap (now : R) (scoringPlayer : PlayerId)
| BallPlayerOverlap (who : PlayerId)
| PlayersOverlap
| ClockTick (delta : R)
| Update (now delta : R) (c1 c2 : Controls).

Definition handle (ev : Event) (s : t) : t :=
  match ev with
  | GoalZoneOverlap now scoringPlayer => handleGoal now scoringPlayer s
  | BallPlayerOverlap who => handlePlayerBallContact who s
  | PlayersOverlap => handlePlayerCollision s
  | ClockTick delta => clockUpdate delta s
  | Update now delta c1 c2 => update now delta c1 c2 s
  end.

Definition run (evs : list Event) (s : t) : t :=
  fold_left (fun s ev => handle ev s) evs s.

End WithConfig.

(** The scene-clock time that a sequence of events lets pass. *)
Fixpoint clockTime (evs : list Event) : R :=
  match evs with
  | [] => 0
  | ClockTick delta :: rest => delta + clockTime rest
  | _ :: rest => clockTime rest
  end.

End GameScene.

(** ** Sample data

    Values on which the model is run in the examples below.  The
    configuration values are illustrative ([gameConfig.json] is not among
    the sources read); the screen is the 1152 x 768 one that [Ball.update]
    and [Player.updateGroundStatus] hard-code. *)

Module Sample.

Definition ballConfig : BallConfig :=
  {| maxSpeed := 800; normalKickForce := 400; slideKickForce := 600;
     jumpKickForce := 350; runningKickForce := 500 |}.

Definition playerConfig : PlayerConfig :=
  {| moveSpeed := 300; jumpPower := 600; slideSpeed := 500;
     slideDuration := 0.8; kickDuration := 0.3; stunDuration := 0.8 |}.

Definition fieldConfig : FieldConfig := {| goalWidth := 120; goalHeight := 80 |}.

Definition gameConfig : GameConfig :=
  {| kickoffDelay := 1; goalCelebrationTime := 2 |}.

Definition screenSize : ScreenSize := {| width := 1152; height := 768 |}.

(** A ball at rest at [(bx, by)]. *)
Definition ballAt (bx bz : R) : Ball.t := Ball.mk bx bz (Vector2.mk 0 0) 0.

(** The scene as [create] leaves it once the kickoff delay has passed:
    scores 0, match active, players and ball at their kickoff places. *)
Definition scene : GameScene.t :=
  {| GameScene.isGameActive := true;
     GameScene.isGamePaused := false;
     GameScene.player1Score := 0;
     GameScene.player2Score := 0;
     GameScene.lastManualCollisionP1 := 0;
     GameScene.lastManualCollisionP2 := 0;
     GameScene.lastGoalTime := 0;
     GameScene.groundTopY := 648;
     GameScene.player1 := Player.new 376 648 Side.left;
     GameScene.player2 := Player.new 776 648 Side.right;
     GameScene.ball := ballAt 576 622;
     GameScene.leftGoal := Goal.mk 80 648 Side.left;
     GameScene.rightGoal := Goal.mk 1072 648 Side.right;
     GameScene.gameUI := GameUI.mk 0 0 false;
     GameScene.delayedCalls := [] |}.

(** Player 1 after one frame without input, and after a second frame with
    the jump key down. *)
Definition standing : Player.t :=
  Player.update playerConfig 16 false false false false false
    (Player.new 376 648 Side.left).

Definition airborne : Player.t :=
  Player.update playerConfig 16 false false true false false standing.

(** Player 1 presses the kick key while standing and is stunned by a
    slide tackle before the kick is over. *)
Definition tackledKicker : Player.t :=
  Player.stun playerConfig
    (Player.update playerConfig 16 false false false false true standing).

(** The match with the ball 24 units to the right of player 1. *)
Definition ballAhead : GameScene.t :=
  GameScene.set_ball (ballAt 400 622) scene.

(** The same contact, with player 1 in the state of [tackledKicker]. *)
Definition ballAheadOfTackled : GameScene.t :=
  GameScene.set_player1 tackledKicker ballAhead.


End Sample.

(** ** Predicates in which the properties of the match are stated *)

Module Match.

(** Two scenes that differ at most in the ball, the players and the
    timestamps of the manual contact check. *)
Definition sameMatch (s s' : GameScene.t) : Prop :=
  GameScene.isGameActive s' = GameScene.isGameActive s
  /\ GameScene.player1Score s' = GameScene.player1Score s
  /\ GameScene.player2Score s' = GameScene.player2Score s
  /\ GameScene.lastGoalTime s' = GameScene.lastGoalTime s
  /\ GameScene.gameUI s' = GameScene.gameUI s
  /\ GameScene.leftGoal s' = GameScene.leftGoal s
  /\ GameScene.rightGoal s' = GameScene.rightGoal s
  /\ GameScene.delayedCalls s' = GameScene.delayedCalls s.

(** No clock tick of the sequence runs backwards. *)
Fixpoint forward (evs : list GameScene.Event) : Prop :=
  match evs with
  | [] => True
  | GameScene.ClockTick delta :: rest => 0 <= delta /\ forward rest
  | _ :: rest => forward rest
  end.

Section WithConfig.

Variable gameConfig : GameConfig.

(** The freeze after a goal, [total] time-units of the scene clock after
    the goal was accepted: the match is inactive, the scores are [p1] and
    [p2], and the only delayed call pending is either the end of the
    celebration, scheduled at the goal, or the end of the kickoff delay,
    scheduled when the celebration ended. *)
Definition frozen (p1 p2 : nat) (total : R) (s : GameScene.t) : Prop :=
  GameScene.isGameActive s = false
  /\ GameScene.player1Score s = p1
  /\ GameScene.player2Score s = p2
  /\ ((exists e,
         GameScene.delayedCalls s = [(e, AfterCelebration)]
         /\ TimerEvent.hasDispatched e = false
         /\ TimerEvent.delay e = goalCelebrationTime gameConfig * 1000
         /\ TimerEvent.elapsed e = total)
      \/ (exists e,
            GameScene.delayedCalls s = [(e, AfterKickoff)]
            /\ TimerEvent.hasDispatched e = false
            /\ TimerEvent.delay e = kickoffDelay gameConfig * 1000
            /\ TimerEvent.elapsed e + goalCelebrationTime gameConfig * 1000
               <= total)).

End WithConfig.

(** At most one delayed call of the scene is pending, and none while the
    match is active. *)
Definition wellTimed (s : GameScene.t) : Prop :=
  GameScene.delayedCalls s = []
  \/ (GameScene.isGameActive s = false
      /\ exists e cb,
           GameScene.delayedCalls s = [(e, cb)]
           /\ TimerEvent.hasDispatched e = false).

End Match.

(** ** AIController.ts: execution of the selected behaviour and [update] *)

Module AIActions.

Definition noControls : Controls :=
  {| c_left := false; c_right := false; c_jump := false; c_slide := false;
     c_kick := false |}.

Definition set_left (v : bool) (c : Controls) : Controls :=
  {| c_left := v; c_right := c_right c; c_jump := c_jump c;
     c_slide := c_slide c; c_kick := c_kick c |}.
Definition set_right (v : bool) (c : Controls) : Controls :=
  {| c_left := c_left c; c_right := v; c_jump := c_jump c;
     c_slide := c_slide c; c_kick := c_kick c |}.
Definition set_jump (v : bool) (c : Controls) : Controls :=
  {| c_left := c_left c; c_right := c_right c; c_jump := v;
     c_slide := c_slide c; c_kick := c_kick c |}.
Definition set_slide (v : bool) (c : Controls) : Controls :=
  {| c_left := c_left c; c_right := c_right c; c_jump := c_jump c;
     c_slide := v; c_kick := c_kick c |}.
Definition set_kick (v : bool) (c : Controls) : Controls :=
  {| c_left := c_left c; c_right := c_right c; c_jump := c_jump c;
     c_slide := c_slide c; c_kick := v |}.

Definition set_jumpTimer (v : R) (ai : AIController.t) : AIController.t :=
  AIController.mk (AIController.reactionTime ai) (AIController.lastDecisionTime ai)
    (AIController.currentAction ai) (AIController.actionTimer ai) v
    (AIController.kickTimer ai) (AIController.moveAccuracy ai)
    (AIController.reactionSpeed ai) (AIController.aggressiveness ai)
    (AIController.kickAccuracy ai).

Definition set_kickTimer (v : R) (ai : AIController.t) : AIController.t :=
  AIController.mk (AIController.reactionTime ai) (AIController.lastDecisionTime ai)
    (AIController.currentAction ai) (AIController.actionTimer ai)
    (AIController.jumpTimer ai) v (AIController.moveAccuracy ai)
    (AIController.reactionSpeed ai) (AIController.aggressiveness ai)
    (AIController.kickAccuracy ai).

(** The movement block that the four behaviours share: when the player
    is further than [tolerance] from [targetX], press the key toward it. *)
Definition moveToward (playerX targetX tolerance : R) (controls : Controls)
  : Controls :=
  if Rabs (playerX - targetX) >? tolerance then
    if playerX <? targetX then set_right true controls
    else set_left true controls
  else controls.

(** The jump block: [wanted] is the behaviour's condition on the ball;
    the jump is asked for only with the jump timer run out, and the timer
    is then set to [rearm]. *)
Definition wantJump (wanted : bool) (rearm : R)
  (st : Controls * AIController.t) : Controls * AIController.t :=
  let '(controls, ai) := st in
  if wanted && (AIController.jumpTimer ai <=? 0)
  then (set_jump true controls, set_jumpTimer rearm ai)
  else (controls, ai).

(** The kick block, likewise. *)
Definition wantKick (wanted : bool) (rearm : R)
  (st : Controls * AIController.t) : Controls * AIController.t :=
  let '(controls, ai) := st in
  if wanted && (AIController.kickTimer ai <=? 0)
  then (set_kick true controls, set_kickTimer rearm ai)
  else (controls, ai).

Definition chaseAI (random : R) (player : Player.t) (ball : Ball.t)
  (controls : Controls) (ai : AIController.t) : Controls * AIController.t :=
  let ballVelocity := Ball.getVelocity ball in
  let predictedBallX := Ball.x ball + Vector2.x ballVelocity * 0.5 in
  let targetX :=
    predictedBallX + (random - 0.5) * (1 - AIController.moveAccuracy ai) * 100 in
  let controls := moveToward (Player.x player) targetX 20 controls in
  let st := wantJump (Ball.y ball <? Player.y player - 30) 1000 (controls, ai) in
  wantKick
    (Distance.Between (Player.x player) (Player.y player) (Ball.x ball) (Ball.y ball)
     <? 60) 800 st.

Definition attackAI (random : R) (player : Player.t) (ball : Ball.t)
  (opponent : Player.t) (controls : Controls) (ai : AIController.t)
  : Controls * AIController.t :=
  let controls := moveToward (Player.x player) (Ball.x ball) 10 controls in
  let st := wantJump (Ball.y ball <? Player.y player - 20) 800 (controls, ai) in
  let distanceToKick :=
    Distance.Between (Player.x player) (Player.y player) (Ball.x ball) (Ball.y ball) in
  let '(controls, ai) := wantKick (distanceToKick <? 70) 600 st in
  let opponentToBall :=
    Distance.Between (Player.x opponent) (Player.y opponent) (Ball.x ball)
      (Ball.y ball) in
  let playerToOpponent :=
    Distance.Between (Player.x player) (Player.y player) (Player.x opponent)
      (Player.y opponent) in
  if (opponentToBall <? 80) && (playerToOpponent <? 100)
     && (AIController.aggressiveness ai >? random)
  then (set_slide true controls, ai)
  else (controls, ai).

Definition defendAI (cameraWidth : R) (player : Player.t) (ball : Ball.t)
  (controls : Controls) (ai : AIController.t) : Controls * AIController.t :=
  let ballVelocity := Ball.getVelocity ball in
  let isRightSide := Side.eqb (Player.getPlayerSide player) Side.right in
  let ownGoalX := if isRightSide then cameraWidth * 0.9 else cameraWidth * 0.1 in
  let interceptX := (Ball.x ball + ownGoalX) / 2 in
  let controls := moveToward (Player.x player) interceptX 30 controls in
  let st :=
    wantJump ((Ball.y ball <? Player.y player - 20) && (Vector2.y ballVelocity <? 0))
      1000 (controls, ai) in
  let distanceToBall :=
    Distance.Between (Player.x player) (Player.y player) (Ball.x ball) (Ball.y ball) in
  wantKick (distanceToBall <? 80) 700 st.

Definition idleAI (cameraWidth random : R) (player : Player.t) (ball : Ball.t)
  (controls : Controls) (ai : AIController.t) : Controls * AIController.t :=
  let isRightSide := Side.eqb (Player.getPlayerSide player) Side.right in
  let centerX := cameraWidth * 0.5 in
  let strategicX := if isRightSide then centerX + 150 else centerX - 150 in
  let controls := moveToward (Player.x player) strategicX 50 controls in
  let distanceToBall :=
    Distance.Between (Player.x player) (Player.y player) (Ball.x ball) (Ball.y ball) in
  if (distanceToBall <? 200) && (random <? 0.3) then
    if Player.x player <? Ball.x ball
    then (set_right true controls, ai)
    else (set_left true controls, ai)
  else (controls, ai).

(** [executeAction]; [random] is the value of the one [Math.random()]
    that the behaviour run may draw. *)
Definition executeAction (cameraWidth random : R) (player : Player.t)
  (ball : Ball.t) (opponent : Player.t) (ai : AIController.t)
  : Controls * AIController.t :=
  let controls := noControls in
  match AIController.currentAction ai with
  | Action.chase => chaseAI random player ball controls ai
  | Action.attack => attackAI random player ball opponent controls ai
  | Action.defend => defendAI cameraWidth player ball controls ai
  | Action.idle => idleAI cameraWidth random player ball controls ai
  end.

(** The "gentle AI" block of [update]: the three filters on the controls
    that [executeAction] returned. *)
Definition limitActions (player : Player.t) (ai : AIController.t)
  (controls : Controls) : Controls :=
  let controls :=
    if c_jump controls && (AIController.jumpTimer ai >? 0)
    then set_jump false controls else controls in
  let controls :=
    if c_slide controls && Player.isSliding player
    then set_slide false controls else controls in
  if c_kick controls && Player.isKicking player
  then set_kick false controls else controls.

(** The controls with which [update] calls [player.update], and the
    controller after the decision and the behaviour have run.  [random1]
    is the value drawn by [makeDecision], [random2] the one drawn by the
    behaviour. *)
Definition synthesize (deltaTime now cameraWidth random1 random2 : R)
  (player : Player.t) (ball : Ball.t) (opponent : Player.t)
  (ai : AIController.t) : Controls * AIController.t :=
  let ai :=
    AIController.updateDecision deltaTime now player ball cameraWidth random1 ai in
  let '(controls, ai) :=
    executeAction cameraWidth random2 player ball opponent ai in
  (limitActions player ai controls, ai).

Section WithConfig.

Variable playerConfig : PlayerConfig.

Definition update (deltaTime now cameraWidth random1 random2 : R)
  (player : Player.t) (ball : Ball.t) (opponent : Player.t)
  (ai : AIController.t) : AIController.t * Player.t :=
  let '(controls, ai) :=
    synthesize deltaTime now cameraWidth random1 random2 player ball opponent ai in
  (ai,
   Player.update playerConfig deltaTime (c_left controls) (c_right controls)
     (c_jump controls) (c_slide controls) (c_kick controls) player).

End WithConfig.

End AIActions.

(** ** Frames of the controller *)
Module AIFrames.

(** What one call of [update] reads: the frame's [deltaTime], the scene
    clock, the camera width, the two random draws, and the player, the
    ball and the opponent as they are in that frame. *)
Record Frame : Type := {
  deltaTime : R;
  now : R;
  cameraWidth : R;
  random1 : R;
  random2 : R;
  player : Player.t;
  ball : Ball.t;
  opponent : Player.t
}.

Definition frame (f : Frame) (ai : AIController.t) : Controls * AIController.t :=
  AIActions.synthesize (deltaTime f) (now f) (cameraWidth f) (random1 f)
    (random2 f) (player f) (ball f) (opponent f) ai.

(** The controls of successive frames. *)
Fixpoint run (fs : list Frame) (ai : AIController.t)
  : list Controls * AIController.t :=
  match fs with
  | [] => ([], ai)
  | f :: rest =>
      let '(c, ai) := frame f ai in
      let '(cs, ai') := run rest ai in
      (c :: cs, ai')
  end.

(** The time that the frames take. *)
Fixpoint duration (fs : list Frame) : R :=
  match fs with
  | [] => 0
  | f :: rest => deltaTime f + duration rest
  end.

End AIFrames.

(** ** GameUI.ts: the game timer and the end of the match *)

Module GameTimer.

(** The payload of the [gameEnd] event. *)
Record GameEnd : Type := {
  finalPlayer1Score : nat;
  finalPlayer2Score : nat;
  winner : nat
}.

(** The interface with its countdown: [gameTime] in seconds, the repeats
    that the timer event has left, and whether it was destroyed. *)
Record t : Type := mk {
  ui : GameUI.t;
  gameTime : Z;
  repeatCount : Z;
  destroyed : bool
}.

(** [startGameTimer]: an event every 1000 ms, [repeat: this.gameTime]. *)
Definition startGameTimer (ui0 : GameUI.t) (gameTime0 : Z) : t :=
  mk ui0 gameTime0 gameTime0 false.

Definition onGameEnd (ui0 : GameUI.t) : GameEnd :=
  let p1 := GameUI.player1Score ui0 in
  let p2 := GameUI.player2Score ui0 in
  let w :=
    if Nat.ltb p2 p1 then 1%nat else if Nat.ltb p1 p2 then 2%nat else 0%nat in
  {| finalPlayer1Score := p1; finalPlayer2Score := p2; winner := w |}.

(** [updateTimer]: one second less; at zero the timer destroys itself and
    the end of the game is signalled. *)
Definition updateTimer (c : t) : t * option GameEnd :=
  let c := mk (ui c) (gameTime c - 1)%Z (repeatCount c) (destroyed c) in
  if (gameTime c <=? 0)%Z
  then (mk (ui c) (gameTime c) (repeatCount c) true, Some (onGameEnd (ui c)))
  else (c, None).

(** One period of the timer event: nothing when it is destroyed or
    paused; otherwise the callback, after which the event repeats if it
    has repeats left and is removed if not. *)
Definition fire (c : t) : t * option GameEnd :=
  if destroyed c || GameUI.isPaused (ui c) then (c, None)
  else
    let '(c, ended) := updateTimer c in
    if (repeatCount c >? 0)%Z
    then (mk (ui c) (gameTime c) (repeatCount c - 1)%Z (destroyed c), ended)
    else (mk (ui c) (gameTime c) (repeatCount c) true, ended).

(** [n] periods in a row, with the signals they gave. *)
Fixpoint fireTimes (n : nat) (c : t) : t * list GameEnd :=
  match n with
  | O => (c, [])
  | S n' =>
      let '(c, ended) := fire c in
      let '(c', later) := fireTimes n' c in
      (c', match ended with Some e => e :: later | None => later end)
  end.

End GameTimer.

(** The interface shows the scores of the scene. *)
Module Scoreboard.

Definition shown (s : GameScene.t) : Prop :=
  GameUI.player1Score (GameScene.gameUI s) = GameScene.player1Score s
  /\ GameUI.player2Score (GameScene.gameUI s) = GameScene.player2Score s.

End Scoreboard.

(** ** Steps of one player: frames of [update] and of the scene clock *)

Module PlayerSteps.

Inductive Step : Type :=
| ClockStep (delta : R)
| FrameStep (deltaTime : R) (c : Controls).

(** The player's land timer is not pending: there is none, or it has
    fired. *)
Definition landTimerSpent (p : Player.t) : Prop :=
  match Player.jumpLandTimer p with
  | Some e => TimerEvent.hasDispatched e = true
  | None => True
  end.

Section WithConfig.

Variable playerConfig : PlayerConfig.

Definition step (st : Step) (p : Player.t) : Player.t :=
  match st with
  | ClockStep delta => Player.clockUpdate playerConfig delta p
  | FrameStep deltaTime c =>
      Player.update playerConfig deltaTime (c_left c) (c_right c) (c_jump c)
        (c_slide c) (c_kick c) p
  end.

Definition run (steps : list Step) (p : Player.t) : Player.t :=
  fold_left (fun p st => step st p) steps p.

End WithConfig.

End PlayerSteps.

(** ** Further sample data *)
Module Scenario.

(** The jumping player 1 touches the ball for a proper kick. *)
Definition airKicker : Player.t :=
  Player.triggerKick Sample.playerConfig Sample.airborne.

(** The jumping player 1 with its land timer fired. *)
Definition strandedJumper : Player.t :=
  Player.set_jumpLandTimer
    (Some (TimerEvent.dispatched (TimerEvent.delayedCall 600))) Sample.airborne.


(** A frame of the computer player: the ball at rest 50 units away, the
    opponent far off, the decision clock due. *)
Definition aiFrame : AIFrames.Frame :=
  {| AIFrames.deltaTime := 16;
     AIFrames.now := 1000;
     AIFrames.cameraWidth := 1152;
     AIFrames.random1 := 0.5;
     AIFrames.random2 := 0.5;
     AIFrames.player := Player.new 0 0 Side.right;
     AIFrames.ball := Sample.ballAt 30 40;
     AIFrames.opponent := Player.new 400 0 Side.left |}.

End Scenario.

(** * Properties *)

(** ** Comparisons *)

Lemma ltb_true_iff (a b : R) : (a <? b) = true <-> a < b.
Proof. unfold Num.ltb; destruct (Rlt_dec a b); split; intros; auto; discriminate. Qed.

Lemma ltb_false_iff (a b : R) : (a <? b) = false <-> b <= a.
Proof.
  unfold Num.ltb; destruct (Rlt_dec a b); split; intros; auto;
    try discriminate; lra.
Qed.

Lemma leb_true_iff (a b : R) : (a <=? b) = true <-> a <= b.
Proof. unfold Num.leb; destruct (Rle_dec a b); split; intros; auto; discriminate. Qed.

Lemma leb_false_iff (a b : R) : (a <=? b) = false <-> b < a.
Proof.
  unfold Num.leb; destruct (Rle_dec a b); split; intros; auto;
    try discriminate; lra.
Qed.

Lemma gtb_true_iff (a b : R) : (a >? b) = true <-> b < a.
Proof. apply ltb_true_iff. Qed.

Lemma gtb_false_iff (a b : R) : (a >? b) = false <-> a <= b.
Proof. apply ltb_false_iff. Qed.

Lemma geb_true_iff (a b : R) : (a >=? b) = true <-> b <= a.
Proof. apply leb_true_iff. Qed.

Lemma geb_false_iff (a b : R) : (a >=? b) = false <-> a < b.
Proof. apply leb_false_iff. Qed.

Lemma truthy_true_iff (a : R) : Num.truthy a = true <-> a <> 0.
Proof.
  unfold Num.truthy; destruct (Req_dec_T a 0); split; intros; auto;
    try discriminate; contradiction.
Qed.

Lemma truthy_false_iff (a : R) : Num.truthy a = false <-> a = 0.
Proof.
  unfold Num.truthy; destruct (Req_dec_T a 0); split; intros; auto;
    try discriminate; contradiction.
Qed.



(** ** Vectors *)

Lemma sqrt_sq_nonneg (k : R) : 0 <= k -> sqrt (k * k) = k.
Proof. intros Hk. now apply sqrt_square. Qed.

Lemma length_nonneg (v : Vector2.t) : 0 <= Vector2.length v.
Proof. apply sqrt_pos. Qed.

Lemma length_zero : Vector2.length (Vector2.mk 0 0) = 0.
Proof.
  unfold Vector2.length; simpl.
  replace (0 * 0 + 0 * 0) with 0 by ring. apply sqrt_0.
Qed.


Lemma length_pos_sumsq (v : Vector2.t) :
  0 < Vector2.length v -> 0 < Vector2.x v * Vector2.x v + Vector2.y v * Vector2.y v.
Proof.
  unfold Vector2.length. intros H.
  destruct (Rle_or_lt (Vector2.x v * Vector2.x v + Vector2.y v * Vector2.y v) 0)
    as [Hle | Hlt]; [ | exact Hlt ].
  rewrite (sqrt_neg_0 _ Hle) in H. lra.
Qed.

(** A normalised non-zero vector scaled by [k >= 0] has length [k]. *)
Lemma length_scale_normalize (v : Vector2.t) (k : R) :
  0 < Vector2.length v -> 0 <= k ->
  Vector2.length (Vector2.scale (Vector2.normalize v) k) = k.
Proof.
  intros Hv Hk. pose proof (length_pos_sumsq v Hv) as Hs.
  unfold Vector2.normalize. cbv zeta.
  rewrite (proj2 (gtb_true_iff _ 0) Hs).
  unfold Vector2.length, Vector2.scale; simpl.
  set (L := Vector2.x v * Vector2.x v + Vector2.y v * Vector2.y v) in *.
  assert (Hq : 0 < sqrt L) by now apply sqrt_lt_R0.
  assert (Hsq : sqrt L * sqrt L = L) by (apply sqrt_sqrt; lra).
  replace (Vector2.x v * (1 / sqrt L) * k * (Vector2.x v * (1 / sqrt L) * k)
           + Vector2.y v * (1 / sqrt L) * k * (Vector2.y v * (1 / sqrt L) * k))
    with (k * k).
  - now apply sqrt_sq_nonneg.
  - transitivity (L * / (sqrt L * sqrt L) * (k * k)).
    + rewrite Hsq. field. lra.
    + unfold L. field. fold L. lra.
Qed.

(** ** Ball.kick *)

Section BallKick.

Variable ballConfig : BallConfig.

(** The velocity that [kick] sets is the shaped impulse after the speed
    limit. *)
Lemma kick_velocity (f : Vector2.t) (h : R) (k : KickType) (d : R) (b : Ball.t) :
  Ball.velocity (Ball.kick ballConfig f h k d b)
  = Ball.limitSpeed ballConfig (Ball.shapedForce f k d).
Proof.
  unfold Ball.kick; simpl.
  now destruct (Ball.limitSpeed ballConfig (Ball.shapedForce f k d)).
Qed.

Lemma limitSpeed_within (v : Vector2.t) :
  Vector2.length v <= maxSpeed ballConfig * 1.2 ->
  Ball.limitSpeed ballConfig v = v.
Proof.
  intros H. unfold Ball.limitSpeed. cbv zeta.
  now rewrite (proj2 (gtb_false_iff _ _) H).
Qed.

Lemma limitSpeed_exceeding (v : Vector2.t) :
  maxSpeed ballConfig * 1.2 < Vector2.length v ->
  Ball.limitSpeed ballConfig v
  = Vector2.scale (Vector2.normalize v) (maxSpeed ballConfig * 1.2).
Proof.
  intros H. unfold Ball.limitSpeed. cbv zeta.
  now rewrite (proj2 (gtb_true_iff _ _) H).
Qed.

Lemma limitSpeed_bound (v : Vector2.t) :
  0 <= maxSpeed ballConfig ->
  Vector2.length (Ball.limitSpeed ballConfig v) <= maxSpeed ballConfig * 1.2.
Proof.
  intros HM.
  destruct (Rle_or_lt (Vector2.length v) (maxSpeed ballConfig * 1.2)) as [Hle | Hgt].
  - now rewrite limitSpeed_within.
  - rewrite (limitSpeed_exceeding v Hgt).
    rewrite length_scale_normalize; lra.
Qed.


End BallKick.

(** The normal kick, in terms of its power factor. *)
Lemma shapedForce_normal (f : Vector2.t) (d : R) :
  Ball.shapedForce f normal d
  = Vector2.mk (Vector2.x f * Ball.powerFactor d) (- Rmax 200 (d * 1.5)).
Proof. reflexivity. Qed.

Lemma powerFactor_below_300 (d : R) :
  d <= 300 -> Ball.powerFactor d = 0.8 + d / 150 * 0.4.
Proof.
  intros H. unfold Ball.powerFactor. cbv zeta.
  rewrite Rmin_left; [ reflexivity | lra ].
Qed.

Lemma powerFactor_from_300 (d : R) : 300 <= d -> Ball.powerFactor d = 1.6.
Proof.
  intros H. unfold Ball.powerFactor. cbv zeta.
  rewrite Rmin_right; lra.
Qed.

(** For a distance [d >= 0] the factor lies in [0.8, 1.6]; it stays within
    [0.8, 1.2] only up to [d = 150] and goes on growing until [d = 300]. *)
Lemma powerFactor_range (d : R) : 0 <= d -> 0.8 <= Ball.powerFactor d <= 1.6.
Proof.
  intros H. destruct (Rle_or_lt d 300) as [Hle | Hgt].
  - rewrite powerFactor_below_300 by exact Hle. lra.
  - rewrite powerFactor_from_300 by lra. lra.
Qed.

Lemma powerFactor_up_to_150 (d : R) :
  0 <= d <= 150 -> 0.8 <= Ball.powerFactor d <= 1.2.
Proof. intros H. rewrite powerFactor_below_300 by lra. lra. Qed.

Lemma powerFactor_past_150 (d : R) : 150 < d -> 1.2 < Ball.powerFactor d.
Proof.
  intros H. destruct (Rle_or_lt d 300) as [Hle | Hgt].
  - rewrite powerFactor_below_300 by exact Hle. lra.
  - rewrite powerFactor_from_300 by lra. lra.
Qed.

(** The vertical component of a normal kick does not depend on the
    impulse. *)
Lemma normal_kick_vertical (fx fy d : R) :
  Vector2.y (Ball.shapedForce (Vector2.mk fx fy) normal d) = - Rmax 200 (1.5 * d).
Proof. simpl. now rewrite (Rmult_comm 1.5 d). Qed.

(** C3 (the code at the failing input).  A normal kick from approach
    distance 300 scales the raw impulse [(100, -100)] by 1.6, outside the
    interval [0.8, 1.2] that the comment on that line of [Ball.kick] and
    the specification give, and the factor at 300 is larger than at 150:
    it does not stop growing at 150.  The vertical component is the
    override [-max(200, 1.5 * 300) = -450]. *)
Theorem normal_kick_factor_at_300 :
  Ball.powerFactor 300 = 1.6
  /\ Ball.powerFactor 150 < Ball.powerFactor 300
  /\ Ball.shapedForce (Vector2.mk 100 (-100)) normal 300 = Vector2.mk 160 (-450).
Proof.
  assert (H300 : Ball.powerFactor 300 = 1.6) by (apply powerFactor_from_300; lra).
  assert (H150 : Ball.powerFactor 150 = 1.2)
    by (rewrite powerFactor_below_300 by lra; lra).
  repeat split.
  - exact H300.
  - lra.
  - rewrite shapedForce_normal, H300. simpl.
    rewrite Rmax_right by lra. f_equal; lra.
Qed.

(** C5.  A jump kick of the impulse [(x, y)] leaves the switch with
    horizontal component [0.8 * x] and vertical component [-2.0 * |y|],
    which is never positive and has magnitude exactly [2.0 * |y|]. *)
Theorem jump_kick_shape (fx fy d : R) :
  Ball.shapedForce (Vector2.mk fx fy) jump d
  = Vector2.mk (0.8 * fx) (-2.0 * Rabs fy)
  /\ Vector2.y (Ball.shapedForce (Vector2.mk fx fy) jump d) <= 0
  /\ Rabs (Vector2.y (Ball.shapedForce (Vector2.mk fx fy) jump d)) = 2.0 * Rabs fy.
Proof.
  pose proof (Rabs_pos fy) as Hp.
  unfold Ball.shapedForce, Vector2.clone; simpl.
  repeat split.
  - f_equal; lra.
  - lra.
  - replace (Rabs fy * -2.0) with (- (2.0 * Rabs fy)) by lra.
    rewrite Rabs_Ropp. apply Rabs_pos_eq. lra.
Qed.

(** C4.  Whatever the impulse, kind and distance, the velocity that
    [kick] sets on the ball has magnitude at most [1.2 * maxSpeed] (the
    configured maximum speed being non-negative). *)
Theorem kick_speed_limited (ballConfig : BallConfig) (f : Vector2.t) (h : R)
  (k : KickType) (d : R) (b : Ball.t) :
  0 <= maxSpeed ballConfig ->
  Vector2.length (Ball.velocity (Ball.kick ballConfig f h k d b))
  <= 1.2 * maxSpeed ballConfig.
Proof.
  intros HM. rewrite kick_velocity.
  pose proof (limitSpeed_bound ballConfig (Ball.shapedForce f k d) HM). lra.
Qed.

Lemma kick_speed_limited_witness :
  0 <= maxSpeed Sample.ballConfig
  /\ Vector2.length
       (Ball.velocity
          (Ball.kick Sample.ballConfig (Vector2.mk 2000 (-50)) 648 slide 200
             (Sample.ballAt 576 622)))
     <= 1.2 * maxSpeed Sample.ballConfig.
Proof.
  split.
  - simpl. lra.
  - apply (kick_speed_limited Sample.ballConfig (Vector2.mk 2000 (-50)) 648 slide
             200 (Sample.ballAt 576 622)).
    simpl. lra.
Defined.








(** ** Player: timers and ground status *)

Lemma PlayerState_eqb_eq (a b : PlayerState) :
  PlayerState_eqb a b = true <-> a = b.
Proof. destruct a, b; simpl; split; intros H; try reflexivity; discriminate. Qed.

Lemma PlayerState_eqb_neq (a b : PlayerState) :
  a <> b -> PlayerState_eqb a b = false.
Proof.
  intros H. destruct (PlayerState_eqb a b) eqn:E; [ | reflexivity ].
  apply PlayerState_eqb_eq in E. contradiction.
Qed.

Lemma PlayerState_eqb_refl (a : PlayerState) : PlayerState_eqb a a = true.
Proof. now destruct a. Qed.

Section PlayerFacts.

Variable playerConfig : PlayerConfig.

Lemma updateStunTimer_expired (dt : R) (p : Player.t) :
  Player.stunTimer p <= 0 -> Player.updateStunTimer dt p = p.
Proof.
  intros H. unfold Player.updateStunTimer.
  now rewrite (proj2 (gtb_false_iff _ _) H).
Qed.

Lemma updateSlideTimer_expired (dt : R) (p : Player.t) :
  Player.slideTimer p <= 0 -> Player.updateSlideTimer dt p = p.
Proof.
  intros H. unfold Player.updateSlideTimer.
  now rewrite (proj2 (gtb_false_iff _ _) H).
Qed.

Lemma updateKickTimer_expired (dt : R) (p : Player.t) :
  Player.kickTimer p <= 0 -> Player.updateKickTimer dt p = p.
Proof.
  intros H. unfold Player.updateKickTimer.
  now rewrite (proj2 (gtb_false_iff _ _) H).
Qed.

Lemma updateKickCooldown_expired (dt : R) (p : Player.t) :
  Player.kickCooldown p <= 0 -> Player.updateKickCooldown dt p = p.
Proof.
  intros H. unfold Player.updateKickCooldown.
  now rewrite (proj2 (gtb_false_iff _ _) H).
Qed.

(** With every countdown at rest, [updateTimers] changes nothing. *)
Lemma updateTimers_at_rest (dt : R) (p : Player.t) :
  Player.stunTimer p <= 0 -> Player.slideTimer p <= 0 ->
  Player.kickTimer p <= 0 -> Player.kickCooldown p <= 0 ->
  Player.updateTimers dt p = p.
Proof.
  intros Hs Hl Hk Hc. unfold Player.updateTimers.
  rewrite updateStunTimer_expired by exact Hs.
  rewrite updateSlideTimer_expired by exact Hl.
  rewrite updateKickTimer_expired by exact Hk.
  now apply updateKickCooldown_expired.
Qed.

(** The state of a player that is neither stunned, sliding nor kicking is
    not touched by any countdown. *)
Lemma updateStunTimer_state (dt : R) (p : Player.t) :
  Player.playerState p <> stunned ->
  Player.playerState (Player.updateStunTimer dt p) = Player.playerState p.
Proof.
  intros H. unfold Player.updateStunTimer.
  destruct (Player.stunTimer p >? 0); [ | reflexivity ].
  cbn [Player.stunTimer Player.set_stunTimer].
  destruct (Player.stunTimer p - dt <=? 0); [ | reflexivity ].
  cbn [Player.playerState Player.set_isStunned Player.set_stunTimer].
  now rewrite (PlayerState_eqb_neq _ _ H).
Qed.

Lemma updateSlideTimer_state (dt : R) (p : Player.t) :
  Player.playerState p <> sliding ->
  Player.playerState (Player.updateSlideTimer dt p) = Player.playerState p.
Proof.
  intros H. unfold Player.updateSlideTimer.
  destruct (Player.slideTimer p >? 0); [ | reflexivity ].
  cbn [Player.slideTimer Player.set_slideTimer Player.playerState].
  rewrite (PlayerState_eqb_neq _ _ H), andb_false_r. reflexivity.
Qed.

Lemma updateKickTimer_state (dt : R) (p : Player.t) :
  Player.playerState p <> kicking ->
  Player.playerState (Player.updateKickTimer dt p) = Player.playerState p.
Proof.
  intros H. unfold Player.updateKickTimer.
  destruct (Player.kickTimer p >? 0); [ | reflexivity ].
  cbn [Player.kickTimer Player.set_kickTimer Player.playerState].
  rewrite (PlayerState_eqb_neq _ _ H), andb_false_r. reflexivity.
Qed.

Lemma updateKickCooldown_state (dt : R) (p : Player.t) :
  Player.playerState (Player.updateKickCooldown dt p) = Player.playerState p.
Proof.
  unfold Player.updateKickCooldown.
  now destruct (Player.kickCooldown p >? 0).
Qed.

Lemma updateTimers_keeps_jumping (dt : R) (p : Player.t) :
  Player.playerState p = jumping ->
  Player.playerState (Player.updateTimers dt p) = jumping.
Proof.
  intros H. unfold Player.updateTimers.
  rewrite updateKickCooldown_state.
  rewrite updateKickTimer_state; rewrite updateSlideTimer_state;
    rewrite ?updateStunTimer_state; rewrite ?H; try discriminate; reflexivity.
Qed.

Lemma updateGroundStatus_state (p : Player.t) :
  Player.playerState (Player.updateGroundStatus p) = Player.playerState p.
Proof.
  unfold Player.updateGroundStatus. cbv zeta.
  repeat match goal with
         | |- context [if ?c then _ else _] => destruct c
         end; reflexivity.
Qed.

End PlayerFacts.

(** Reduction of the player's record: projections, assignments and the
    equality test of states, and nothing of the real numbers. *)
Ltac player_red :=
  cbn [Player.playerSide Player.playerState Player.isStunned Player.stunTimer
       Player.slideTimer Player.kickTimer Player.facingRight Player.isOnGround
       Player.kickCooldown Player.jumpFallTimer Player.jumpLandTimer Player.x
       Player.y Player.velocity
       Player.set_playerState Player.set_isStunned Player.set_stunTimer
       Player.set_slideTimer Player.set_kickTimer Player.set_facingRight
       Player.set_isOnGround Player.set_kickCooldown Player.set_jumpFallTimer
       Player.set_jumpLandTimer Player.setX Player.setY Player.setVelocity
       Player.setVelocityX Player.setVelocityY Player.setPosition
       Player.startKick Player.startSlide
       Player.isSliding Player.isKicking Player.new
       PlayerState_eqb Side.eqb Vector2.x Vector2.y negb andb orb fst snd] in *.

Ltac bools :=
  repeat first [ rewrite andb_false_r | rewrite andb_true_r
               | rewrite orb_true_r | rewrite orb_false_r
               | progress cbn [andb orb negb] ].

(** Clearing the jump timers leaves both handles null. *)
Lemma clearJumpTimers_eq (p : Player.t) :
  Player.clearJumpTimers p
  = Player.set_jumpLandTimer None (Player.set_jumpFallTimer None p).
Proof.
  destruct p as [? ? ? ? ? ? ? ? ? f l ? ? ?]. now destruct f, l.
Qed.

Section PlayerInput.

Variable playerConfig : PlayerConfig.

(** Horizontal movement touches the facing and the horizontal velocity
    only. *)
Lemma moveHorizontally_fields (l r : bool) (p : Player.t) :
  let q := Player.moveHorizontally playerConfig l r p in
  Player.playerState q = Player.playerState p
  /\ Player.isStunned q = Player.isStunned p
  /\ Player.isOnGround q = Player.isOnGround p
  /\ Player.kickCooldown q = Player.kickCooldown p
  /\ Player.kickTimer q = Player.kickTimer p
  /\ Player.slideTimer q = Player.slideTimer p
  /\ Player.jumpFallTimer q = Player.jumpFallTimer p
  /\ Player.jumpLandTimer q = Player.jumpLandTimer p.
Proof.
  unfold Player.moveHorizontally. cbv zeta.
  destruct (l && negb r); [ | destruct (r && negb l) ]; player_red;
    repeat split; reflexivity.
Qed.

(** [update] never takes a player out of the jumping state, whatever the
    keys: a jumping player is handed to [handleJumpingState] (or, if
    stunned, to [handleStunnedState]) and [handleInput] is not reached. *)
Lemma update_keeps_jumping (dt : R) (l r u d k : bool) (p : Player.t) :
  Player.playerState p = jumping ->
  Player.playerState (Player.update playerConfig dt l r u d k p) = jumping.
Proof.
  intros H. unfold Player.update. cbv zeta.
  assert (Hq : Player.playerState
                 (Player.updateGroundStatus (Player.updateTimers dt p)) = jumping)
    by (rewrite updateGroundStatus_state; now apply updateTimers_keeps_jumping).
  set (q := Player.updateGroundStatus (Player.updateTimers dt p)) in *.
  destruct (Player.isStunned q).
  - unfold Player.handleStunnedState. player_red. exact Hq.
  - rewrite Hq. player_red. unfold Player.handleJumpingState.
    destruct (moveHorizontally_fields l r q) as [Hs _]. now rewrite Hs.
Qed.

(** [handleInput] on its own, entered by a player in the jumping state
    with the kick key down and the cooldown elapsed: the state becomes
    kicking, the kick timer and cooldown start, and both jump timers are
    left as they were. *)
Lemma handleInput_kick_while_jumping (l r u d : bool) (p : Player.t) :
  Player.isStunned p = false ->
  Player.playerState p = jumping ->
  Player.kickCooldown p <= 0 ->
  let p' := Player.handleInput playerConfig l r u d true p in
  Player.playerState p' = kicking
  /\ Player.kickTimer p' = kickDuration playerConfig * 1000
  /\ Player.kickCooldown p' = 500
  /\ Player.jumpFallTimer p' = Player.jumpFallTimer p
  /\ Player.jumpLandTimer p' = Player.jumpLandTimer p.
Proof.
  intros Hst Hj Hc. cbv zeta. unfold Player.handleInput.
  rewrite Hst, Hj. player_red.
  destruct (moveHorizontally_fields l r p)
    as (Hs & _ & _ & Hcd & _ & _ & Hf & Hl).
  set (q := Player.moveHorizontally playerConfig l r p) in *.
  unfold Player.inputJump; cbv beta iota zeta. rewrite Hs, Hj. player_red.
  bools.
  unfold Player.inputSlide; cbv beta iota zeta. rewrite Hs, Hj. player_red.
  bools.
  unfold Player.inputKick; cbv beta iota zeta. rewrite Hs, Hj, Hcd. player_red.
  rewrite (proj2 (leb_true_iff _ _) Hc). player_red.
  unfold Player.inputAirKick; cbv beta iota zeta. player_red.
  rewrite (proj2 (leb_false_iff 500 0)) by lra. player_red.
  repeat split; assumption.
Qed.

(** Jump and kick asserted in the same tick by an idle, grounded player:
    the jump starts and schedules its fall and land timers, and the air
    kick of the same call turns the state to kicking with both timers
    still scheduled. *)
Lemma handleInput_jump_and_kick (l r d : bool) (p : Player.t) :
  Player.isStunned p = false ->
  Player.playerState p = idle ->
  Player.isOnGround p = true ->
  Player.kickCooldown p <= 0 ->
  let p' := Player.handleInput playerConfig l r true d true p in
  Player.playerState p' = kicking
  /\ Player.kickTimer p' = kickDuration playerConfig * 1000
  /\ Player.kickCooldown p' = 500
  /\ Player.jumpFallTimer p' = Some (TimerEvent.delayedCall 300)
  /\ Player.jumpLandTimer p' = Some (TimerEvent.delayedCall 600).
Proof.
  intros Hst Hi Hg Hc. cbv zeta. unfold Player.handleInput.
  rewrite Hst, Hi. player_red.
  destruct (moveHorizontally_fields l r p)
    as (Hs & _ & Hog & Hcd & _ & _ & _ & _).
  set (q := Player.moveHorizontally playerConfig l r p) in *.
  unfold Player.inputJump; cbv beta iota zeta. rewrite Hs, Hi, Hog, Hg. player_red.
  unfold Player.inputSlide; cbv beta iota zeta. player_red. bools.
  unfold Player.inputKick; cbv beta iota zeta. player_red. bools.
  unfold Player.inputAirKick; cbv beta iota zeta.
  rewrite clearJumpTimers_eq. player_red.
  rewrite Hcd, (proj2 (leb_true_iff _ _) Hc). player_red.
  repeat split; reflexivity.
Qed.

End PlayerInput.

Section PlayerKickTimer.

Variable playerConfig : PlayerConfig.

(** The stun and slide countdowns leave a kicking player's state, kick
    timer, ground flag, jump timers and velocity alone. *)
Lemma updateStunTimer_kicking (dt : R) (p : Player.t) :
  Player.playerState p = kicking ->
  let q := Player.updateStunTimer dt p in
  Player.playerState q = kicking
  /\ Player.kickTimer q = Player.kickTimer p
  /\ Player.isOnGround q = Player.isOnGround p
  /\ Player.jumpFallTimer q = Player.jumpFallTimer p
  /\ Player.jumpLandTimer q = Player.jumpLandTimer p
  /\ Player.velocity q = Player.velocity p.
Proof.
  intros H. cbv zeta. unfold Player.updateStunTimer.
  destruct (Player.stunTimer p >? 0); [ | now rewrite H ].
  player_red.
  destruct (Player.stunTimer p - dt <=? 0); player_red; rewrite ?H; player_red;
    repeat split; try reflexivity; exact H.
Qed.

Lemma updateSlideTimer_kicking (dt : R) (p : Player.t) :
  Player.playerState p = kicking ->
  let q := Player.updateSlideTimer dt p in
  Player.playerState q = kicking
  /\ Player.kickTimer q = Player.kickTimer p
  /\ Player.isOnGround q = Player.isOnGround p
  /\ Player.jumpFallTimer q = Player.jumpFallTimer p
  /\ Player.jumpLandTimer q = Player.jumpLandTimer p
  /\ Player.velocity q = Player.velocity p.
Proof.
  intros H. cbv zeta. unfold Player.updateSlideTimer.
  destruct (Player.slideTimer p >? 0); [ | now rewrite H ].
  player_red. rewrite H. player_red. bools. player_red.
  repeat split; try reflexivity; exact H.
Qed.

(** The kick block when the kick timer of a kicking player runs out. *)
Lemma updateKickTimer_runs_out (dt : R) (p : Player.t) :
  Player.playerState p = kicking ->
  0 < Player.kickTimer p -> Player.kickTimer p <= dt ->
  let q := Player.updateKickTimer dt p in
  (Player.isOnGround p = false -> Player.playerState q = jumping)
  /\ (Player.isOnGround p = true -> Player.playerState q = idle)
  /\ (Player.jumpFallTimer p <> None \/ Player.jumpLandTimer p <> None ->
      Player.jumpFallTimer q = Player.jumpFallTimer p
      /\ Player.jumpLandTimer q = Player.jumpLandTimer p).
Proof.
  intros H Hpos Hle. cbv zeta. unfold Player.updateKickTimer.
  rewrite (proj2 (gtb_true_iff _ _) Hpos). player_red.
  rewrite (proj2 (leb_true_iff (Player.kickTimer p - dt) 0)) by lra.
  rewrite H. player_red.
  destruct (Player.isOnGround p); player_red.
  - repeat split; try discriminate; reflexivity.
  - destruct (Player.jumpFallTimer p) as [f | ] eqn:Ef,
             (Player.jumpLandTimer p) as [l | ] eqn:El;
      try destruct (Vector2.y (Player.velocity p) <? 0);
      player_red; rewrite ?Ef, ?El;
      (split; [ reflexivity | split; [ discriminate | ] ]);
      try (intros _; split; reflexivity);
      intros [Hn | Hn]; now elim Hn.
Qed.

(** [updateTimers] when the kick timer of a kicking player runs out in
    this tick: the state becomes jumping if the player is off the ground
    and idle if on it; jump timers that are scheduled stay as they are. *)
Lemma updateTimers_kick_runs_out (dt : R) (p : Player.t) :
  Player.playerState p = kicking ->
  0 < Player.kickTimer p -> Player.kickTimer p <= dt ->
  let q := Player.updateTimers dt p in
  (Player.isOnGround p = false -> Player.playerState q = jumping)
  /\ (Player.isOnGround p = true -> Player.playerState q = idle)
  /\ (Player.jumpFallTimer p <> None \/ Player.jumpLandTimer p <> None ->
      Player.jumpFallTimer q = Player.jumpFallTimer p
      /\ Player.jumpLandTimer q = Player.jumpLandTimer p).
Proof.
  intros H Hpos Hle. cbv zeta. unfold Player.updateTimers.
  destruct (updateStunTimer_kicking dt p H) as (H1 & K1 & G1 & F1 & L1 & _).
  set (p1 := Player.updateStunTimer dt p) in *.
  destruct (updateSlideTimer_kicking dt p1 H1) as (H2 & K2 & G2 & F2 & L2 & _).
  set (p2 := Player.updateSlideTimer dt p1) in *.
  assert (Hpos2 : 0 < Player.kickTimer p2) by (rewrite K2, K1; exact Hpos).
  assert (Hle2 : Player.kickTimer p2 <= dt) by (rewrite K2, K1; exact Hle).
  destruct (updateKickTimer_runs_out dt p2 H2 Hpos2 Hle2) as (A & B & C).
  set (p3 := Player.updateKickTimer dt p2) in *.
  assert (E : forall q, Player.playerState (Player.updateKickCooldown dt q)
                        = Player.playerState q
                        /\ Player.jumpFallTimer (Player.updateKickCooldown dt q)
                           = Player.jumpFallTimer q
                        /\ Player.jumpLandTimer (Player.updateKickCooldown dt q)
                           = Player.jumpLandTimer q).
  { intros q. unfold Player.updateKickCooldown.
    destruct (Player.kickCooldown q >? 0); repeat split; reflexivity. }
  destruct (E p3) as (E1 & E2 & E3). rewrite E1, E2, E3.
  rewrite G2, G1 in A, B. rewrite F2, F1, L2, L1 in C.
  repeat split; auto; now apply C.
Qed.

(** A grounded, idle player at rest reaches [handleInput] with the ground
    flag set. *)
Lemma update_grounded_idle (dt : R) (l r u d k : bool) (p : Player.t) :
  Player.stunTimer p <= 0 -> Player.slideTimer p <= 0 ->
  Player.kickTimer p <= 0 -> Player.kickCooldown p <= 0 ->
  Player.isStunned p = false -> Player.playerState p = idle ->
  638 <= Player.y p <= 658 -> 10 <= Player.x p <= 1142 ->
  Rabs (Vector2.x (Player.velocity p)) <= 800 ->
  Rabs (Vector2.y (Player.velocity p)) <= 1200 ->
  Player.update playerConfig dt l r u d k p
  = Player.handleInput playerConfig l r u d k (Player.set_isOnGround true p).
Proof.
  intros Hs Hl Hk Hc Hst Hi Hy Hx Hvx Hvy.
  unfold Player.update. cbv zeta.
  rewrite (updateTimers_at_rest dt p Hs Hl Hk Hc).
  assert (G : Player.updateGroundStatus p = Player.set_isOnGround true p).
  { unfold Player.updateGroundStatus. cbv zeta. rewrite Hi. player_red.
    rewrite (proj2 (geb_true_iff (Player.y p) (648 - 10))) by lra.
    rewrite (proj2 (gtb_false_iff (Player.y p) (648 + 10))) by lra.
    player_red.
    rewrite (proj2 (ltb_false_iff (Player.x p) 10)) by lra.
    rewrite (proj2 (gtb_false_iff (Player.x p) 1142)) by lra.
    player_red.
    rewrite (proj2 (gtb_false_iff _ _) Hvx). player_red.
    now rewrite (proj2 (gtb_false_iff _ _) Hvy). }
  rewrite G. player_red. now rewrite Hst, Hi.
Qed.

End PlayerKickTimer.

(** ** The air kick through [update] *)

Lemma standing_eq :
  Sample.standing
  = Player.mk Side.left idle false 0 0 0 true true 0 None None 376 648
      (Vector2.mk 0 0).
Proof.
  unfold Sample.standing.
  rewrite update_grounded_idle;
    try (player_red; first [ reflexivity | lra | rewrite Rabs_R0; lra ]).
Qed.

Lemma airborne_eq :
  Sample.airborne
  = Player.mk Side.left jumping false 0 0 0 true true 0
      (Some (TimerEvent.delayedCall 300)) (Some (TimerEvent.delayedCall 600))
      376 648 (Vector2.mk 0 (- jumpPower Sample.playerConfig)).
Proof.
  unfold Sample.airborne. rewrite standing_eq.
  rewrite update_grounded_idle;
    try (player_red; first [ reflexivity | lra | rewrite Rabs_R0; lra ]).
Qed.

(** C7 (the code at the failing input).  Player 1 stands for a frame and
    then jumps; in the next frame it is in the jumping state, not stunned,
    with the kick cooldown elapsed and both jump timers scheduled, and the
    kick key is down.  [update] hands the jumping player to
    [handleJumpingState]: the state stays jumping and no kick timer or
    cooldown is started. *)
Theorem kick_key_ignored_while_jumping :
  Player.playerState Sample.airborne = jumping
  /\ Player.isStunned Sample.airborne = false
  /\ Player.kickCooldown Sample.airborne <= 0
  /\ Player.update Sample.playerConfig 16 false false false false true
       Sample.airborne
     = Player.mk Side.left jumping false 0 0 0 true false 0
         (Some (TimerEvent.delayedCall 300)) (Some (TimerEvent.delayedCall 600))
         376 648 (Vector2.mk 0 (-600)).
Proof.
  rewrite airborne_eq. player_red. repeat split; try reflexivity; try lra.
  unfold Player.update. cbv zeta.
  rewrite updateTimers_at_rest by (player_red; lra).
  unfold Player.updateGroundStatus. cbv zeta. player_red.
  rewrite (proj2 (gtb_false_iff 648 (648 + 10))) by lra. player_red.
  rewrite (proj2 (ltb_false_iff 376 10)) by lra.
  rewrite (proj2 (gtb_false_iff 376 1142)) by lra. player_red.
  rewrite Rabs_R0. rewrite (proj2 (gtb_false_iff 0 800)) by lra. player_red.
  assert (HJ : jumpPower Sample.playerConfig = 600) by reflexivity.
  rewrite HJ, Rabs_Ropp, (Rabs_pos_eq 600) by lra.
  rewrite (proj2 (gtb_false_iff 600 1200)) by lra. player_red.
  unfold Player.handleJumpingState, Player.moveHorizontally. player_red.
  reflexivity.
Qed.

(** ** GameScene: player-ball contact *)

(** Reduction of the scene's record and of what it holds. *)
Ltac scene_red :=
  cbn [GameScene.isGameActive GameScene.isGamePaused GameScene.player1Score
       GameScene.player2Score GameScene.lastManualCollisionP1
       GameScene.lastManualCollisionP2 GameScene.lastGoalTime
       GameScene.groundTopY GameScene.player1 GameScene.player2 GameScene.ball
       GameScene.leftGoal GameScene.rightGoal GameScene.gameUI
       GameScene.delayedCalls
       GameScene.set_isGameActive GameScene.set_isGamePaused
       GameScene.set_player1Score GameScene.set_player2Score
       GameScene.set_lastManualCollisionP1 GameScene.set_lastManualCollisionP2
       GameScene.set_lastGoalTime GameScene.set_player1 GameScene.set_player2
       GameScene.set_ball GameScene.set_gameUI GameScene.set_delayedCalls
       GameScene.delayedCall GameScene.getPlayer GameScene.setPlayer
       GameUI.isPaused GameUI.isGamePaused GameUI.player1Score
       GameUI.player2Score GameUI.updateScore
       Ball.x Ball.y Ball.velocity Ball.angularVelocity Ball.setVelocity
       Goal.x Goal.y negb andb orb app] in *.

Lemma Side_eqb_eq (a b : Side.t) : Side.eqb a b = true <-> a = b.
Proof. destruct a, b; simpl; split; intros H; try reflexivity; discriminate. Qed.

(** The directional test, read as a proposition. *)
Lemma isProperKick_iff (facing : Side.t) (rel : R) :
  GameScene.isProperKick facing rel = true
  <-> (facing = Side.right /\ 0 < rel) \/ (facing = Side.left /\ rel < 0).
Proof.
  unfold GameScene.isProperKick. destruct facing; cbn [Side.eqb andb].
  - destruct (rel <? 0) eqn:E.
    + apply ltb_true_iff in E. split; [ now right | reflexivity ].
    + apply ltb_false_iff in E. split; [ discriminate | ].
      intros [[H _] | [_ H]]; [ discriminate | lra ].
  - destruct (rel >? 0) eqn:E.
    + apply gtb_true_iff in E. split; [ now left | reflexivity ].
    + apply gtb_false_iff in E. split; [ discriminate | ].
      intros [[_ H] | [H _]]; [ lra | discriminate ].
Qed.

Section Contact.

Variable playerConfig : PlayerConfig.
Variable ballConfig : BallConfig.

Lemma handlePlayerBallContact_active (who : PlayerId) (s : GameScene.t) :
  GameScene.isGameActive s = true ->
  GameUI.isPaused (GameScene.gameUI s) = false ->
  let player := GameScene.getPlayer who s in
  let rel := Ball.x (GameScene.ball s) - Player.x player in
  GameScene.handlePlayerBallContact playerConfig ballConfig who s
  = if GameScene.isProperKick (Player.getFacingDirection player) rel
    then GameScene.properKick playerConfig ballConfig who s
    else GameScene.bodyBounce rel s.
Proof.
  intros Ha Hp. cbv zeta. unfold GameScene.handlePlayerBallContact.
  now rewrite Ha, Hp.
Qed.



End Contact.


(** ** GameScene: the proper kick *)

Section ProperKick.

Variable playerConfig : PlayerConfig.
Variable ballConfig : BallConfig.

Lemma triggerKick_ready (p : Player.t) :
  Player.kickCooldown p <= 0 ->
  Player.triggerKick playerConfig p = Player.startKick playerConfig p.
Proof.
  intros H. unfold Player.triggerKick.
  now rewrite (proj2 (leb_true_iff _ _) H).
Qed.

Lemma triggerKick_cooling (p : Player.t) :
  0 < Player.kickCooldown p -> Player.triggerKick playerConfig p = p.
Proof.
  intros H. unfold Player.triggerKick.
  now rewrite (proj2 (leb_false_iff _ _) H).
Qed.

Lemma getPlayer_setPlayer (who : PlayerId) (p : Player.t) (s : GameScene.t) :
  GameScene.getPlayer who (GameScene.setPlayer who p s) = p.
Proof. now destruct who. Qed.

Lemma ball_setPlayer (who : PlayerId) (p : Player.t) (s : GameScene.t) :
  GameScene.ball (GameScene.setPlayer who p s) = GameScene.ball s.
Proof. now destruct who. Qed.

Lemma getPlayer_set_ball (who : PlayerId) (b : Ball.t) (s : GameScene.t) :
  GameScene.getPlayer who (GameScene.set_ball b s) = GameScene.getPlayer who s.
Proof. now destruct who. Qed.

(** A player that is sliding, kicking or cooling down is not touched by
    the proper-kick branch. *)
Lemma properKick_player_unchanged (who : PlayerId) (s : GameScene.t) :
  let player := GameScene.getPlayer who s in
  Player.isSliding player = true \/ Player.isKicking player = true
  \/ 0 < Player.kickCooldown player ->
  GameScene.getPlayer who (GameScene.properKick playerConfig ballConfig who s)
  = player.
Proof.
  cbv zeta. intros H. unfold GameScene.properKick. cbv zeta.
  set (player := GameScene.getPlayer who s) in *.
  destruct (Player.isSliding player) eqn:Es; cbn [negb andb];
    [ now rewrite getPlayer_set_ball | ].
  destruct (Player.isKicking player) eqn:Ek; cbn [negb andb];
    [ now rewrite getPlayer_set_ball | ].
  destruct H as [H | [H | H]]; try discriminate.
  rewrite getPlayer_setPlayer. now apply triggerKick_cooling.
Qed.

(** C8 (as amended).  On a proper-kick contact the ball is kicked by
    [Ball.kick] with the force and the kind of the player's kick info, the
    player's height and the distance between player and ball.  The
    player's kicking state is started (state kicking, kick timer set to
    the kick duration, cooldown set to 500) when the player is neither
    sliding nor kicking and the kick cooldown has elapsed; a player that
    is sliding, kicking, or still cooling down from an earlier kick is
    left unchanged. *)
Theorem proper_kick_contact (who : PlayerId) (s : GameScene.t) :
  GameScene.isGameActive s = true ->
  GameUI.isPaused (GameScene.gameUI s) = false ->
  let player := GameScene.getPlayer who s in
  let b := GameScene.ball s in
  GameScene.isProperKick (Player.getFacingDirection player)
    (Ball.x b - Player.x player) = true ->
  let kickInfo := Player.getKickInfo ballConfig player in
  let s' := GameScene.handlePlayerBallContact playerConfig ballConfig who s in
  let player' := GameScene.getPlayer who s' in
  GameScene.ball s'
  = Ball.kick ballConfig (force kickInfo) (Player.y player) (type kickInfo)
      (Distance.Between (Player.x player) (Player.y player) (Ball.x b) (Ball.y b))
      b
  /\ (Player.isSliding player = false -> Player.isKicking player = false ->
      Player.kickCooldown player <= 0 ->
      player' = Player.startKick playerConfig player
      /\ Player.playerState player' = kicking
      /\ Player.kickTimer player' = kickDuration playerConfig * 1000
      /\ Player.kickCooldown player' = 500)
  /\ (Player.isSliding player = true \/ Player.isKicking player = true
      \/ 0 < Player.kickCooldown player ->
      player' = player).
Proof.
  intros Ha Hp. cbv zeta. intros Hk.
  rewrite (handlePlayerBallContact_active playerConfig ballConfig who s Ha Hp).
  cbv zeta. rewrite Hk. unfold GameScene.properKick. cbv zeta.
  set (player := GameScene.getPlayer who s).
  set (kicked := GameScene.set_ball _ s).
  split; [ | split ].
  - destruct (negb (Player.isSliding player) && negb (Player.isKicking player));
      [ rewrite ball_setPlayer | ]; reflexivity.
  - intros Hs Hkk Hc. rewrite Hs, Hkk. cbn [negb andb].
    rewrite getPlayer_setPlayer, triggerKick_ready by exact Hc.
    repeat split; reflexivity.
  - intros H. exact (properKick_player_unchanged who s H).
Qed.

End ProperKick.

Lemma proper_kick_contact_witness :
  GameScene.isGameActive Sample.ballAhead = true
  /\ GameUI.isPaused (GameScene.gameUI Sample.ballAhead) = false
  /\ GameScene.isProperKick
       (Player.getFacingDirection (GameScene.getPlayer P1 Sample.ballAhead))
       (Ball.x (GameScene.ball Sample.ballAhead)
        - Player.x (GameScene.getPlayer P1 Sample.ballAhead)) = true
  /\ Player.playerState
       (GameScene.getPlayer P1
          (GameScene.handlePlayerBallContact Sample.playerConfig
             Sample.ballConfig P1 Sample.ballAhead))
     = kicking.
Proof.
  assert (Hk : GameScene.isProperKick
                 (Player.getFacingDirection (GameScene.getPlayer P1 Sample.ballAhead))
                 (Ball.x (GameScene.ball Sample.ballAhead)
                  - Player.x (GameScene.getPlayer P1 Sample.ballAhead)) = true).
  { apply isProperKick_iff. left. split; [ reflexivity | ].
    unfold Sample.ballAhead, Sample.scene, Sample.ballAt.
    scene_red. player_red. lra. }
  split; [ reflexivity | split; [ reflexivity | split; [ exact Hk | ] ] ].
  destruct (proper_kick_contact Sample.playerConfig Sample.ballConfig P1
              Sample.ballAhead eq_refl eq_refl Hk) as (_ & H & _).
  apply H; reflexivity.
Defined.

Lemma kicker_eq :
  Player.update Sample.playerConfig 16 false false false false true Sample.standing
  = Player.mk Side.left kicking false 0 0 (kickDuration Sample.playerConfig * 1000)
      true true 500 None None 376 648 (Vector2.mk 0 0).
Proof.
  rewrite standing_eq.
  rewrite update_grounded_idle;
    try (player_red; first [ reflexivity | lra | rewrite Rabs_R0; lra ]).
  unfold Player.handleInput, Player.moveHorizontally. player_red.
  unfold Player.inputJump; cbv beta iota zeta; player_red.
  unfold Player.inputSlide; cbv beta iota zeta; player_red.
  unfold Player.inputKick; cbv beta iota zeta; player_red.
  rewrite (proj2 (leb_true_iff 0 0)) by lra. player_red.
  unfold Player.inputAirKick; cbv beta iota zeta; player_red. bools.
  reflexivity.
Qed.

Lemma tackledKicker_eq :
  Sample.tackledKicker
  = Player.mk Side.left stunned true (stunDuration Sample.playerConfig * 1000) 0
      (kickDuration Sample.playerConfig * 1000) true true 500 None None 376 648
      (Vector2.mk 0 0).
Proof. unfold Sample.tackledKicker. now rewrite kicker_eq. Qed.

(** C8 (counterexample).  Player 1 has pressed kick and was stunned by a
    tackle in the next moment, so its kick cooldown is still running.  The
    match is active, the player faces right and the ball is to the right:
    the contact is a proper kick, and the player is neither sliding nor
    kicking.  The handler leaves the player as it is, in the stunned
    state; the kicking state is not triggered. *)
Lemma contact_during_cooldown :
  let s := Sample.ballAheadOfTackled in
  let player := GameScene.getPlayer P1 s in
  let s' := GameScene.handlePlayerBallContact Sample.playerConfig
              Sample.ballConfig P1 s in
  (GameScene.isGameActive s = true
   /\ GameUI.isPaused (GameScene.gameUI s) = false
   /\ GameScene.isProperKick (Player.getFacingDirection player)
        (Ball.x (GameScene.ball s) - Player.x player) = true
   /\ Player.isSliding player = false
   /\ Player.isKicking player = false
   /\ Player.kickCooldown player = 500)
  /\ GameScene.getPlayer P1 s' = player
  /\ Player.playerState (GameScene.getPlayer P1 s') = stunned
  /\ Player.playerState (GameScene.getPlayer P1 s') <> kicking.
Proof.
  cbv zeta.
  assert (Hp : GameScene.getPlayer P1 Sample.ballAheadOfTackled
               = Sample.tackledKicker) by reflexivity.
  assert (Hb : Ball.x (GameScene.ball Sample.ballAheadOfTackled) = 400)
    by reflexivity.
  assert (Hk : GameScene.isProperKick
                 (Player.getFacingDirection
                    (GameScene.getPlayer P1 Sample.ballAheadOfTackled))
                 (Ball.x (GameScene.ball Sample.ballAheadOfTackled)
                  - Player.x (GameScene.getPlayer P1 Sample.ballAheadOfTackled))
               = true).
  { rewrite Hp, Hb, tackledKicker_eq. apply isProperKick_iff.
    left. split; [ reflexivity | player_red; lra ]. }
  assert (Hs : GameScene.getPlayer P1
                 (GameScene.handlePlayerBallContact Sample.playerConfig
                    Sample.ballConfig P1 Sample.ballAheadOfTackled)
               = GameScene.getPlayer P1 Sample.ballAheadOfTackled).
  { rewrite handlePlayerBallContact_active by reflexivity. cbv zeta.
    rewrite Hk. apply properKick_player_unchanged.
    right; right. rewrite Hp, tackledKicker_eq. player_red. lra. }
  split.
  - repeat split; try exact Hk; rewrite Hp, tackledKicker_eq; reflexivity.
  - rewrite Hs, Hp, tackledKicker_eq. player_red.
    repeat split; try reflexivity. discriminate.
Qed.

(** ** GameScene: goals and the inactive match *)

Section Goals.

Variable screenSize : ScreenSize.
Variable fieldConfig : FieldConfig.
Variable gameConfig : GameConfig.
Variable playerConfig : PlayerConfig.
Variable ballConfig : BallConfig.

Lemma handleGoal_inactive (now : R) (p : PlayerId) (s : GameScene.t) :
  GameScene.isGameActive s = false -> GameScene.handleGoal gameConfig now p s = s.
Proof. intros H. unfold GameScene.handleGoal. now rewrite H. Qed.

(** The debounce window on its own: within 1000 time-units of the last
    accepted goal (its timestamp being truthy) the handler returns. *)
Lemma handleGoal_debounced (now : R) (p : PlayerId) (s : GameScene.t) :
  GameScene.lastGoalTime s <> 0 ->
  now - GameScene.lastGoalTime s < 1000 ->
  GameScene.handleGoal gameConfig now p s = s.
Proof.
  intros Hn Hw. unfold GameScene.handleGoal.
  destruct (negb (GameScene.isGameActive s)); [ reflexivity | ].
  rewrite (proj2 (truthy_true_iff _) Hn), (proj2 (ltb_true_iff _ _) Hw).
  reflexivity.
Qed.

(** An accepted goal. *)
Lemma handleGoal_accepted (now : R) (p : PlayerId) (s : GameScene.t) :
  GameScene.isGameActive s = true ->
  GameScene.lastGoalTime s = 0 \/ 1000 <= now - GameScene.lastGoalTime s ->
  let s' := GameScene.handleGoal gameConfig now p s in
  GameScene.isGameActive s' = false
  /\ GameScene.lastGoalTime s' = now
  /\ GameScene.player1Score s'
     = match p with
       | P1 => S (GameScene.player1Score s)
       | P2 => GameScene.player1Score s
       end
  /\ GameScene.player2Score s'
     = match p with
       | P1 => GameScene.player2Score s
       | P2 => S (GameScene.player2Score s)
       end
  /\ GameUI.player1Score (GameScene.gameUI s') = GameScene.player1Score s'
  /\ GameUI.player2Score (GameScene.gameUI s') = GameScene.player2Score s'
  /\ Player.velocity (GameScene.player1 s') = Vector2.mk 0 0
  /\ Player.velocity (GameScene.player2 s') = Vector2.mk 0 0
  /\ Ball.velocity (GameScene.ball s') = Vector2.mk 0 0
  /\ GameScene.delayedCalls s'
     = GameScene.delayedCalls s
       ++ [(TimerEvent.delayedCall (goalCelebrationTime gameConfig * 1000),
            AfterCelebration)].
Proof.
  intros Ha Hacc. cbv zeta. unfold GameScene.handleGoal. rewrite Ha.
  cbn [negb].
  assert (Hd : Num.truthy (GameScene.lastGoalTime s)
               && (now - GameScene.lastGoalTime s <? 1000) = false).
  { destruct Hacc as [H0 | Hw].
    - now rewrite (proj2 (truthy_false_iff _) H0).
    - rewrite (proj2 (ltb_false_iff _ _) Hw). apply andb_false_r. }
  rewrite Hd. cbv zeta.
  destruct p; scene_red; player_red; repeat split; reflexivity.
Qed.

(** The contact handler touches the ball and the players only. *)
Lemma handlePlayerBallContact_sameMatch (who : PlayerId) (s : GameScene.t) :
  Match.sameMatch s (GameScene.handlePlayerBallContact playerConfig ballConfig who s).
Proof.
  unfold GameScene.handlePlayerBallContact, Match.sameMatch.
  destruct (negb (GameScene.isGameActive s) || GameUI.isPaused (GameScene.gameUI s));
    [ repeat split; reflexivity | ].
  cbv zeta.
  destruct (GameScene.isProperKick _ _).
  - unfold GameScene.properKick. cbv zeta.
    destruct (negb _ && negb _); [ destruct who | ]; scene_red;
      repeat split; reflexivity.
  - unfold GameScene.bodyBounce. cbv zeta. scene_red. repeat split; reflexivity.
Qed.

Lemma sameMatch_stamp1 (now : R) (s : GameScene.t) :
  Match.sameMatch s (GameScene.set_lastManualCollisionP1 now s).
Proof. unfold Match.sameMatch. scene_red. repeat split; reflexivity. Qed.

Lemma sameMatch_stamp2 (now : R) (s : GameScene.t) :
  Match.sameMatch s (GameScene.set_lastManualCollisionP2 now s).
Proof. unfold Match.sameMatch. scene_red. repeat split; reflexivity. Qed.

Lemma sameMatch_refl (s : GameScene.t) : Match.sameMatch s s.
Proof. unfold Match.sameMatch. repeat split; reflexivity. Qed.

Lemma sameMatch_trans (s1 s2 s3 : GameScene.t) :
  Match.sameMatch s1 s2 -> Match.sameMatch s2 s3 -> Match.sameMatch s1 s3.
Proof.
  unfold Match.sameMatch.
  intros (A1 & A2 & A3 & A4 & A5 & A6 & A7 & A8) (B1 & B2 & B3 & B4 & B5 & B6 & B7 & B8).
  repeat split; congruence.
Qed.

Lemma manualContact_sameMatch (who : PlayerId) (now dist last : R)
  (stamp : R -> GameScene.t -> GameScene.t) (s : GameScene.t) :
  (forall v x, Match.sameMatch x (stamp v x)) ->
  Match.sameMatch s
    (GameScene.manualContact playerConfig ballConfig who now dist last stamp s).
Proof.
  intros Hst. unfold GameScene.manualContact. cbv zeta.
  destruct (_ && _); [ | apply sameMatch_refl ].
  eapply sameMatch_trans; [ apply (Hst now) | apply handlePlayerBallContact_sameMatch ].
Qed.

Lemma manualGoal_debounced (crossed : bool) (now : R) (q : PlayerId)
  (s : GameScene.t) :
  now - GameScene.lastGoalTime s <= 1000 ->
  GameScene.manualGoal gameConfig crossed now q s = s.
Proof.
  intros Hw. unfold GameScene.manualGoal.
  rewrite (proj2 (gtb_false_iff _ _) Hw). now destruct crossed.
Qed.


Lemma handlePlayerBallContact_inactive (who : PlayerId) (s : GameScene.t) :
  GameScene.isGameActive s = false ->
  GameScene.handlePlayerBallContact playerConfig ballConfig who s = s.
Proof. intros H. unfold GameScene.handlePlayerBallContact. now rewrite H. Qed.

Lemma handlePlayerCollision_inactive (s : GameScene.t) :
  GameScene.isGameActive s = false ->
  GameScene.handlePlayerCollision playerConfig s = s.
Proof. intros H. unfold GameScene.handlePlayerCollision. now rewrite H. Qed.

Lemma checkManualCollisions_inactive (now : R) (s : GameScene.t) :
  GameScene.isGameActive s = false ->
  GameScene.checkManualCollisions fieldConfig gameConfig playerConfig ballConfig
    now s = s.
Proof. intros H. unfold GameScene.checkManualCollisions. now rewrite H. Qed.

Lemma update_inactive (now delta : R) (c1 c2 : Controls) (s : GameScene.t) :
  GameScene.isGameActive s = false ->
  GameScene.update fieldConfig gameConfig playerConfig ballConfig now delta c1 c2 s
  = s.
Proof. intros H. unfold GameScene.update. now rewrite H. Qed.

End Goals.

(** ** GameScene: the freeze after a goal *)

Section Freeze.

Variable screenSize : ScreenSize.
Variable fieldConfig : FieldConfig.
Variable gameConfig : GameConfig.
Variable playerConfig : PlayerConfig.
Variable ballConfig : BallConfig.

Let handle :=
  GameScene.handle screenSize fieldConfig gameConfig playerConfig ballConfig.
Let run :=
  GameScene.run screenSize fieldConfig gameConfig playerConfig ballConfig.

(** While the match is inactive only a clock tick changes the scene. *)
Lemma handle_inactive (ev : GameScene.Event) (s : GameScene.t) :
  GameScene.isGameActive s = false ->
  match ev with GameScene.ClockTick _ => True | _ => handle ev s = s end.
Proof.
  intros H. destruct ev; cbn [handle GameScene.handle]; try exact I.
  - now apply handleGoal_inactive.
  - now apply handlePlayerBallContact_inactive.
  - now apply handlePlayerCollision_inactive.
  - now apply update_inactive.
Qed.

(** A clock tick with one delayed call pending. *)
Lemma clockUpdate_one_pending (delta : R) (e : TimerEvent.t)
  (cb : SceneCallback) (s : GameScene.t) :
  GameScene.delayedCalls s = [(e, cb)] ->
  TimerEvent.hasDispatched e = false ->
  let s0 :=
    GameScene.set_delayedCalls []
      (GameScene.set_player2
         (Player.clockUpdate playerConfig delta (GameScene.player2 s))
         (GameScene.set_player1
            (Player.clockUpdate playerConfig delta (GameScene.player1 s)) s)) in
  GameScene.clockUpdate screenSize gameConfig playerConfig delta s
  = if TimerEvent.elapsed e + delta >=? TimerEvent.delay e
    then GameScene.runCallback screenSize gameConfig cb s0
    else GameScene.set_delayedCalls
           [(TimerEvent.mk (TimerEvent.delay e) (TimerEvent.elapsed e + delta) false,
             cb)] s0.
Proof.
  intros Hd He. cbv zeta. unfold GameScene.clockUpdate. cbv zeta.
  scene_red. rewrite Hd. cbn [GameScene.runDelayedCalls].
  unfold TimerEvent.advance, TimerEvent.due. rewrite He.
  cbn [TimerEvent.hasDispatched TimerEvent.elapsed TimerEvent.delay negb andb].
  destruct (TimerEvent.elapsed e + delta >=? TimerEvent.delay e).
  - set (s' := GameScene.runCallback _ _ _ _).
    cbn [app]. now destruct s'.
  - scene_red. reflexivity.
Qed.

Lemma frozen_tick (p1 p2 : nat) (total delta : R) (s : GameScene.t) :
  Match.frozen gameConfig p1 p2 total s ->
  total + delta
  < (goalCelebrationTime gameConfig + kickoffDelay gameConfig) * 1000 ->
  Match.frozen gameConfig p1 p2 (total + delta)
    (GameScene.clockUpdate screenSize gameConfig playerConfig delta s).
Proof.
  intros (Ha & H1 & H2 & Hp) Hlt.
  destruct Hp as [(e & Hd & He & Hdl & Hel) | (e & Hd & He & Hdl & Hel)];
    rewrite (clockUpdate_one_pending delta e _ s Hd He); cbv zeta.
  - destruct (TimerEvent.elapsed e + delta >=? TimerEvent.delay e) eqn:Edue.
    + apply geb_true_iff in Edue.
      cbn [GameScene.runCallback]. unfold GameScene.resetToKickoff. cbv zeta.
      unfold Match.frozen. scene_red.
      repeat split; try assumption.
      right. eexists. repeat split; cbn [TimerEvent.hasDispatched
        TimerEvent.delayedCall TimerEvent.delay TimerEvent.elapsed]; try reflexivity.
      lra.
    + unfold Match.frozen. scene_red. repeat split; try assumption.
      left. eexists. repeat split;
        cbn [TimerEvent.hasDispatched TimerEvent.delay TimerEvent.elapsed];
        try reflexivity; try assumption. lra.
  - rewrite (proj2 (geb_false_iff (TimerEvent.elapsed e + delta) (TimerEvent.delay e)))
      by lra.
    unfold Match.frozen. scene_red. repeat split; try assumption.
    right. eexists. repeat split;
      cbn [TimerEvent.hasDispatched TimerEvent.delay TimerEvent.elapsed];
      try reflexivity; try assumption. lra.
Qed.

(** The freeze lasts for any sequence of events that lets less than the
    celebration time plus the kickoff delay pass on the scene clock. *)
Lemma frozen_run (evs : list GameScene.Event) :
  forall (p1 p2 : nat) (total : R) (s : GameScene.t),
  Match.frozen gameConfig p1 p2 total s ->
  Match.forward evs ->
  total + GameScene.clockTime evs
  < (goalCelebrationTime gameConfig + kickoffDelay gameConfig) * 1000 ->
  Match.frozen gameConfig p1 p2 (total + GameScene.clockTime evs) (run evs s).
Proof.
  induction evs as [ | ev evs IH ]; intros p1 p2 total s Hf Hfw Hlt.
  - cbn [GameScene.clockTime run GameScene.run fold_left].
    now rewrite Rplus_0_r.
  - assert (Hin : GameScene.isGameActive s = false) by (destruct Hf; assumption).
    pose proof (handle_inactive ev s Hin) as Hev.
    cbn [run GameScene.run fold_left].
    change (fold_left _ evs ?x) with (run evs x).
    destruct ev; cbn [GameScene.clockTime Match.forward] in *;
      try (fold handle; rewrite Hev; now apply IH).
    destruct Hfw as [Hpos Hfw].
    assert (Hnn : 0 <= GameScene.clockTime evs).
    { clear - Hfw. induction evs as [ | ev evs IHe ]; cbn [GameScene.clockTime];
        [ lra | ].
      destruct ev; cbn [Match.forward] in Hfw; try (now apply IHe).
      destruct Hfw as [Hd Hr]. specialize (IHe Hr). lra. }
    replace (total + (delta + GameScene.clockTime evs))
      with (total + delta + GameScene.clockTime evs) by ring.
    apply IH; [ | exact Hfw | lra ].
    cbn [GameScene.handle]. apply frozen_tick; [ exact Hf | lra ].
Qed.

(** An accepted goal starts the freeze. *)
Lemma handleGoal_freezes (now : R) (p : PlayerId) (s : GameScene.t) :
  GameScene.isGameActive s = true ->
  GameScene.lastGoalTime s = 0 \/ 1000 <= now - GameScene.lastGoalTime s ->
  GameScene.delayedCalls s = [] ->
  let s1 := GameScene.handleGoal gameConfig now p s in
  Match.frozen gameConfig (GameScene.player1Score s1) (GameScene.player2Score s1)
    0 s1.
Proof.
  intros Ha Hacc Hd. cbv zeta.
  destruct (handleGoal_accepted gameConfig now p s Ha Hacc)
    as (Hi & _ & _ & _ & _ & _ & _ & _ & _ & Hdc).
  unfold Match.frozen. repeat split; try assumption.
  left. eexists. rewrite Hdc, Hd. repeat split; reflexivity.
Qed.

End Freeze.

Section GoalsAndFreeze.

Variable screenSize : ScreenSize.
Variable fieldConfig : FieldConfig.
Variable gameConfig : GameConfig.
Variable playerConfig : PlayerConfig.
Variable ballConfig : BallConfig.


(** C10.  While the match is inactive the goal handler, the contact
    handler, the player-collision handler, the manual check and [update]
    all return the scene as it is.  An accepted goal makes the match
    inactive, so no later goal trigger is accepted, at whatever time it
    comes.  And the match stays inactive, with the scores of the accepted
    goal, through every sequence of overlaps, updates and clock ticks that
    lets less than the celebration time plus the kickoff delay pass. *)
Theorem inactive_match_is_frozen :
  (forall s : GameScene.t,
   GameScene.isGameActive s = false ->
   (forall now p, GameScene.handleGoal gameConfig now p s = s)
   /\ (forall who,
       GameScene.handlePlayerBallContact playerConfig ballConfig who s = s)
   /\ GameScene.handlePlayerCollision playerConfig s = s
   /\ (forall now,
       GameScene.checkManualCollisions fieldConfig gameConfig playerConfig
         ballConfig now s = s)
   /\ (forall now delta c1 c2,
       GameScene.update fieldConfig gameConfig playerConfig ballConfig now delta
         c1 c2 s = s))
  /\ (forall (s : GameScene.t) (now : R) (p : PlayerId),
      GameScene.isGameActive s = true ->
      GameScene.lastGoalTime s = 0 \/ 1000 <= now - GameScene.lastGoalTime s ->
      let s1 := GameScene.handleGoal gameConfig now p s in
      GameScene.isGameActive s1 = false
      /\ (forall t2 q, GameScene.handleGoal gameConfig t2 q s1 = s1))
  /\ (forall (s : GameScene.t) (now : R) (p : PlayerId)
             (evs : list GameScene.Event),
      GameScene.isGameActive s = true ->
      GameScene.lastGoalTime s = 0 \/ 1000 <= now - GameScene.lastGoalTime s ->
      GameScene.delayedCalls s = [] ->
      Match.forward evs ->
      GameScene.clockTime evs
      < (goalCelebrationTime gameConfig + kickoffDelay gameConfig) * 1000 ->
      let s1 := GameScene.handleGoal gameConfig now p s in
      let s' := GameScene.run screenSize fieldConfig gameConfig playerConfig
                  ballConfig evs s1 in
      GameScene.isGameActive s' = false
      /\ GameScene.player1Score s' = GameScene.player1Score s1
      /\ GameScene.player2Score s' = GameScene.player2Score s1).
Proof.
  split; [ | split ].
  - intros s Hin. repeat split; intros.
    + now apply handleGoal_inactive.
    + now apply handlePlayerBallContact_inactive.
    + now apply handlePlayerCollision_inactive.
    + now apply checkManualCollisions_inactive.
    + now apply update_inactive.
  - intros s now p Ha Hacc. cbv zeta.
    destruct (handleGoal_accepted gameConfig now p s Ha Hacc) as (Hi & _).
    split; [ exact Hi | ]. intros t2 q. now apply handleGoal_inactive.
  - intros s now p evs Ha Hacc Hd Hfw Hlt. cbv zeta.
    pose proof (handleGoal_freezes gameConfig now p s Ha Hacc Hd) as Hf.
    cbv zeta in Hf.
    pose proof (frozen_run screenSize fieldConfig gameConfig playerConfig
                  ballConfig evs _ _ 0 _ Hf Hfw) as Hr.
    rewrite Rplus_0_l in Hr. destruct (Hr Hlt) as (A & B & C & _).
    repeat split; assumption.
Qed.

End GoalsAndFreeze.


Lemma inactive_match_is_frozen_witness :
  GameScene.isGameActive Sample.scene = true
  /\ GameScene.isGameActive (GameScene.handleGoal Sample.gameConfig 5000 P1 Sample.scene)
     = false
  /\ GameScene.player1Score
       (GameScene.run Sample.screenSize Sample.fieldConfig Sample.gameConfig
          Sample.playerConfig Sample.ballConfig
          [GameScene.ClockTick 2100; GameScene.GoalZoneOverlap 7100 P2;
           GameScene.BallPlayerOverlap P1; GameScene.ClockTick 800]
          (GameScene.handleGoal Sample.gameConfig 5000 P1 Sample.scene))
     = GameScene.player1Score
         (GameScene.handleGoal Sample.gameConfig 5000 P1 Sample.scene).
Proof.
  assert (H0 : GameScene.lastGoalTime Sample.scene = 0
               \/ 1000 <= 5000 - GameScene.lastGoalTime Sample.scene)
    by (left; reflexivity).
  destruct (inactive_match_is_frozen Sample.screenSize Sample.fieldConfig
              Sample.gameConfig Sample.playerConfig Sample.ballConfig)
    as (_ & Hacc & Hrun).
  split; [ reflexivity | ].
  split; [ exact (proj1 (Hacc Sample.scene 5000 P1 eq_refl H0)) | ].
  refine (proj1 (proj2 (Hrun Sample.scene 5000 P1
            [GameScene.ClockTick 2100; GameScene.GoalZoneOverlap 7100 P2;
             GameScene.BallPlayerOverlap P1; GameScene.ClockTick 800]
            eq_refl H0 eq_refl _ _))).
  - cbn [Match.forward]. repeat split; lra.
  - cbn [GameScene.clockTime goalCelebrationTime kickoffDelay Sample.gameConfig].
    lra.
Defined.

(** ** GameScene: no delayed call is pending while the match is active *)

Section WellTimed.

Variable screenSize : ScreenSize.
Variable fieldConfig : FieldConfig.
Variable gameConfig : GameConfig.
Variable playerConfig : PlayerConfig.
Variable ballConfig : BallConfig.

Lemma wellTimed_active (s : GameScene.t) :
  Match.wellTimed s -> GameScene.isGameActive s = true ->
  GameScene.delayedCalls s = [].
Proof.
  intros [H | (Hin & _)] Ha; [ exact H | ]. rewrite Hin in Ha. discriminate.
Qed.

Lemma wellTimed_sameMatch (s s' : GameScene.t) :
  Match.sameMatch s s' -> Match.wellTimed s -> Match.wellTimed s'.
Proof.
  intros (Ha & _ & _ & _ & _ & _ & _ & Hd) Hw. unfold Match.wellTimed in *.
  now rewrite Ha, Hd.
Qed.

Lemma handleGoal_wellTimed (now : R) (p : PlayerId) (s : GameScene.t) :
  Match.wellTimed s -> Match.wellTimed (GameScene.handleGoal gameConfig now p s).
Proof.
  intros Hw. destruct (GameScene.isGameActive s) eqn:Ha.
  - destruct (Req_dec_T (GameScene.lastGoalTime s) 0) as [H0 | Hn].
    + destruct (handleGoal_accepted gameConfig now p s Ha (or_introl H0))
        as (Hi & _ & _ & _ & _ & _ & _ & _ & _ & Hdc).
      right. split; [ exact Hi | ].
      rewrite Hdc, (wellTimed_active s Hw Ha). do 2 eexists.
      split; reflexivity.
    + destruct (Rlt_or_le (now - GameScene.lastGoalTime s) 1000) as [Hlt | Hge].
      * now rewrite handleGoal_debounced.
      * destruct (handleGoal_accepted gameConfig now p s Ha (or_intror Hge))
          as (Hi & _ & _ & _ & _ & _ & _ & _ & _ & Hdc).
        right. split; [ exact Hi | ].
        rewrite Hdc, (wellTimed_active s Hw Ha). do 2 eexists.
        split; reflexivity.
  - now rewrite handleGoal_inactive.
Qed.

Lemma manualGoal_wellTimed (crossed : bool) (now : R) (q : PlayerId)
  (s : GameScene.t) :
  Match.wellTimed s ->
  Match.wellTimed (GameScene.manualGoal gameConfig crossed now q s).
Proof.
  intros Hw. unfold GameScene.manualGoal.
  destruct crossed; [ | exact Hw ].
  destruct (_ >? _); [ now apply handleGoal_wellTimed | exact Hw ].
Qed.

Lemma checkManualCollisions_wellTimed (now : R) (s : GameScene.t) :
  Match.wellTimed s ->
  Match.wellTimed
    (GameScene.checkManualCollisions fieldConfig gameConfig playerConfig
       ballConfig now s).
Proof.
  intros Hw. unfold GameScene.checkManualCollisions.
  destruct (negb (GameScene.isGameActive s) || GameUI.isPaused (GameScene.gameUI s));
    [ exact Hw | ].
  cbv zeta. do 2 apply manualGoal_wellTimed.
  eapply wellTimed_sameMatch;
    [ apply manualContact_sameMatch; apply sameMatch_stamp2 | ].
  eapply wellTimed_sameMatch;
    [ apply manualContact_sameMatch; apply sameMatch_stamp1 | exact Hw ].
Qed.

Lemma handlePlayerCollision_sameMatch (s : GameScene.t) :
  Match.sameMatch s (GameScene.handlePlayerCollision playerConfig s).
Proof.
  unfold GameScene.handlePlayerCollision, Match.sameMatch.
  destruct (negb (GameScene.isGameActive s) || GameUI.isPaused (GameScene.gameUI s));
    [ repeat split; reflexivity | ].
  destruct (_ && _); [ scene_red; repeat split; reflexivity | ].
  destruct (_ && _); scene_red; repeat split; reflexivity.
Qed.

Lemma update_wellTimed (now delta : R) (c1 c2 : Controls) (s : GameScene.t) :
  Match.wellTimed s ->
  Match.wellTimed
    (GameScene.update fieldConfig gameConfig playerConfig ballConfig now delta
       c1 c2 s).
Proof.
  intros Hw. unfold GameScene.update.
  destruct (negb (GameScene.isGameActive s) || GameUI.isPaused (GameScene.gameUI s));
    [ exact Hw | ].
  cbv zeta. apply checkManualCollisions_wellTimed.
  eapply wellTimed_sameMatch; [ | exact Hw ].
  unfold Match.sameMatch. scene_red. repeat split; reflexivity.
Qed.

Lemma clockUpdate_wellTimed (delta : R) (s : GameScene.t) :
  Match.wellTimed s ->
  Match.wellTimed (GameScene.clockUpdate screenSize gameConfig playerConfig delta s).
Proof.
  intros [Hd | (Hin & e & cb & Hd & He)].
  - left. unfold GameScene.clockUpdate. cbv zeta. scene_red. rewrite Hd.
    reflexivity.
  - rewrite (clockUpdate_one_pending screenSize gameConfig playerConfig delta e
               cb s Hd He).
    cbv zeta. destruct (_ >=? _).
    + destruct cb; cbn [GameScene.runCallback].
      * right. unfold GameScene.resetToKickoff. cbv zeta. scene_red.
        split; [ reflexivity | ]. do 2 eexists. split; reflexivity.
      * left. reflexivity.
    + right. scene_red. split; [ exact Hin | ]. do 2 eexists.
      split; reflexivity.
Qed.

(** Every event keeps the scene well timed. *)
Lemma handle_wellTimed (ev : GameScene.Event) (s : GameScene.t) :
  Match.wellTimed s ->
  Match.wellTimed
    (GameScene.handle screenSize fieldConfig gameConfig playerConfig ballConfig
       ev s).
Proof.
  intros Hw. destruct ev; cbn [GameScene.handle].
  - now apply handleGoal_wellTimed.
  - eapply wellTimed_sameMatch; [ apply handlePlayerBallContact_sameMatch | exact Hw ].
  - eapply wellTimed_sameMatch; [ apply handlePlayerCollision_sameMatch | exact Hw ].
  - now apply clockUpdate_wellTimed.
  - now apply update_wellTimed.
Qed.

Lemma run_wellTimed (evs : list GameScene.Event) :
  forall s : GameScene.t,
  Match.wellTimed s ->
  Match.wellTimed
    (GameScene.run screenSize fieldConfig gameConfig playerConfig ballConfig
       evs s).
Proof.
  induction evs as [ | ev evs IH ]; intros s Hw; [ exact Hw | ].
  cbn [GameScene.run fold_left]. apply IH. now apply handle_wellTimed.
Qed.

(** The match as [startGame] leaves it is well timed, and so is every
    scene that events lead to from there: whenever the match is active,
    no delayed call is pending. *)
Lemma started_match_no_pending_call (s0 : GameScene.t)
  (evs : list GameScene.Event) :
  GameScene.delayedCalls s0 = [] ->
  let s := GameScene.run screenSize fieldConfig gameConfig playerConfig
             ballConfig evs (GameScene.startGame screenSize gameConfig s0) in
  GameScene.isGameActive s = true -> GameScene.delayedCalls s = [].
Proof.
  intros Hd. cbv zeta. apply wellTimed_active. apply run_wellTimed.
  right. unfold GameScene.startGame, GameScene.resetToKickoff. cbv zeta.
  scene_red. rewrite Hd. split; [ reflexivity | ].
  do 2 eexists. split; reflexivity.
Qed.

End WellTimed.

(** ** AIController: behaviour selection *)

Lemma isMoving_false_iff (b : Ball.t) :
  Ball.isMoving b = false <-> Vector2.length (Ball.velocity b) <= 20.
Proof. unfold Ball.isMoving. apply gtb_false_iff. Qed.

Lemma distance_3_4_5 : Distance.Between 0 0 30 40 = 50.
Proof.
  unfold Distance.Between. cbv zeta.
  replace ((0 - 30) * (0 - 30) + (0 - 40) * (0 - 40)) with (50 * 50) by ring.
  apply sqrt_square. lra.
Qed.

(** C9.  When the ball is less than 80 units from the AI's player and is
    not moving (its speed is at most 20, the threshold of [isMoving]),
    [makeDecision] selects attack, whatever the other conditions of the
    chain say; and a decision tick of [update] (the decision clock being
    due) leaves attack as the current action. *)
Theorem close_still_ball_attack (ai : AIController.t) (player : Player.t)
  (ball : Ball.t) (cameraWidth random : R) :
  Distance.Between (Player.x player) (Player.y player) (Ball.x ball) (Ball.y ball)
  < 80 ->
  Vector2.length (Ball.velocity ball) <= 20 ->
  AIController.currentAction
    (AIController.makeDecision player ball cameraWidth random ai)
  = Action.attack
  /\ (forall deltaTime now : R,
      AIController.reactionTime ai / AIController.reactionSpeed ai
      < now - AIController.lastDecisionTime ai ->
      AIController.currentAction
        (AIController.updateDecision deltaTime now player ball cameraWidth
           random ai)
      = Action.attack).
Proof.
  intros Hd Hv.
  assert (Hm : forall a : AIController.t,
             AIController.currentAction
               (AIController.makeDecision player ball cameraWidth random a)
             = Action.attack).
  { intros a. unfold AIController.makeDecision. cbv zeta.
    rewrite (proj2 (ltb_true_iff _ _) Hd).
    rewrite (proj2 (isMoving_false_iff ball) Hv). reflexivity. }
  split; [ apply Hm | ].
  intros deltaTime now Hdue. unfold AIController.updateDecision. cbv zeta.
  cbn [AIController.reactionTime AIController.reactionSpeed
       AIController.lastDecisionTime].
  rewrite (proj2 (gtb_true_iff _ _) Hdue).
  unfold AIController.set_lastDecisionTime.
  cbn [AIController.currentAction]. apply Hm.
Qed.

(** The scenario of the specification: the ball 50 units away and at
    rest. *)
Lemma close_still_ball_attack_witness :
  Distance.Between (Player.x (Player.new 0 0 Side.right))
    (Player.y (Player.new 0 0 Side.right))
    (Ball.x (Sample.ballAt 30 40)) (Ball.y (Sample.ballAt 30 40)) = 50
  /\ Vector2.length (Ball.velocity (Sample.ballAt 30 40)) = 0
  /\ AIController.currentAction
       (AIController.makeDecision (Player.new 0 0 Side.right)
          (Sample.ballAt 30 40) 1152 0.5 (AIController.new medium))
     = Action.attack.
Proof.
  assert (Hd : Distance.Between (Player.x (Player.new 0 0 Side.right))
                 (Player.y (Player.new 0 0 Side.right))
                 (Ball.x (Sample.ballAt 30 40)) (Ball.y (Sample.ballAt 30 40)) = 50)
    by exact distance_3_4_5.
  assert (Hv : Vector2.length (Ball.velocity (Sample.ballAt 30 40)) = 0)
    by exact length_zero.
  split; [ exact Hd | split; [ exact Hv | ] ].
  apply (close_still_ball_attack (AIController.new medium)
           (Player.new 0 0 Side.right) (Sample.ballAt 30 40) 1152 0.5).
  - rewrite Hd. lra.
  - rewrite Hv. lra.
Defined.

(** * Further properties *)

(** ** Ball: the per-tick update and the goal-post rebound *)

Ltac ball_red :=
  cbn [Ball.x Ball.y Ball.velocity Ball.angularVelocity Vector2.x Vector2.y] in *.

(** A ball inside the arena that is at rest, or moving at speed 3 or
    more, is left alone by [update]. *)
Lemma ball_update_fixed (b : Ball.t) :
  25 <= Ball.x b <= 1152 - 25 -> 25 <= Ball.y b ->
  (Ball.velocity b = Vector2.mk 0 0 /\ Ball.angularVelocity b = 0)
  \/ 3 <= Vector2.length (Ball.velocity b) ->
  Ball.update b = b.
Proof.
  intros Hx Hy Hv. unfold Ball.update. cbv zeta.
  rewrite (proj2 (ltb_false_iff (Ball.x b) 25)) by lra.
  rewrite (proj2 (gtb_false_iff (Ball.x b) (1152 - 25))) by lra.
  rewrite (proj2 (ltb_false_iff (Ball.y b) 25)) by lra.
  destruct Hv as [[Hv Hs] | Hv].
  - rewrite Hv, length_zero.
    rewrite (proj2 (ltb_true_iff 0 3)) by lra.
    destruct b as [bx bz v w]. ball_red. now subst.
  - now rewrite (proj2 (ltb_false_iff _ 3) Hv).
Qed.

(** Where [update] leaves the ball. *)
Lemma ball_update_range (b : Ball.t) :
  let b' := Ball.update b in
  25 <= Ball.x b' <= 1152 - 25
  /\ 25 <= Ball.y b'
  /\ ((Ball.velocity b' = Vector2.mk 0 0 /\ Ball.angularVelocity b' = 0)
      \/ 3 <= Vector2.length (Ball.velocity b')).
Proof.
  cbv zeta. unfold Ball.update. cbv zeta.
  destruct (Ball.x b <? 25) eqn:E1;
    [ | destruct (Ball.x b >? 1152 - 25) eqn:E2 ];
    ball_red;
    (destruct (Ball.y b <? 25) eqn:E3; ball_red;
     match goal with
     | |- context [Vector2.length ?v <? 3] =>
         destruct (Vector2.length v <? 3) eqn:E4
     end; ball_red;
     try apply ltb_true_iff in E1; try apply ltb_false_iff in E1;
     try apply gtb_true_iff in E2; try apply gtb_false_iff in E2;
     try apply ltb_true_iff in E3; try apply ltb_false_iff in E3;
     try apply ltb_false_iff in E4;
     (split; [ lra | split; [ lra | ] ]);
     first [ left; split; reflexivity | right; exact E4 ]).
Qed.

(** Reversing a component and damping it by 0.8 does not raise the
    speed. *)
Lemma length_damped (vx vy kx ky : R) :
  (kx = vx \/ kx = - vx * 0.8) -> (ky = vy \/ ky = - vy * 0.8) ->
  Vector2.length (Vector2.mk kx ky) <= Vector2.length (Vector2.mk vx vy).
Proof.
  intros Hx Hy. unfold Vector2.length. cbn [Vector2.x Vector2.y].
  apply sqrt_le_1_alt.
  destruct Hx as [-> | ->], Hy as [-> | ->]; nra.
Qed.

(** X1.  After [Ball.update] the ball is inside the arena horizontally
    ([25 <= x <= 1127]) and not above its top ([y >= 25]); it is either
    at rest with no spin or moving at speed 3 or more; and the update
    never raises its speed. *)
Theorem ball_update_settles (b : Ball.t) :
  let b' := Ball.update b in
  25 <= Ball.x b' <= 1152 - 25
  /\ 25 <= Ball.y b'
  /\ ((Ball.velocity b' = Vector2.mk 0 0 /\ Ball.angularVelocity b' = 0)
      \/ 3 <= Vector2.length (Ball.velocity b'))
  /\ Vector2.length (Ball.velocity b') <= Vector2.length (Ball.velocity b).
Proof.
  cbv zeta. destruct (ball_update_range b) as (Hx & Hy & Hv).
  cbv zeta in Hx, Hy, Hv.
  split; [ exact Hx | split; [ exact Hy | split; [ exact Hv | ] ] ].
  clear Hx Hy Hv. unfold Ball.update. cbv zeta.
  destruct b as [bx bz [vx vy] w]. ball_red.
  destruct (bx <? 25); [ | destruct (bx >? 1152 - 25) ]; ball_red;
    (destruct (bz <? 25); ball_red;
     match goal with
     | |- context [Vector2.length ?v <? 3] => destruct (Vector2.length v <? 3)
     end; ball_red;
     first [ rewrite length_zero; apply length_nonneg
           | apply length_damped; tauto ]).
Qed.

(** X2.  [Ball.update] is idempotent: a second update in the same tick
    changes nothing. *)
Theorem ball_update_idempotent (b : Ball.t) :
  Ball.update (Ball.update b) = Ball.update b.
Proof.
  destruct (ball_update_range b) as (Hx & Hy & Hv).
  now apply ball_update_fixed.
Qed.

(** X3.  A goal-post hit reverses the horizontal velocity and scales it
    by 1.2, never leaves the ball moving downward, and does not raise the
    speed by more than the factor 1.2. *)
Theorem goal_post_rebound (b : Ball.t) :
  let v := Ball.velocity b in
  let v' := Ball.velocity (Ball.onGoalPostHit b) in
  Vector2.x v' = - (1.2 * Vector2.x v)
  /\ Vector2.y v' <= 0
  /\ Rabs (Vector2.y v') = 0.8 * Rabs (Vector2.y v)
  /\ Vector2.length v' <= 1.2 * Vector2.length v
  /\ Ball.x (Ball.onGoalPostHit b) = Ball.x b
  /\ Ball.y (Ball.onGoalPostHit b) = Ball.y b.
Proof.
  cbv zeta. unfold Ball.onGoalPostHit. cbv zeta. ball_red.
  set (vx := Vector2.x (Ball.velocity b)).
  set (vy := Vector2.y (Ball.velocity b)).
  pose proof (Rabs_pos vy) as Hp.
  assert (Hsq : Rabs vy * Rabs vy = vy * vy).
  { unfold Rabs. destruct (Rcase_abs vy); ring. }
  repeat split; try lra.
  - replace (- Rabs vy * 0.8) with (- (0.8 * Rabs vy)) by ring.
    rewrite Rabs_Ropp. apply Rabs_pos_eq. lra.
  - unfold Vector2.length. ball_red. fold vx vy.
    replace (1.2 * sqrt (vx * vx + vy * vy))
      with (sqrt (1.2 * 1.2 * (vx * vx + vy * vy))).
    + apply sqrt_le_1_alt. nra.
    + rewrite sqrt_mult_alt by lra. now rewrite sqrt_square by lra.
Qed.

(** ** The kick that a contact gives the ball *)

Section KickDirection.

Variable playerConfig : PlayerConfig.
Variable ballConfig : BallConfig.

(** The speed limit multiplies both components by one positive factor. *)
Lemma limitSpeed_scales (v : Vector2.t) :
  0 < maxSpeed ballConfig ->
  exists c : R,
    0 < c
    /\ Vector2.x (Ball.limitSpeed ballConfig v) = Vector2.x v * c
    /\ Vector2.y (Ball.limitSpeed ballConfig v) = Vector2.y v * c.
Proof.
  intros HM.
  destruct (Rle_or_lt (Vector2.length v) (maxSpeed ballConfig * 1.2)) as [Hle | Hgt].
  - rewrite limitSpeed_within by exact Hle. exists 1. repeat split; lra.
  - rewrite (limitSpeed_exceeding ballConfig v Hgt).
    assert (Hv : 0 < Vector2.length v) by lra.
    pose proof (length_pos_sumsq v Hv) as Hs.
    unfold Vector2.normalize. cbv zeta.
    rewrite (proj2 (gtb_true_iff _ 0) Hs).
    unfold Vector2.scale; simpl. fold (Vector2.length v).
    exists (1 / Vector2.length v * (maxSpeed ballConfig * 1.2)).
    repeat split; try ring.
    apply Rmult_lt_0_compat; [ | lra ].
    unfold Rdiv. rewrite Rmult_1_l. now apply Rinv_0_lt_compat.
Qed.

(** The impulse of a player's kick info, as the switch of [Ball.kick]
    shapes it: it points upward, and horizontally it is the player's kick
    direction times the kick force of the player's situation times a
    positive factor. *)
Lemma kickInfo_shaped (p : Player.t) (d : R) :
  0 <= d ->
  let info := Player.getKickInfo ballConfig p in
  let shaped := Ball.shapedForce (force info) (type info) d in
  Vector2.y shaped < 0
  /\ exists kickForce c : R,
       0 < c
       /\ (kickForce = slideKickForce ballConfig
           \/ kickForce = jumpKickForce ballConfig
           \/ kickForce = runningKickForce ballConfig
           \/ kickForce = normalKickForce ballConfig)
       /\ Vector2.x shaped
          = (if Player.facingRight p then 1 else -1) * kickForce * c.
Proof.
  intros Hd. cbv zeta.
  pose proof (powerFactor_range d Hd) as Hpf.
  pose proof (Rmax_l 200 (d * 1.5)) as Hmax.
  unfold Player.getKickInfo, Player.getKickForce. cbv zeta.
  destruct (PlayerState_eqb (Player.playerState p) sliding);
    [ | destruct (negb (Player.isOnGround p));
        [ | destruct (Rabs (Vector2.x (Player.velocity p)) >? 150) ] ];
    cbn [force type Ball.shapedForce Vector2.clone Vector2.scale Vector2.x
         Vector2.y]; (split; [ | ]).
  - lra.
  - exists (slideKickForce ballConfig), 1.5. split; [ lra | split; [ tauto | ring ] ].
  - unfold Rabs. destruct (Rcase_abs (-150)); lra.
  - exists (jumpKickForce ballConfig), 0.8. split; [ lra | split; [ tauto | ring ] ].
  - lra.
  - exists (runningKickForce ballConfig), (Ball.powerFactor d).
    split; [ lra | split; [ tauto | reflexivity ] ].
  - lra.
  - exists (normalKickForce ballConfig), (Ball.powerFactor d).
    split; [ lra | split; [ tauto | reflexivity ] ].
Qed.

Lemma properKick_ball (who : PlayerId) (s : GameScene.t) :
  let player := GameScene.getPlayer who s in
  let info := Player.getKickInfo ballConfig player in
  GameScene.ball (GameScene.properKick playerConfig ballConfig who s)
  = Ball.kick ballConfig (force info) (Player.y player) (type info)
      (Distance.Between (Player.x player) (Player.y player)
         (Ball.x (GameScene.ball s)) (Ball.y (GameScene.ball s)))
      (GameScene.ball s).
Proof.
  cbv zeta. unfold GameScene.properKick. cbv zeta.
  destruct (negb _ && negb _); [ rewrite ball_setPlayer | ]; reflexivity.
Qed.

(** X4.  A proper-kick contact (match active and not paused, the player
    facing the ball) always sends the ball upward, the configured maximum
    ball speed being positive; and with positive kick forces it sends the
    ball to the side the player faces, which is away from the player. *)
Theorem proper_kick_up_and_away (who : PlayerId) (s : GameScene.t) :
  GameScene.isGameActive s = true ->
  GameUI.isPaused (GameScene.gameUI s) = false ->
  0 < maxSpeed ballConfig ->
  let player := GameScene.getPlayer who s in
  let rel := Ball.x (GameScene.ball s) - Player.x player in
  GameScene.isProperKick (Player.getFacingDirection player) rel = true ->
  let v' :=
    Ball.velocity
      (GameScene.ball
         (GameScene.handlePlayerBallContact playerConfig ballConfig who s)) in
  Vector2.y v' < 0
  /\ (0 < slideKickForce ballConfig -> 0 < jumpKickForce ballConfig ->
      0 < runningKickForce ballConfig -> 0 < normalKickForce ballConfig ->
      0 < rel * Vector2.x v').
Proof.
  intros Ha Hp HM. cbv zeta. intros Hk.
  rewrite (handlePlayerBallContact_active playerConfig ballConfig who s Ha Hp).
  cbv zeta. rewrite Hk. rewrite properKick_ball. cbv zeta.
  rewrite kick_velocity.
  set (player := GameScene.getPlayer who s) in *.
  set (d := Distance.Between _ _ _ _).
  assert (Hd : 0 <= d) by apply sqrt_pos.
  destruct (kickInfo_shaped player d Hd) as (Hy & kf & c & Hc & Hkf & Hx).
  cbv zeta in Hy, Hx.
  set (shaped := Ball.shapedForce _ _ d) in *.
  destruct (limitSpeed_scales shaped HM) as (c' & Hc' & Hx' & Hy').
  rewrite Hx', Hy'. split; [ nra | ].
  intros H1 H2 H3 H4.
  assert (Hpos : 0 < kf) by (destruct Hkf as [E | [E | [E | E]]]; rewrite E; assumption).
  apply isProperKick_iff in Hk. rewrite Hx.
  assert (Hkc : 0 < kf * c * c').
  { apply Rmult_lt_0_compat; [ apply Rmult_lt_0_compat | ]; assumption. }
  unfold Player.getFacingDirection in Hk.
  destruct (Player.facingRight player);
    destruct Hk as [[Hf Hr] | [Hf Hr]]; try discriminate; nra.
Qed.

End KickDirection.

Lemma proper_kick_up_and_away_witness :
  GameScene.isGameActive Sample.ballAhead = true
  /\ GameUI.isPaused (GameScene.gameUI Sample.ballAhead) = false
  /\ 0 < maxSpeed Sample.ballConfig
  /\ Vector2.y
       (Ball.velocity
          (GameScene.ball
             (GameScene.handlePlayerBallContact Sample.playerConfig
                Sample.ballConfig P1 Sample.ballAhead))) < 0.
Proof.
  assert (HM : 0 < maxSpeed Sample.ballConfig) by (simpl; lra).
  assert (Hk : GameScene.isProperKick
                 (Player.getFacingDirection (GameScene.getPlayer P1 Sample.ballAhead))
                 (Ball.x (GameScene.ball Sample.ballAhead)
                  - Player.x (GameScene.getPlayer P1 Sample.ballAhead)) = true).
  { apply isProperKick_iff. left. split; [ reflexivity | ].
    unfold Sample.ballAhead, Sample.scene, Sample.ballAt.
    scene_red. player_red. lra. }
  split; [ reflexivity | split; [ reflexivity | split; [ exact HM | ] ] ].
  exact (proj1 (proper_kick_up_and_away Sample.playerConfig Sample.ballConfig P1
                  Sample.ballAhead eq_refl eq_refl HM Hk)).
Defined.

(** ** Player: the defensive clamps of [updateGroundStatus] *)

Ltac cmp_hyps :=
  repeat match goal with
         | H : Num.ltb _ _ = true |- _ => apply ltb_true_iff in H
         | H : Num.ltb _ _ = false |- _ => apply ltb_false_iff in H
         | H : Num.gtb _ _ = true |- _ => apply gtb_true_iff in H
         | H : Num.gtb _ _ = false |- _ => apply gtb_false_iff in H
         | H : Num.leb _ _ = true |- _ => apply leb_true_iff in H
         | H : Num.leb _ _ = false |- _ => apply leb_false_iff in H
         | H : Num.geb _ _ = true |- _ => apply geb_true_iff in H
         | H : Num.geb _ _ = false |- _ => apply geb_false_iff in H
         end.

Lemma sign_times_bound (v k : R) : 0 <= k -> Rabs (Num.sign v * k) <= k.
Proof.
  intros Hk. unfold Num.sign.
  destruct (0 <? v); [ | destruct (v <? 0) ].
  - rewrite Rmult_1_l, Rabs_pos_eq; lra.
  - replace (-1 * k) with (- k) by ring. rewrite Rabs_Ropp, Rabs_pos_eq; lra.
  - rewrite Rmult_0_l, Rabs_R0. exact Hk.
Qed.

(** X5.  Whatever the player's position and velocity, after
    [updateGroundStatus] the player is within the horizontal bounds
    [10, 1142], not more than 10 below the ground line 648, and its
    velocity components are within 800 and 1200 in magnitude.  A player
    that is not jumping is on the ground exactly when it was at most 10
    above the ground line; a jumping player never is. *)
Theorem ground_status_clamps (p : Player.t) :
  let q := Player.updateGroundStatus p in
  10 <= Player.x q <= 1142
  /\ Player.y q <= 648 + 10
  /\ Rabs (Vector2.x (Player.velocity q)) <= 800
  /\ Rabs (Vector2.y (Player.velocity q)) <= 1200
  /\ (Player.playerState p = jumping -> Player.isOnGround q = false)
  /\ (Player.playerState p <> jumping ->
      (Player.isOnGround q = true <-> 648 - 10 <= Player.y p)).
Proof.
  cbv zeta. unfold Player.updateGroundStatus. cbv zeta.
  pose proof (sign_times_bound (Vector2.x (Player.velocity p)) 800) as Sx.
  pose proof (sign_times_bound (Vector2.y (Player.velocity p)) 1200) as Sy.
  destruct (PlayerState_eqb (Player.playerState p) jumping) eqn:Ej; player_red;
    (destruct (Player.y p >? 648 + 10) eqn:Ey; player_red;
     (destruct (Player.x p <? 10) eqn:Ex1;
        [ | destruct (Player.x p >? 1142) eqn:Ex2 ]; player_red;
      (destruct (Rabs (Vector2.x (Player.velocity p)) >? 800) eqn:Evx; player_red;
       (destruct (Rabs (Vector2.y (Player.velocity p)) >? 1200) eqn:Evy;
        player_red; cmp_hyps;
        (split; [ lra | split; [ lra | split; [ lra | split; [ lra | ] ] ] ]))))).
  all: split.
  all: try (intros _; reflexivity).
  all: try (intros Hj; apply PlayerState_eqb_eq in Ej; contradiction).
  all: try (intros Hj; rewrite Hj in Ej; discriminate).
  all: intros _; split; [ apply geb_true_iff | apply geb_true_iff ].
Qed.

(** ** Player: stun, slide, action priority and kick cooldown *)

Ltac destruct_branches :=
  repeat match goal with
         | |- context [if ?c then _ else _] => destruct c
         | |- context [match ?o with Some _ => _ | None => _ end] => destruct o
         end.

Section PlayerStates.

Variable playerConfig : PlayerConfig.

(** What the slide, kick and cooldown countdowns and the ground status
    never touch. *)
Lemma updateSlideTimer_frame (dt : R) (p : Player.t) :
  let q := Player.updateSlideTimer dt p in
  Player.isStunned q = Player.isStunned p
  /\ Player.stunTimer q = Player.stunTimer p
  /\ Player.facingRight q = Player.facingRight p
  /\ Player.kickCooldown q = Player.kickCooldown p
  /\ Player.jumpFallTimer q = Player.jumpFallTimer p
  /\ Player.jumpLandTimer q = Player.jumpLandTimer p.
Proof.
  cbv zeta. unfold Player.updateSlideTimer. destruct_branches; player_red;
    repeat split; reflexivity.
Qed.

Lemma updateKickTimer_frame (dt : R) (p : Player.t) :
  let q := Player.updateKickTimer dt p in
  Player.isStunned q = Player.isStunned p
  /\ Player.stunTimer q = Player.stunTimer p
  /\ Player.slideTimer q = Player.slideTimer p
  /\ Player.facingRight q = Player.facingRight p
  /\ Player.kickCooldown q = Player.kickCooldown p.
Proof.
  cbv zeta. unfold Player.updateKickTimer. destruct_branches; player_red;
    repeat split; reflexivity.
Qed.

Lemma updateKickCooldown_frame (dt : R) (p : Player.t) :
  let q := Player.updateKickCooldown dt p in
  Player.isStunned q = Player.isStunned p
  /\ Player.stunTimer q = Player.stunTimer p
  /\ Player.slideTimer q = Player.slideTimer p
  /\ Player.kickTimer q = Player.kickTimer p
  /\ Player.facingRight q = Player.facingRight p
  /\ Player.playerState q = Player.playerState p
  /\ Player.jumpFallTimer q = Player.jumpFallTimer p
  /\ Player.jumpLandTimer q = Player.jumpLandTimer p.
Proof.
  cbv zeta. unfold Player.updateKickCooldown. destruct_branches; player_red;
    repeat split; reflexivity.
Qed.

Lemma updateGroundStatus_frame (p : Player.t) :
  let q := Player.updateGroundStatus p in
  Player.isStunned q = Player.isStunned p
  /\ Player.stunTimer q = Player.stunTimer p
  /\ Player.slideTimer q = Player.slideTimer p
  /\ Player.kickTimer q = Player.kickTimer p
  /\ Player.kickCooldown q = Player.kickCooldown p
  /\ Player.facingRight q = Player.facingRight p
  /\ Player.playerState q = Player.playerState p
  /\ Player.jumpFallTimer q = Player.jumpFallTimer p
  /\ Player.jumpLandTimer q = Player.jumpLandTimer p.
Proof.
  cbv zeta. unfold Player.updateGroundStatus. cbv zeta.
  destruct_branches; player_red; repeat split; reflexivity.
Qed.


End PlayerStates.

Section PlayerActions.

Variable playerConfig : PlayerConfig.

Lemma updateStunTimer_frame (dt : R) (p : Player.t) :
  let q := Player.updateStunTimer dt p in
  Player.slideTimer q = Player.slideTimer p
  /\ Player.kickTimer q = Player.kickTimer p
  /\ Player.kickCooldown q = Player.kickCooldown p
  /\ Player.facingRight q = Player.facingRight p
  /\ Player.jumpFallTimer q = Player.jumpFallTimer p
  /\ Player.jumpLandTimer q = Player.jumpLandTimer p.
Proof.
  cbv zeta. unfold Player.updateStunTimer. destruct_branches; player_red;
    repeat split; reflexivity.
Qed.

(** X7.  A slide ends by its timer only.  While the slide timer of a
    sliding player (not stunned) has not run out, [update] keeps the state
    sliding and the facing, and sets the horizontal velocity to the slide
    speed in the facing direction, whatever keys are down.  In the frame
    in which the timer runs out, the timers return the player to idle. *)
Theorem slide_runs_its_time (dt : R) (l r u d k : bool) (p : Player.t) :
  Player.playerState p = sliding ->
  Player.isStunned p = false ->
  Player.stunTimer p <= 0 ->
  (dt < Player.slideTimer p ->
   let q := Player.update playerConfig dt l r u d k p in
   Player.playerState q = sliding
   /\ Player.facingRight q = Player.facingRight p
   /\ Vector2.x (Player.velocity q)
      = (if Player.facingRight p then slideSpeed playerConfig
         else - slideSpeed playerConfig)
   /\ q = Player.update playerConfig dt false false false false false p)
  /\ (0 < Player.slideTimer p -> Player.slideTimer p <= dt ->
      Player.playerState (Player.updateTimers dt p) = idle).
Proof.
  intros Hs Hst Ht.
  assert (E1 : Player.updateStunTimer dt p = p)
    by now apply updateStunTimer_expired.
  split.
  - intros Hdt. cbv zeta.
    assert (H2 : Player.playerState (Player.updateSlideTimer dt p) = sliding).
    { unfold Player.updateSlideTimer.
      destruct (Player.slideTimer p >? 0); [ | exact Hs ].
      player_red.
      rewrite (proj2 (leb_false_iff (Player.slideTimer p - dt) 0)) by lra.
      player_red. exact Hs. }
    destruct (updateSlideTimer_frame dt p) as (B1 & _ & B3 & _).
    set (p2 := Player.updateSlideTimer dt p) in *.
    assert (H2' : Player.playerState p2 <> kicking) by (rewrite H2; discriminate).
    pose proof (updateKickTimer_state dt p2 H2') as C2.
    destruct (updateKickTimer_frame dt p2) as (C1 & _ & _ & C3 & _).
    set (p3 := Player.updateKickTimer dt p2) in *.
    destruct (updateKickCooldown_frame dt p3) as (D1 & _ & _ & _ & D3 & D2 & _).
    set (p4 := Player.updateKickCooldown dt p3) in *.
    destruct (updateGroundStatus_frame p4) as (F1 & _ & _ & _ & _ & F3 & F2 & _).
    set (p5 := Player.updateGroundStatus p4) in *.
    assert (G1 : Player.isStunned p5 = false) by congruence.
    assert (G2 : Player.playerState p5 = sliding) by congruence.
    assert (G3 : Player.facingRight p5 = Player.facingRight p) by congruence.
    unfold Player.update, Player.updateTimers. cbv zeta.
    rewrite E1. fold p2 p3 p4 p5. rewrite G1, G2. player_red.
    unfold Player.handleSlidingState. cbv zeta. player_red.
    rewrite G3. repeat split; try reflexivity; assumption.
  - intros Hpos Hdt.
    assert (H2 : Player.playerState (Player.updateSlideTimer dt p) = idle).
    { unfold Player.updateSlideTimer.
      rewrite (proj2 (gtb_true_iff _ _) Hpos). player_red.
      rewrite (proj2 (leb_true_iff (Player.slideTimer p - dt) 0)) by lra.
      rewrite Hs. player_red. reflexivity. }
    set (p2 := Player.updateSlideTimer dt p) in *.
    assert (H2' : Player.playerState p2 <> kicking) by (rewrite H2; discriminate).
    pose proof (updateKickTimer_state dt p2 H2') as C2.
    unfold Player.updateTimers. rewrite E1. fold p2.
    rewrite updateKickCooldown_state. congruence.
Qed.







End PlayerActions.

Lemma slide_runs_its_time_witness :
  Player.playerState (Player.startSlide Sample.playerConfig Sample.standing)
  = sliding
  /\ Player.playerState
       (Player.update Sample.playerConfig 16 false true true false true
          (Player.startSlide Sample.playerConfig Sample.standing))
     = sliding.
Proof.
  assert (Hs : Player.startSlide Sample.playerConfig Sample.standing
               = Player.mk Side.left sliding false 0
                   (slideDuration Sample.playerConfig * 1000) 0 true true 0
                   None None 376 648 (Vector2.mk 0 0))
    by (rewrite standing_eq; reflexivity).
  split; [ now rewrite Hs | ].
  refine (proj1 (proj1 (slide_runs_its_time Sample.playerConfig 16 false true true
                          false true _ _ _ _) _)); rewrite Hs; player_red;
    try reflexivity; simpl; lra.
Defined.



(** ** Player: the jump timers on the scene clock *)

Section JumpTimers.

Variable playerConfig : PlayerConfig.

(** The fall-timer half of [clockUpdate] changes the vertical velocity and
    the fall timer at most. *)
Lemma clockUpdate_fall_frame (delta : R) (p : Player.t) :
  let p1 :=
    match Player.jumpFallTimer p with
    | Some e =>
        if TimerEvent.due (TimerEvent.advance delta e)
        then Player.onJumpFall playerConfig
               (Player.set_jumpFallTimer
                  (Some (TimerEvent.dispatched (TimerEvent.advance delta e))) p)
        else Player.set_jumpFallTimer (Some (TimerEvent.advance delta e)) p
    | None => p
    end in
  Player.playerState p1 = Player.playerState p
  /\ Player.jumpLandTimer p1 = Player.jumpLandTimer p
  /\ Player.y p1 = Player.y p
  /\ Player.x p1 = Player.x p
  /\ Player.kickTimer p1 = Player.kickTimer p
  /\ Player.isOnGround p1 = Player.isOnGround p
  /\ Player.isStunned p1 = Player.isStunned p
  /\ (Player.playerState p <> jumping -> Player.velocity p1 = Player.velocity p).
Proof.
  cbv zeta. destruct (Player.jumpFallTimer p) as [e | ];
    [ | repeat split; reflexivity ].
  destruct (TimerEvent.due (TimerEvent.advance delta e));
    [ | player_red; repeat split; reflexivity ].
  unfold Player.onJumpFall. player_red.
  destruct (PlayerState_eqb (Player.playerState p) jumping) eqn:E; player_red;
    repeat split; try reflexivity.
  intros Hn. apply PlayerState_eqb_eq in E. contradiction.
Qed.

(** X10.  The land timer grounds a jumping player.  When the pending land
    timer of a player in the jumping state comes due on a clock tick, the
    player is put on the ground line 648 with zero vertical velocity and
    returns to idle, and the timer is spent. *)
Theorem land_timer_grounds (delta : R) (e : TimerEvent.t) (p : Player.t) :
  Player.playerState p = jumping ->
  Player.jumpLandTimer p = Some e ->
  TimerEvent.hasDispatched e = false ->
  TimerEvent.delay e <= TimerEvent.elapsed e + delta ->
  let q := Player.clockUpdate playerConfig delta p in
  Player.playerState q = idle
  /\ Player.y q = 648
  /\ Vector2.y (Player.velocity q) = 0
  /\ Player.x q = Player.x p
  /\ PlayerSteps.landTimerSpent q.
Proof.
  intros Hj Hl He Hdue. cbv zeta. unfold Player.clockUpdate. cbv zeta.
  destruct (clockUpdate_fall_frame delta p) as (F1 & F2 & F3 & F4 & _).
  cbv zeta in F1, F2, F3, F4.
  set (p1 := match Player.jumpFallTimer p with Some _ => _ | None => _ end) in *.
  rewrite F2, Hl.
  unfold TimerEvent.advance, TimerEvent.due. rewrite He.
  cbn [TimerEvent.hasDispatched TimerEvent.elapsed TimerEvent.delay negb andb].
  rewrite (proj2 (geb_true_iff _ _) Hdue).
  unfold Player.onJumpLand. player_red. rewrite F1, Hj. player_red.
  unfold PlayerSteps.landTimerSpent. player_red.
  repeat split; try reflexivity. exact F4.
Qed.

(** X11.  A land timer that comes due while the player is kicking is
    lost.  The clock tick leaves the player kicking, at the height it had,
    and the timer is spent; and when the kick timer then runs out with the
    player off the ground, the timers return it to the jumping state with
    the land timer still spent: no new one is created, since the handle is
    not null. *)
Theorem land_timer_lost_during_kick (delta dt : R) (e : TimerEvent.t)
  (p : Player.t) :
  Player.playerState p = kicking ->
  Player.jumpLandTimer p = Some e ->
  TimerEvent.hasDispatched e = false ->
  TimerEvent.delay e <= TimerEvent.elapsed e + delta ->
  let q := Player.clockUpdate playerConfig delta p in
  Player.playerState q = kicking
  /\ Player.y q = Player.y p
  /\ Player.velocity q = Player.velocity p
  /\ PlayerSteps.landTimerSpent q
  /\ (0 < Player.kickTimer p -> Player.kickTimer p <= dt ->
      Player.isOnGround p = false ->
      Player.playerState (Player.updateTimers dt q) = jumping
      /\ PlayerSteps.landTimerSpent (Player.updateTimers dt q)).
Proof.
  intros Hk Hl He Hdue. cbv zeta.
  assert (Hnj : Player.playerState p <> jumping) by (rewrite Hk; discriminate).
  destruct (clockUpdate_fall_frame delta p)
    as (F1 & F2 & F3 & _ & F5 & F6 & _ & F8).
  cbv zeta in F1, F2, F3, F5, F6, F8. specialize (F8 Hnj).
  assert (Hq : Player.clockUpdate playerConfig delta p
               = Player.set_jumpLandTimer
                   (Some (TimerEvent.dispatched
                            (TimerEvent.mk (TimerEvent.delay e)
                               (TimerEvent.elapsed e + delta) false)))
                   match Player.jumpFallTimer p with
                   | Some f =>
                       if TimerEvent.due (TimerEvent.advance delta f)
                       then Player.onJumpFall playerConfig
                              (Player.set_jumpFallTimer
                                 (Some (TimerEvent.dispatched
                                          (TimerEvent.advance delta f))) p)
                       else Player.set_jumpFallTimer
                              (Some (TimerEvent.advance delta f)) p
                   | None => p
                   end).
  { unfold Player.clockUpdate. cbv zeta.
    set (p1 := match Player.jumpFallTimer p with Some _ => _ | None => _ end) in *.
    rewrite F2, Hl.
    unfold TimerEvent.advance at 1 2 3, TimerEvent.due at 1. rewrite He.
    cbn [TimerEvent.hasDispatched TimerEvent.elapsed TimerEvent.delay negb andb].
    rewrite (proj2 (geb_true_iff _ _) Hdue).
    unfold Player.onJumpLand. player_red. rewrite F1, Hk. player_red.
    reflexivity. }
  rewrite Hq.
  set (p1 := match Player.jumpFallTimer p with Some _ => _ | None => _ end) in *.
  set (q := Player.set_jumpLandTimer _ p1).
  assert (Q1 : Player.playerState q = kicking) by (unfold q; player_red; congruence).
  assert (Q2 : PlayerSteps.landTimerSpent q)
    by (unfold q, PlayerSteps.landTimerSpent; player_red; reflexivity).
  split; [ exact Q1 | ].
  split; [ unfold q; player_red; exact F3 | ].
  split; [ unfold q; player_red; exact F8 | ].
  split; [ exact Q2 | ].
  intros Hpos Hle Hair.
  assert (Qk : Player.kickTimer q = Player.kickTimer p)
    by (unfold q; player_red; exact F5).
  assert (Qg : Player.isOnGround q = false)
    by (unfold q; player_red; congruence).
  assert (Hpos' : 0 < Player.kickTimer q) by (rewrite Qk; exact Hpos).
  assert (Hle' : Player.kickTimer q <= dt) by (rewrite Qk; exact Hle).
  destruct (updateTimers_kick_runs_out dt q Q1 Hpos' Hle') as (A & _ & C).
  split; [ now apply A | ].
  assert (Hsome : Player.jumpFallTimer q <> None \/ Player.jumpLandTimer q <> None)
    by (right; unfold q; player_red; discriminate).
  destruct (C Hsome) as (_ & CL).
  unfold PlayerSteps.landTimerSpent in *. now rewrite CL.
Qed.

Lemma updateKickTimer_not_kicking (dt : R) (p : Player.t) :
  Player.playerState p <> kicking ->
  Player.jumpFallTimer (Player.updateKickTimer dt p) = Player.jumpFallTimer p
  /\ Player.jumpLandTimer (Player.updateKickTimer dt p) = Player.jumpLandTimer p.
Proof.
  intros H. unfold Player.updateKickTimer.
  destruct (Player.kickTimer p >? 0); [ | split; reflexivity ].
  player_red. rewrite (PlayerState_eqb_neq _ _ H), andb_false_r.
  split; reflexivity.
Qed.

(** A frame of [update] leaves the land timer of a jumping player as it
    is. *)
Lemma update_jumping_landTimer (dt : R) (l r u d k : bool) (p : Player.t) :
  Player.playerState p = jumping ->
  Player.jumpLandTimer (Player.update playerConfig dt l r u d k p)
  = Player.jumpLandTimer p.
Proof.
  intros Hj.
  assert (N1 : Player.playerState p <> stunned) by (rewrite Hj; discriminate).
  pose proof (updateStunTimer_state dt p N1) as A.
  destruct (updateStunTimer_frame dt p) as (_ & _ & _ & _ & _ & AL).
  set (p1 := Player.updateStunTimer dt p) in *.
  assert (N2 : Player.playerState p1 <> sliding) by (rewrite A, Hj; discriminate).
  pose proof (updateSlideTimer_state dt p1 N2) as B.
  destruct (updateSlideTimer_frame dt p1) as (_ & _ & _ & _ & _ & BL).
  set (p2 := Player.updateSlideTimer dt p1) in *.
  assert (N3 : Player.playerState p2 <> kicking)
    by (rewrite B, A, Hj; discriminate).
  pose proof (updateKickTimer_state dt p2 N3) as C.
  destruct (updateKickTimer_not_kicking dt p2 N3) as (_ & CL).
  set (p3 := Player.updateKickTimer dt p2) in *.
  destruct (updateKickCooldown_frame dt p3) as (_ & _ & _ & _ & _ & D & _ & DL).
  set (p4 := Player.updateKickCooldown dt p3) in *.
  destruct (updateGroundStatus_frame p4) as (_ & _ & _ & _ & _ & _ & E & _ & EL).
  set (p5 := Player.updateGroundStatus p4) in *.
  assert (S5 : Player.playerState p5 = jumping) by congruence.
  assert (L5 : Player.jumpLandTimer p5 = Player.jumpLandTimer p) by congruence.
  unfold Player.update, Player.updateTimers. cbv zeta. fold p1 p2 p3 p4 p5.
  destruct (Player.isStunned p5).
  - unfold Player.handleStunnedState. player_red. exact L5.
  - rewrite S5. player_red. unfold Player.handleJumpingState.
    destruct (moveHorizontally_fields playerConfig l r p5) as (_ & _ & _ & _ & _ & _ & _ & M).
    cbv zeta in M. now rewrite M.
Qed.

Lemma clockUpdate_spent (delta : R) (p : Player.t) :
  PlayerSteps.landTimerSpent p ->
  Player.playerState (Player.clockUpdate playerConfig delta p)
  = Player.playerState p
  /\ Player.jumpLandTimer (Player.clockUpdate playerConfig delta p)
     = Player.jumpLandTimer p.
Proof.
  intros Hs. unfold Player.clockUpdate. cbv zeta.
  destruct (clockUpdate_fall_frame delta p) as (F1 & F2 & _).
  cbv zeta in F1, F2.
  set (p1 := match Player.jumpFallTimer p with Some _ => _ | None => _ end) in *.
  unfold PlayerSteps.landTimerSpent in Hs. rewrite F2.
  destruct (Player.jumpLandTimer p) as [e | ] eqn:El; [ | now split ].
  unfold TimerEvent.advance, TimerEvent.due. rewrite Hs.
  cbn [negb andb]. rewrite ?Hs. cbn [negb andb]. player_red.
  now split.
Qed.

(** X12.  A player in the jumping state whose land timer is spent stays
    in the jumping state through every sequence of [update] frames and
    clock ticks, whatever keys are down: neither takes it out of that
    state. *)
Theorem jumping_without_land_timer_is_stuck (steps : list PlayerSteps.Step) :
  forall p : Player.t,
  Player.playerState p = jumping ->
  PlayerSteps.landTimerSpent p ->
  Player.playerState (PlayerSteps.run playerConfig steps p) = jumping
  /\ PlayerSteps.landTimerSpent (PlayerSteps.run playerConfig steps p).
Proof.
  induction steps as [ | st steps IH ]; intros p Hj Hs; [ now split | ].
  cbn [PlayerSteps.run fold_left].
  change (fold_left _ steps ?x) with (PlayerSteps.run playerConfig steps x).
  destruct st as [delta | dt c]; cbn [PlayerSteps.step].
  - destruct (clockUpdate_spent delta p Hs) as (C1 & C2).
    apply IH; [ congruence | ].
    unfold PlayerSteps.landTimerSpent in *. now rewrite C2.
  - apply IH; [ now apply update_keeps_jumping | ].
    unfold PlayerSteps.landTimerSpent in *.
    now rewrite update_jumping_landTimer.
Qed.

End JumpTimers.

(** ** The kickoff reset *)

(** The reset player, field by field. *)
Lemma resetToKickoff_eq (p : Player.t) :
  Player.resetToKickoff p
  = Player.mk (Player.playerSide p) idle false 0 0 0
      (Side.eqb (Player.playerSide p) Side.left) (Player.isOnGround p) 0
      None None (Player.x p) (Player.y p) (Vector2.mk 0 0).
Proof.
  destruct p as [sd st sn t1 t2 t3 fr og cd jf jl px py v].
  unfold Player.resetToKickoff. cbv zeta. player_red.
  rewrite clearJumpTimers_eq. player_red. reflexivity.
Qed.

Lemma clockUpdate_no_timers (playerConfig : PlayerConfig) (delta : R)
  (p : Player.t) :
  Player.jumpFallTimer p = None -> Player.jumpLandTimer p = None ->
  Player.clockUpdate playerConfig delta p = p.
Proof.
  intros Hf Hl. unfold Player.clockUpdate. cbv zeta. now rewrite Hf, Hl.
Qed.

(** X13.  [Player.resetToKickoff] leaves the player idle, not stunned, at
    rest, with every countdown at zero, no jump timer and the facing of
    its side, where it stands.  It is idempotent, and a clock tick after
    it does nothing to the player: no timer of an earlier jump can fire
    into the reset state. *)
Theorem player_reset_is_clean (playerConfig : PlayerConfig) (p : Player.t) :
  let q := Player.resetToKickoff p in
  (Player.playerState q = idle
   /\ Player.isStunned q = false
   /\ Player.stunTimer q = 0 /\ Player.slideTimer q = 0
   /\ Player.kickTimer q = 0 /\ Player.kickCooldown q = 0
   /\ Player.velocity q = Vector2.mk 0 0
   /\ Player.jumpFallTimer q = None /\ Player.jumpLandTimer q = None
   /\ Player.facingRight q = Side.eqb (Player.playerSide p) Side.left
   /\ Player.x q = Player.x p /\ Player.y q = Player.y p
   /\ Player.playerSide q = Player.playerSide p)
  /\ Player.resetToKickoff q = q
  /\ (forall delta, Player.clockUpdate playerConfig delta q = q).
Proof.
  cbv zeta. rewrite !resetToKickoff_eq. player_red.
  split; [ repeat split; reflexivity | ].
  split; [ reflexivity | ].
  intros delta. now apply clockUpdate_no_timers.
Qed.

Section SceneReset.

Variable screenSize : ScreenSize.
Variable gameConfig : GameConfig.
Variable playerConfig : PlayerConfig.

(** The scene after the kickoff reset, field by field. *)
Lemma scene_resetToKickoff_eq (s : GameScene.t) :
  GameScene.resetToKickoff screenSize gameConfig s
  = GameScene.mk false (GameScene.isGamePaused s) (GameScene.player1Score s)
      (GameScene.player2Score s) (GameScene.lastManualCollisionP1 s)
      (GameScene.lastManualCollisionP2 s) (GameScene.lastGoalTime s)
      (GameScene.groundTopY s)
      (Player.resetToKickoff
         (Player.setPosition (width screenSize / 2 - 200) (GameScene.groundTopY s)
            (GameScene.player1 s)))
      (Player.resetToKickoff
         (Player.setPosition (width screenSize / 2 + 200) (GameScene.groundTopY s)
            (GameScene.player2 s)))
      (Ball.mk (width screenSize / 2) (GameScene.groundTopY s - 1 - 25)
         (Vector2.mk 0 0) 0)
      (GameScene.leftGoal s) (GameScene.rightGoal s) (GameScene.gameUI s)
      (GameScene.delayedCalls s
       ++ [(TimerEvent.delayedCall (kickoffDelay gameConfig * 1000), AfterKickoff)]).
Proof.
  destruct s. unfold GameScene.resetToKickoff. cbv zeta. scene_red.
  reflexivity.
Qed.

(** X14.  The kickoff protocol.  [resetToKickoff] makes the match
    inactive, puts the ball at rest at the centre, 26 above the ground
    line, and the players reset on the ground line 200 to the left and to
    the right of the centre; scores and goal timestamp are kept, and the
    reactivation is scheduled after the kickoff delay.  Running it twice
    gives the scene of running it once, but for a second reactivation
    being scheduled. *)
Theorem kickoff_reset (s : GameScene.t) :
  let s' := GameScene.resetToKickoff screenSize gameConfig s in
  let centerX := width screenSize / 2 in
  (GameScene.isGameActive s' = false
   /\ GameScene.ball s'
      = Ball.mk centerX (GameScene.groundTopY s - 1 - 25) (Vector2.mk 0 0) 0
   /\ Ball.isMoving (GameScene.ball s') = false
   /\ GameScene.player1 s'
      = Player.resetToKickoff
          (Player.setPosition (centerX - 200) (GameScene.groundTopY s)
             (GameScene.player1 s))
   /\ GameScene.player2 s'
      = Player.resetToKickoff
          (Player.setPosition (centerX + 200) (GameScene.groundTopY s)
             (GameScene.player2 s))
   /\ Player.x (GameScene.player1 s') + Player.x (GameScene.player2 s')
      = width screenSize
   /\ Player.y (GameScene.player1 s') = GameScene.groundTopY s
   /\ Player.y (GameScene.player2 s') = GameScene.groundTopY s
   /\ GameScene.player1Score s' = GameScene.player1Score s
   /\ GameScene.player2Score s' = GameScene.player2Score s
   /\ GameScene.lastGoalTime s' = GameScene.lastGoalTime s
   /\ GameScene.delayedCalls s'
      = GameScene.delayedCalls s
        ++ [(TimerEvent.delayedCall (kickoffDelay gameConfig * 1000), AfterKickoff)])
  /\ GameScene.set_delayedCalls []
       (GameScene.resetToKickoff screenSize gameConfig s')
     = GameScene.set_delayedCalls [] s'.
Proof.
  cbv zeta. rewrite !scene_resetToKickoff_eq. scene_red. split.
  - unfold Ball.isMoving. ball_red. rewrite length_zero.
    rewrite (proj2 (gtb_false_iff 0 20)) by lra.
    rewrite !resetToKickoff_eq. unfold Player.setPosition. player_red.
    repeat split; try reflexivity. field.
  - rewrite !resetToKickoff_eq. unfold Player.setPosition. player_red.
    reflexivity.
Qed.

Lemma kickoff_reset_facts (s : GameScene.t) :
  let s1 := GameScene.resetToKickoff screenSize gameConfig s in
  GameScene.delayedCalls s1
  = GameScene.delayedCalls s
    ++ [(TimerEvent.delayedCall (kickoffDelay gameConfig * 1000), AfterKickoff)]
  /\ (forall delta,
      Player.clockUpdate playerConfig delta (GameScene.player1 s1)
      = GameScene.player1 s1)
  /\ (forall delta,
      Player.clockUpdate playerConfig delta (GameScene.player2 s1)
      = GameScene.player2 s1).
Proof.
  cbv zeta. rewrite scene_resetToKickoff_eq. scene_red.
  split; [ reflexivity | ].
  split; intros delta; rewrite !resetToKickoff_eq;
    now apply clockUpdate_no_timers.
Qed.

(** A clock tick of a scene whose only pending delayed call is the
    reactivation after the kickoff delay, and whose players have no jump
    timer running. *)
Lemma kickoff_tick (delta d : R) (s1 : GameScene.t) :
  GameScene.delayedCalls s1 = [(TimerEvent.delayedCall d, AfterKickoff)] ->
  Player.clockUpdate playerConfig delta (GameScene.player1 s1)
  = GameScene.player1 s1 ->
  Player.clockUpdate playerConfig delta (GameScene.player2 s1)
  = GameScene.player2 s1 ->
  let s2 := GameScene.clockUpdate screenSize gameConfig playerConfig delta s1 in
  (delta < d -> GameScene.isGameActive s2 = GameScene.isGameActive s1)
  /\ (d <= delta ->
      GameScene.isGameActive s2 = true /\ GameScene.delayedCalls s2 = [])
  /\ GameScene.player1 s2 = GameScene.player1 s1
  /\ GameScene.player2 s2 = GameScene.player2 s1
  /\ GameScene.ball s2 = GameScene.ball s1
  /\ GameScene.player1Score s2 = GameScene.player1Score s1
  /\ GameScene.player2Score s2 = GameScene.player2Score s1
  /\ GameScene.gameUI s2 = GameScene.gameUI s1.
Proof.
  intros Hdc Hp1 Hp2. cbv zeta.
  rewrite (clockUpdate_one_pending screenSize gameConfig playerConfig delta _ _ s1
             Hdc eq_refl).
  cbv zeta.
  cbn [TimerEvent.delayedCall TimerEvent.elapsed TimerEvent.delay].
  rewrite Rplus_0_l, Hp1, Hp2.
  destruct (delta >=? d) eqn:E; cmp_hyps;
    cbn [GameScene.runCallback]; scene_red.
  - split; [ intros H; lra | ].
    split; [ intros _; split; reflexivity | ].
    repeat split; reflexivity.
  - split; [ intros _; reflexivity | ].
    split; [ intros H; lra | ].
    repeat split; reflexivity.
Qed.

(** X15.  The kickoff delay.  After a kickoff reset with no other
    delayed call pending, a clock tick shorter than the kickoff delay
    leaves the match inactive, and a tick that reaches the delay makes it
    active with no delayed call left; players and ball stay as the reset
    put them. *)
Theorem kickoff_delay_reactivates (delta : R) (s : GameScene.t) :
  GameScene.delayedCalls s = [] ->
  let s1 := GameScene.resetToKickoff screenSize gameConfig s in
  let s2 := GameScene.clockUpdate screenSize gameConfig playerConfig delta s1 in
  (delta < kickoffDelay gameConfig * 1000 -> GameScene.isGameActive s2 = false)
  /\ (kickoffDelay gameConfig * 1000 <= delta ->
      GameScene.isGameActive s2 = true /\ GameScene.delayedCalls s2 = [])
  /\ GameScene.player1 s2 = GameScene.player1 s1
  /\ GameScene.player2 s2 = GameScene.player2 s1
  /\ GameScene.ball s2 = GameScene.ball s1.
Proof.
  intros Hd.
  destruct (kickoff_reset_facts s) as (Hdc & Hp1 & Hp2).
  rewrite Hd in Hdc.
  destruct (kickoff_tick delta _ _ Hdc (Hp1 delta) (Hp2 delta))
    as (A & B & C & D & E & _).
  assert (Ha : GameScene.isGameActive
                 (GameScene.resetToKickoff screenSize gameConfig s) = false)
    by (rewrite scene_resetToKickoff_eq; reflexivity).
  split; [ intros H; rewrite <- Ha; exact (A H) | ].
  split; [ exact B | ].
  split; [ exact C | split; [ exact D | exact E ] ].
Qed.

End SceneReset.

(** ** GameScene: tackles and pause *)

Section TackleAndPause.

Variable fieldConfig : FieldConfig.
Variable gameConfig : GameConfig.
Variable playerConfig : PlayerConfig.
Variable ballConfig : BallConfig.



(** X17.  Pause.  Pausing and resuming an unpaused scene gives the scene
    back.  While the interface is paused, the contact handler, the
    player-collision handler, the manual check and [update] return the
    scene unchanged, so no player or ball state and no countdown of a
    player moves.  The goal handler has no pause guard: a goal trigger
    that reaches it in an active, paused match is handled as usual. *)
Theorem pause_freezes_play (s : GameScene.t) :
  (GameScene.isGamePaused s = false ->
   GameUI.isPaused (GameScene.gameUI s) = false ->
   GameScene.resumeGame (GameScene.pauseGame s) = s)
  /\ GameUI.isPaused (GameScene.gameUI (GameScene.pauseGame s)) = true
  /\ (GameUI.isPaused (GameScene.gameUI s) = true ->
      (forall who,
       GameScene.handlePlayerBallContact playerConfig ballConfig who s = s)
      /\ GameScene.handlePlayerCollision playerConfig s = s
      /\ (forall now,
          GameScene.checkManualCollisions fieldConfig gameConfig playerConfig
            ballConfig now s = s)
      /\ (forall now delta c1 c2,
          GameScene.update fieldConfig gameConfig playerConfig ballConfig now
            delta c1 c2 s = s))
  /\ (GameUI.isPaused (GameScene.gameUI s) = true ->
      GameScene.isGameActive s = true ->
      forall now p,
      GameScene.lastGoalTime s = 0 \/ 1000 <= now - GameScene.lastGoalTime s ->
      (GameScene.player1Score (GameScene.handleGoal gameConfig now p s)
       + GameScene.player2Score (GameScene.handleGoal gameConfig now p s)
       = S (GameScene.player1Score s + GameScene.player2Score s))%nat).
Proof.
  split; [ | split; [ | split ] ].
  - intros H1 H2. destruct s as [a pz s1 s2 m1 m2 lg gy q1 q2 b lgo rgo ui dc].
    destruct ui as [u1 u2 up]. cbn in H1, H2. subst.
    reflexivity.
  - reflexivity.
  - intros Hp. repeat split; intros.
    + unfold GameScene.handlePlayerBallContact. rewrite Hp. now rewrite orb_true_r.
    + unfold GameScene.handlePlayerCollision. rewrite Hp. now rewrite orb_true_r.
    + unfold GameScene.checkManualCollisions. rewrite Hp. now rewrite orb_true_r.
    + unfold GameScene.update. rewrite Hp. now rewrite orb_true_r.
  - intros _ Ha now p Hacc.
    destruct (handleGoal_accepted gameConfig now p s Ha Hacc)
      as (_ & _ & H1 & H2 & _).
    rewrite H1, H2. destruct p; lia.
Qed.

End TackleAndPause.

(** ** Scores, the scoreboard and the end of the match *)

Section ScoreboardFacts.

Variable screenSize : ScreenSize.
Variable fieldConfig : FieldConfig.
Variable gameConfig : GameConfig.
Variable playerConfig : PlayerConfig.
Variable ballConfig : BallConfig.

Lemma shown_sameMatch (s s' : GameScene.t) :
  Match.sameMatch s s' -> Scoreboard.shown s -> Scoreboard.shown s'.
Proof.
  intros (_ & H1 & H2 & _ & Hu & _) [A B]. unfold Scoreboard.shown.
  rewrite Hu, H1, H2. now split.
Qed.

Lemma handleGoal_shown (now : R) (p : PlayerId) (s : GameScene.t) :
  Scoreboard.shown s -> Scoreboard.shown (GameScene.handleGoal gameConfig now p s).
Proof.
  intros Hs. destruct (GameScene.isGameActive s) eqn:Ha;
    [ | now rewrite handleGoal_inactive ].
  destruct (Req_dec_T (GameScene.lastGoalTime s) 0) as [H0 | Hn].
  - destruct (handleGoal_accepted gameConfig now p s Ha (or_introl H0))
      as (_ & _ & _ & _ & U1 & U2 & _). now split.
  - destruct (Rlt_or_le (now - GameScene.lastGoalTime s) 1000) as [Hlt | Hge].
    + now rewrite handleGoal_debounced.
    + destruct (handleGoal_accepted gameConfig now p s Ha (or_intror Hge))
        as (_ & _ & _ & _ & U1 & U2 & _). now split.
Qed.

Lemma manualGoal_shown (crossed : bool) (now : R) (q : PlayerId)
  (s : GameScene.t) :
  Scoreboard.shown s ->
  Scoreboard.shown (GameScene.manualGoal gameConfig crossed now q s).
Proof.
  intros Hs. unfold GameScene.manualGoal.
  destruct crossed; [ | exact Hs ].
  destruct (_ >? _); [ now apply handleGoal_shown | exact Hs ].
Qed.

Lemma checkManualCollisions_shown (now : R) (s : GameScene.t) :
  Scoreboard.shown s ->
  Scoreboard.shown
    (GameScene.checkManualCollisions fieldConfig gameConfig playerConfig
       ballConfig now s).
Proof.
  intros Hs. unfold GameScene.checkManualCollisions.
  destruct (negb (GameScene.isGameActive s) || GameUI.isPaused (GameScene.gameUI s));
    [ exact Hs | ].
  cbv zeta. do 2 apply manualGoal_shown.
  eapply shown_sameMatch;
    [ apply manualContact_sameMatch; apply sameMatch_stamp2 | ].
  eapply shown_sameMatch;
    [ apply manualContact_sameMatch; apply sameMatch_stamp1 | exact Hs ].
Qed.

Lemma runDelayedCalls_scores (delta : R)
  (events : list (TimerEvent.t * SceneCallback)) :
  forall (kept : list (TimerEvent.t * SceneCallback)) (s : GameScene.t),
  let s' := GameScene.runDelayedCalls screenSize gameConfig delta events kept s in
  GameScene.player1Score s' = GameScene.player1Score s
  /\ GameScene.player2Score s' = GameScene.player2Score s
  /\ GameScene.gameUI s' = GameScene.gameUI s.
Proof.
  induction events as [ | [e cb] rest IH ]; intros kept s; cbv zeta;
    cbn [GameScene.runDelayedCalls].
  - scene_red. repeat split; reflexivity.
  - destruct (TimerEvent.due (TimerEvent.advance delta e)).
    + destruct (IH kept (GameScene.runCallback screenSize gameConfig cb s))
        as (A & B & C).
      cbv zeta in A, B, C. rewrite A, B, C.
      destruct cb; cbn [GameScene.runCallback];
        [ rewrite scene_resetToKickoff_eq | ]; scene_red;
        repeat split; reflexivity.
    + apply IH.
Qed.

Lemma clockUpdate_shown (delta : R) (s : GameScene.t) :
  Scoreboard.shown s ->
  Scoreboard.shown (GameScene.clockUpdate screenSize gameConfig playerConfig delta s).
Proof.
  intros [A B]. unfold GameScene.clockUpdate. cbv zeta.
  match goal with
  | |- Scoreboard.shown (GameScene.runDelayedCalls _ _ _ ?ev ?k ?x) =>
      destruct (runDelayedCalls_scores delta ev k x) as (P1 & P2 & P3)
  end.
  cbv zeta in P1, P2, P3. unfold Scoreboard.shown. rewrite P1, P2, P3.
  scene_red. now split.
Qed.

Lemma handle_shown (ev : GameScene.Event) (s : GameScene.t) :
  Scoreboard.shown s ->
  Scoreboard.shown
    (GameScene.handle screenSize fieldConfig gameConfig playerConfig ballConfig
       ev s).
Proof.
  intros Hs. destruct ev; cbn [GameScene.handle].
  - now apply handleGoal_shown.
  - eapply shown_sameMatch; [ apply handlePlayerBallContact_sameMatch | exact Hs ].
  - eapply shown_sameMatch; [ apply handlePlayerCollision_sameMatch | exact Hs ].
  - now apply clockUpdate_shown.
  - unfold GameScene.update.
    destruct (negb (GameScene.isGameActive s) || GameUI.isPaused (GameScene.gameUI s));
      [ exact Hs | ].
    cbv zeta. apply checkManualCollisions_shown.
    destruct Hs as [A B]. unfold Scoreboard.shown. scene_red. now split.
Qed.

Lemma winner_cases (ui0 : GameUI.t) :
  let e := GameTimer.onGameEnd ui0 in
  let p1 := GameUI.player1Score ui0 in
  let p2 := GameUI.player2Score ui0 in
  GameTimer.finalPlayer1Score e = p1
  /\ GameTimer.finalPlayer2Score e = p2
  /\ (GameTimer.winner e = 1%nat <-> (p2 < p1)%nat)
  /\ (GameTimer.winner e = 2%nat <-> (p1 < p2)%nat)
  /\ (GameTimer.winner e = 0%nat <-> p1 = p2).
Proof.
  cbv zeta. unfold GameTimer.onGameEnd. cbv zeta.
  cbn [GameTimer.finalPlayer1Score GameTimer.finalPlayer2Score GameTimer.winner].
  destruct (Nat.ltb_spec (GameUI.player2Score ui0) (GameUI.player1Score ui0));
    [ | destruct (Nat.ltb_spec (GameUI.player1Score ui0) (GameUI.player2Score ui0)) ];
    repeat split; intros; try discriminate; try reflexivity; lia.
Qed.

(** X18.  The scoreboard follows the match.  If the interface shows the
    scores of the scene, it still does after any sequence of overlaps,
    clock ticks and updates; so the payload that the interface sends at
    the end of the game carries the scene's scores, and its winner is 1
    exactly when player 1 has strictly more goals, 2 exactly when player 2
    has, and 0 exactly when the scores are equal. *)
Theorem scoreboard_follows_match (evs : list GameScene.Event) :
  forall s : GameScene.t,
  Scoreboard.shown s ->
  let s' := GameScene.run screenSize fieldConfig gameConfig playerConfig
              ballConfig evs s in
  let e := GameTimer.onGameEnd (GameScene.gameUI s') in
  Scoreboard.shown s'
  /\ GameTimer.finalPlayer1Score e = GameScene.player1Score s'
  /\ GameTimer.finalPlayer2Score e = GameScene.player2Score s'
  /\ (GameTimer.winner e = 1%nat
      <-> (GameScene.player2Score s' < GameScene.player1Score s')%nat)
  /\ (GameTimer.winner e = 2%nat
      <-> (GameScene.player1Score s' < GameScene.player2Score s')%nat)
  /\ (GameTimer.winner e = 0%nat
      <-> GameScene.player1Score s' = GameScene.player2Score s').
Proof.
  induction evs as [ | ev evs IH ]; intros s Hs; cbv zeta.
  - cbn [GameScene.run fold_left].
    destruct (winner_cases (GameScene.gameUI s)) as (A & B & C & D & E).
    cbv zeta in A, B, C, D, E. destruct Hs as [H1 H2].
    rewrite H1 in A, C, D, E. rewrite H2 in B, C, D, E.
    exact (conj (conj H1 H2) (conj A (conj B (conj C (conj D E))))).
  - cbn [GameScene.run fold_left].
    exact (IH _ (handle_shown ev s Hs)).
Qed.

End ScoreboardFacts.

Lemma scoreboard_follows_match_witness :
  Scoreboard.shown Sample.scene
  /\ GameTimer.winner
       (GameTimer.onGameEnd
          (GameScene.gameUI
             (GameScene.run Sample.screenSize Sample.fieldConfig
                Sample.gameConfig Sample.playerConfig Sample.ballConfig
                [GameScene.GoalZoneOverlap 5000 P1] Sample.scene)))
     = 1%nat.
Proof.
  assert (Hs : Scoreboard.shown Sample.scene) by (split; reflexivity).
  split; [ exact Hs | ].
  destruct (scoreboard_follows_match Sample.screenSize Sample.fieldConfig
              Sample.gameConfig Sample.playerConfig Sample.ballConfig
              [GameScene.GoalZoneOverlap 5000 P1] Sample.scene Hs)
    as (_ & _ & _ & H1 & _).
  apply H1. cbn [GameScene.run fold_left GameScene.handle].
  destruct (handleGoal_accepted Sample.gameConfig 5000 P1 Sample.scene eq_refl
              (or_introl eq_refl)) as (_ & _ & S1 & S2 & _).
  rewrite S1, S2. cbn. lia.
Defined.

(** ** The game timer *)

Lemma fire_destroyed (c : GameTimer.t) :
  GameTimer.destroyed c = true -> GameTimer.fire c = (c, None).
Proof. intros H. unfold GameTimer.fire. now rewrite H. Qed.

Lemma fireTimes_destroyed (n : nat) :
  forall c : GameTimer.t,
  GameTimer.destroyed c = true -> GameTimer.fireTimes n c = (c, []).
Proof.
  induction n as [ | n IH ]; intros c H; [ reflexivity | ].
  cbn [GameTimer.fireTimes]. rewrite (fire_destroyed c H), (IH c H). reflexivity.
Qed.

Lemma fireTimes_counts (n : nat) :
  forall c : GameTimer.t,
  GameTimer.destroyed c = false ->
  GameUI.isPaused (GameTimer.ui c) = false ->
  GameTimer.repeatCount c = GameTimer.gameTime c ->
  (1 <= GameTimer.gameTime c)%Z ->
  snd (GameTimer.fireTimes n c)
  = if (Z.of_nat n <? GameTimer.gameTime c)%Z
    then []
    else [GameTimer.onGameEnd (GameTimer.ui c)].
Proof.
  induction n as [ | n IH ]; intros c Hd Hp Hr Hg.
  - cbn [GameTimer.fireTimes snd].
    now rewrite (proj2 (Z.ltb_lt (Z.of_nat 0) _)) by lia.
  - cbn [GameTimer.fireTimes]. unfold GameTimer.fire.
    rewrite Hd, Hp. cbn [orb]. unfold GameTimer.updateTimer. cbv zeta.
    cbn [GameTimer.ui GameTimer.gameTime GameTimer.repeatCount GameTimer.destroyed].
    destruct (Z.leb_spec (GameTimer.gameTime c - 1) 0) as [Hz | Hz];
      cbn [GameTimer.ui GameTimer.gameTime GameTimer.repeatCount
           GameTimer.destroyed].
    + assert (Hone : GameTimer.gameTime c = 1%Z) by lia.
      rewrite Hr, Hone. cbn [Z.gtb Z.compare Pos.compare Pos.compare_cont].
      rewrite fireTimes_destroyed by reflexivity. cbn [snd].
      now rewrite (proj2 (Z.ltb_ge (Z.of_nat (S n)) 1)) by lia.
    + rewrite Hr.
      rewrite (proj2 (Z.gtb_gt (GameTimer.gameTime c) 0)) by lia.
      set (c' := GameTimer.mk _ _ _ _).
      specialize (IH c').
      destruct (GameTimer.fireTimes n c') as [c2 sig] eqn:E. cbn [snd] in *.
      rewrite IH; unfold c';
        cbn [GameTimer.ui GameTimer.gameTime GameTimer.repeatCount
             GameTimer.destroyed]; try reflexivity; try assumption; try lia.
      destruct (Z.ltb_spec (Z.of_nat n) (GameTimer.gameTime c - 1));
        destruct (Z.ltb_spec (Z.of_nat (S n)) (GameTimer.gameTime c));
        try reflexivity; lia.
Qed.

(** X19.  The match clock.  For a game time of [T >= 1] seconds and an
    interface that is not paused, the timer started by [startGameTimer]
    signals the end of the game at its [T]-th period and at no other: the
    first [n] periods give no signal when [n < T] and exactly one, with
    the winner of the scores shown, when [n >= T].  A paused interface
    lets no period count. *)
Theorem game_ends_after_game_time (ui0 : GameUI.t) (T : Z) (n : nat) :
  (1 <= T)%Z ->
  (GameUI.isPaused ui0 = false ->
   snd (GameTimer.fireTimes n (GameTimer.startGameTimer ui0 T))
   = if (Z.of_nat n <? T)%Z then [] else [GameTimer.onGameEnd ui0])
  /\ (GameUI.isPaused ui0 = true ->
      GameTimer.fireTimes n (GameTimer.startGameTimer ui0 T)
      = (GameTimer.startGameTimer ui0 T, [])).
Proof.
  intros HT. split.
  - intros Hp. now apply fireTimes_counts.
  - intros Hp. induction n as [ | n IH ]; [ reflexivity | ].
    cbn [GameTimer.fireTimes]. unfold GameTimer.fire at 1.
    cbn [GameTimer.startGameTimer GameTimer.destroyed GameTimer.ui].
    rewrite Hp. cbn [orb].
    change (GameTimer.mk ui0 T T false) with (GameTimer.startGameTimer ui0 T).
    now rewrite IH.
Qed.

Lemma game_ends_after_game_time_witness :
  (1 <= 90)%Z
  /\ snd (GameTimer.fireTimes 90 (GameTimer.startGameTimer (GameUI.mk 3 1 false) 90))
     = [GameTimer.onGameEnd (GameUI.mk 3 1 false)].
Proof.
  split; [ lia | ].
  exact (proj1 (game_ends_after_game_time (GameUI.mk 3 1 false) 90 90
                  ltac:(lia)) eq_refl).
Defined.

(** ** AIController: the controls that [update] hands to the player *)

Ltac controls_red :=
  cbn [c_left c_right c_jump c_slide c_kick
       AIActions.set_left AIActions.set_right AIActions.set_jump
       AIActions.set_slide AIActions.set_kick AIActions.noControls
       AIActions.set_jumpTimer AIActions.set_kickTimer
       AIController.reactionTime AIController.lastDecisionTime
       AIController.currentAction AIController.actionTimer
       AIController.jumpTimer AIController.kickTimer
       AIController.moveAccuracy AIController.reactionSpeed
       AIController.aggressiveness AIController.kickAccuracy
       AIController.decide AIController.set_lastDecisionTime
       fst snd] in *.

Lemma moveToward_keys (px tx tol : R) (c : Controls) :
  let c' := AIActions.moveToward px tx tol c in
  c_jump c' = c_jump c /\ c_slide c' = c_slide c /\ c_kick c' = c_kick c.
Proof.
  cbv zeta. unfold AIActions.moveToward.
  destruct (_ >? _); [ destruct (_ <? _) | ]; controls_red;
    repeat split; reflexivity.
Qed.

(** From released direction keys the movement block presses at most one,
    and none within the tolerance. *)
Lemma moveToward_one_key (px tx tol : R) (c : Controls) :
  c_left c = false -> c_right c = false ->
  let c' := AIActions.moveToward px tx tol c in
  (c_left c' = true <-> tol < Rabs (px - tx) /\ tx <= px)
  /\ (c_right c' = true <-> tol < Rabs (px - tx) /\ px < tx).
Proof.
  intros Hl Hr. cbv zeta. unfold AIActions.moveToward.
  destruct (Rabs (px - tx) >? tol) eqn:Ht.
  - apply gtb_true_iff in Ht.
    destruct (px <? tx) eqn:Hx; controls_red; rewrite ?Hl, ?Hr.
    + apply ltb_true_iff in Hx. split; split; try tauto; try discriminate.
      intros [_ H]. lra.
    + apply ltb_false_iff in Hx. split; split; try tauto; try discriminate.
      intros [_ H]. lra.
  - apply gtb_false_iff in Ht. rewrite Hl, Hr.
    split; split; try discriminate; intros [H _]; lra.
Qed.

Lemma wantJump_keys (wanted : bool) (rearm : R) (c : Controls)
  (ai : AIController.t) :
  let st := AIActions.wantJump wanted rearm (c, ai) in
  c_left (fst st) = c_left c /\ c_right (fst st) = c_right c
  /\ c_slide (fst st) = c_slide c /\ c_kick (fst st) = c_kick c
  /\ AIController.kickTimer (snd st) = AIController.kickTimer ai
  /\ AIController.currentAction (snd st) = AIController.currentAction ai
  /\ AIController.aggressiveness (snd st) = AIController.aggressiveness ai.
Proof.
  cbv zeta. unfold AIActions.wantJump.
  destruct (wanted && _); controls_red; repeat split; reflexivity.
Qed.

(** A jump that the jump block asks for re-arms the jump timer. *)
Lemma wantJump_guard (wanted : bool) (rearm : R) (c : Controls)
  (ai : AIController.t) :
  0 < rearm -> c_jump c = false ->
  let st := AIActions.wantJump wanted rearm (c, ai) in
  c_jump (fst st) = true -> 0 < AIController.jumpTimer (snd st).
Proof.
  intros Hr Hc. cbv zeta. unfold AIActions.wantJump.
  destruct (wanted && _); controls_red; [ now intros _ | ].
  rewrite Hc. discriminate.
Qed.

Lemma wantKick_keys (wanted : bool) (rearm : R) (st : Controls * AIController.t) :
  let st' := AIActions.wantKick wanted rearm st in
  c_left (fst st') = c_left (fst st) /\ c_right (fst st') = c_right (fst st)
  /\ c_jump (fst st') = c_jump (fst st) /\ c_slide (fst st') = c_slide (fst st)
  /\ AIController.jumpTimer (snd st') = AIController.jumpTimer (snd st)
  /\ AIController.currentAction (snd st') = AIController.currentAction (snd st)
  /\ AIController.aggressiveness (snd st') = AIController.aggressiveness (snd st).
Proof.
  cbv zeta. unfold AIActions.wantKick. destruct st as [c ai].
  destruct (wanted && _); controls_red; repeat split; reflexivity.
Qed.

(** What the kick block does, from a released kick key. *)
Lemma wantKick_effect (wanted : bool) (rearm : R) (st : Controls * AIController.t) :
  c_kick (fst st) = false ->
  let st' := AIActions.wantKick wanted rearm st in
  (c_kick (fst st') = true ->
   wanted = true /\ AIController.kickTimer (snd st) <= 0
   /\ AIController.kickTimer (snd st') = rearm)
  /\ (c_kick (fst st') = false ->
      AIController.kickTimer (snd st') = AIController.kickTimer (snd st)).
Proof.
  intros Hc. cbv zeta. unfold AIActions.wantKick. destruct st as [c ai].
  controls_red.
  destruct wanted; cbn [andb];
    [ destruct (_ <=? _) eqn:Hk | ]; controls_red; rewrite ?Hc.
  - apply leb_true_iff in Hk. split; [ now intros _ | discriminate ].
  - split; [ discriminate | reflexivity ].
  - split; [ discriminate | reflexivity ].
Qed.

(** The invariant of the behaviours: a pressed jump key comes with a
    running jump timer. *)
Lemma executeAction_jump_guard (cameraWidth random : R) (player : Player.t)
  (ball : Ball.t) (opponent : Player.t) (ai : AIController.t) :
  let st := AIActions.executeAction cameraWidth random player ball opponent ai in
  c_jump (fst st) = true -> 0 < AIController.jumpTimer (snd st).
Proof.
  cbv zeta. unfold AIActions.executeAction. cbv zeta.
  destruct (AIController.currentAction ai).
  - (* idle *)
    unfold AIActions.idleAI. cbv zeta.
    match goal with
    | |- context [AIActions.moveToward ?a ?b ?c ?d] =>
        destruct (moveToward_keys a b c d) as (J & _);
        set (m := AIActions.moveToward a b c d) in *
    end.
    cbv zeta in J.
    destruct (_ && _); [ destruct (_ <? _) | ]; controls_red;
      rewrite J; controls_red; discriminate.
  - (* chase *)
    unfold AIActions.chaseAI. cbv zeta.
    match goal with
    | |- context [AIActions.wantKick ?w ?r ?st] =>
        destruct (wantKick_keys w r st) as (_ & _ & J & _ & T & _);
        cbv zeta in J, T; rewrite J, T
    end.
    apply wantJump_guard; [ lra | ].
    match goal with
    | |- context [AIActions.moveToward ?a ?b ?c ?d] =>
        destruct (moveToward_keys a b c d) as (J' & _)
    end.
    cbv zeta in J'. now rewrite J'.
  - (* defend *)
    unfold AIActions.defendAI. cbv zeta.
    match goal with
    | |- context [AIActions.wantKick ?w ?r ?st] =>
        destruct (wantKick_keys w r st) as (_ & _ & J & _ & T & _);
        cbv zeta in J, T; rewrite J, T
    end.
    apply wantJump_guard; [ lra | ].
    match goal with
    | |- context [AIActions.moveToward ?a ?b ?c ?d] =>
        destruct (moveToward_keys a b c d) as (J' & _)
    end.
    cbv zeta in J'. now rewrite J'.
  - (* attack *)
    unfold AIActions.attackAI. cbv zeta.
    match goal with
    | |- context [AIActions.wantKick ?w ?r ?st] =>
        destruct (wantKick_keys w r st) as (_ & _ & J & _ & T & _);
        cbv zeta in J, T;
        destruct (AIActions.wantKick w r st) as [c2 ai2] eqn:E
    end.
    cbn [fst snd] in J, T.
    assert (G : c_jump c2 = true -> 0 < AIController.jumpTimer ai2).
    { rewrite J, T. apply wantJump_guard; [ lra | ].
      match goal with
      | |- context [AIActions.moveToward ?a ?b ?c ?d] =>
          destruct (moveToward_keys a b c d) as (J' & _)
      end.
      cbv zeta in J'. now rewrite J'. }
    destruct (_ && _); controls_red; exact G.
Qed.

Lemma limitActions_keys (player : Player.t) (ai : AIController.t)
  (c : Controls) :
  let c' := AIActions.limitActions player ai c in
  c_left c' = c_left c /\ c_right c' = c_right c
  /\ c_jump c' = c_jump c && negb (AIController.jumpTimer ai >? 0)
  /\ c_slide c' = c_slide c && negb (Player.isSliding player)
  /\ c_kick c' = c_kick c && negb (Player.isKicking player).
Proof.
  cbv zeta. unfold AIActions.limitActions. cbv zeta.
  destruct c as [l r j s k]. controls_red.
  destruct j, s, k, (AIController.jumpTimer ai >? 0),
    (Player.isSliding player), (Player.isKicking player);
    cbn [andb negb]; controls_red; repeat split; reflexivity.
Qed.

(** X20.  The computer player never jumps.  Each behaviour that presses
    the jump key also re-arms the jump timer (to 800 or 1000), and
    [update] then releases the key because the jump timer is running; so
    the jump key that [update] hands to the player is released in every
    frame, whatever the controller, the ball and the players are. *)
Theorem ai_never_jumps (deltaTime now cameraWidth random1 random2 : R)
  (player : Player.t) (ball : Ball.t) (opponent : Player.t)
  (ai : AIController.t) :
  c_jump
    (fst (AIActions.synthesize deltaTime now cameraWidth random1 random2
            player ball opponent ai))
  = false.
Proof.
  unfold AIActions.synthesize. cbv zeta.
  set (ai1 := AIController.updateDecision _ _ _ _ _ _ _).
  pose proof (executeAction_jump_guard cameraWidth random2 player ball
                opponent ai1) as G.
  cbv zeta in G.
  destruct (AIActions.executeAction cameraWidth random2 player ball opponent ai1)
    as [c ai2].
  cbn [fst snd] in *.
  destruct (limitActions_keys player ai2 c) as (_ & _ & J & _).
  cbv zeta in J. rewrite J.
  destruct (c_jump c); [ | reflexivity ].
  specialize (G eq_refl).
  now rewrite (proj2 (gtb_true_iff _ _) G).
Qed.

(** The direction keys of the three behaviours that follow the ball. *)
Lemma executeAction_direction (cameraWidth random : R) (player : Player.t)
  (ball : Ball.t) (opponent : Player.t) (ai : AIController.t) :
  AIController.currentAction ai <> Action.idle ->
  let c := fst (AIActions.executeAction cameraWidth random player ball opponent ai) in
  c_left c && c_right c = false.
Proof.
  intros Hn. cbv zeta. unfold AIActions.executeAction. cbv zeta.
  destruct (AIController.currentAction ai); [ congruence | | | ].
  - unfold AIActions.chaseAI. cbv zeta.
    match goal with
    | |- context [AIActions.wantKick ?w ?r ?st] =>
        destruct (wantKick_keys w r st) as (L & R' & _);
        cbv zeta in L, R'; rewrite L, R'
    end.
    match goal with
    | |- context [AIActions.wantJump ?w ?r (?c, ?a)] =>
        destruct (wantJump_keys w r c a) as (L2 & R2 & _);
        cbv zeta in L2, R2; rewrite L2, R2
    end.
    match goal with
    | |- context [AIActions.moveToward ?a ?b ?c ?d] =>
        destruct (moveToward_one_key a b c d eq_refl eq_refl) as (ML & MR);
        cbv zeta in ML, MR;
        destruct (c_left (AIActions.moveToward a b c d)),
          (c_right (AIActions.moveToward a b c d))
    end; try reflexivity.
    destruct (proj1 ML eq_refl), (proj1 MR eq_refl). lra.
  - unfold AIActions.defendAI. cbv zeta.
    match goal with
    | |- context [AIActions.wantKick ?w ?r ?st] =>
        destruct (wantKick_keys w r st) as (L & R' & _);
        cbv zeta in L, R'; rewrite L, R'
    end.
    match goal with
    | |- context [AIActions.wantJump ?w ?r (?c, ?a)] =>
        destruct (wantJump_keys w r c a) as (L2 & R2 & _);
        cbv zeta in L2, R2; rewrite L2, R2
    end.
    match goal with
    | |- context [AIActions.moveToward ?a ?b ?c ?d] =>
        destruct (moveToward_one_key a b c d eq_refl eq_refl) as (ML & MR);
        cbv zeta in ML, MR;
        destruct (c_left (AIActions.moveToward a b c d)),
          (c_right (AIActions.moveToward a b c d))
    end; try reflexivity.
    destruct (proj1 ML eq_refl), (proj1 MR eq_refl). lra.
  - unfold AIActions.attackAI. cbv zeta.
    match goal with
    | |- context [AIActions.wantKick ?w ?r ?st] =>
        destruct (wantKick_keys w r st) as (L & R' & _);
        cbv zeta in L, R';
        destruct (AIActions.wantKick w r st) as [c2 ai2]
    end.
    cbn [fst snd] in L, R'.
    assert (E : c_left c2 && c_right c2 = false).
    { rewrite L, R'.
      match goal with
      | |- context [AIActions.wantJump ?w ?r (?c, ?a)] =>
          destruct (wantJump_keys w r c a) as (L2 & R2 & _);
          cbv zeta in L2, R2; rewrite L2, R2
      end.
      match goal with
      | |- context [AIActions.moveToward ?a ?b ?c ?d] =>
          destruct (moveToward_one_key a b c d eq_refl eq_refl) as (ML & MR);
          cbv zeta in ML, MR;
          destruct (c_left (AIActions.moveToward a b c d)),
            (c_right (AIActions.moveToward a b c d))
      end; try reflexivity.
      destruct (proj1 ML eq_refl), (proj1 MR eq_refl). lra. }
    destruct (_ && _ && _); controls_red; exact E.
Qed.

(** X21.  The direction keys of the computer player.  While chasing,
    attacking or defending it never holds left and right together.
    While idle it holds both exactly when it is more than 50 from its
    strategic position, the ball is closer than 200, the random draw is
    below 0.3, and the ball and the strategic position call for opposite
    directions; [moveHorizontally] then stops the player. *)
Theorem ai_direction_keys (cameraWidth random : R) (player : Player.t)
  (ball : Ball.t) (opponent : Player.t) (ai : AIController.t)
  (playerConfig : PlayerConfig) :
  let c := fst (AIActions.executeAction cameraWidth random player ball opponent ai) in
  let strategicX :=
    if Side.eqb (Player.getPlayerSide player) Side.right
    then cameraWidth * 0.5 + 150 else cameraWidth * 0.5 - 150 in
  let px := Player.x player in
  (AIController.currentAction ai <> Action.idle -> c_left c && c_right c = false)
  /\ (AIController.currentAction ai = Action.idle ->
      (c_left c && c_right c = true
       <-> 50 < Rabs (px - strategicX)
           /\ Distance.Between px (Player.y player) (Ball.x ball) (Ball.y ball) < 200
           /\ random < 0.3
           /\ ((px < strategicX /\ Ball.x ball <= px)
               \/ (strategicX <= px /\ px < Ball.x ball))))
  /\ (forall p : Player.t,
        Player.moveHorizontally playerConfig true true p = Player.setVelocityX 0 p).
Proof.
  cbv zeta. split; [ | split ].
  - apply executeAction_direction.
  - intros Hi. unfold AIActions.executeAction. cbv zeta. rewrite Hi.
    unfold AIActions.idleAI. cbv zeta.
    match goal with
    | |- context [AIActions.moveToward ?a ?b ?c ?d] =>
        destruct (moveToward_one_key a b c d eq_refl eq_refl) as (ML & MR);
        cbv zeta in ML, MR;
        set (m := AIActions.moveToward a b c d) in *
    end.
    set (sx := if Side.eqb (Player.getPlayerSide player) Side.right
               then cameraWidth * 0.5 + 150 else cameraWidth * 0.5 - 150) in *.
    set (d := Distance.Between _ _ _ _).
    assert (Hx : c_left m && c_right m = false).
    { destruct (c_left m), (c_right m); try reflexivity.
      destruct (proj1 ML eq_refl), (proj1 MR eq_refl). lra. }
    destruct (d <? 200) eqn:Hd; cbn [andb].
    + apply ltb_true_iff in Hd.
      destruct (random <? 0.3) eqn:Hr.
      * apply ltb_true_iff in Hr.
        destruct (Player.x player <? Ball.x ball) eqn:Hb; controls_red.
        -- apply ltb_true_iff in Hb. rewrite andb_true_r. rewrite ML.
           split.
           ++ intros [A B]. repeat split; try assumption. right. lra.
           ++ intros (A & _ & _ & [[B C] | [B C]]); [ lra | now split ].
        -- apply ltb_false_iff in Hb. cbn [andb]. rewrite MR.
           split.
           ++ intros [A B]. repeat split; try assumption. left. lra.
           ++ intros (A & _ & _ & [[B C] | [B C]]); [ now split | lra ].
      * apply ltb_false_iff in Hr. cbn [fst]. rewrite Hx.
        split; [ discriminate | intros (_ & _ & H & _); lra ].
    + apply ltb_false_iff in Hd. cbn [fst]. rewrite Hx.
      split; [ discriminate | intros (_ & H & _); lra ].
  - intros p. unfold Player.moveHorizontally. reflexivity.
Qed.

(** ** AIController: when the computer player kicks and slides *)

Lemma updateDecision_fields (deltaTime now : R) (player : Player.t)
  (ball : Ball.t) (cameraWidth random : R) (ai : AIController.t) :
  let ai1 :=
    AIController.updateDecision deltaTime now player ball cameraWidth random ai in
  AIController.kickTimer ai1 = AIController.kickTimer ai - deltaTime
  /\ AIController.jumpTimer ai1 = AIController.jumpTimer ai - deltaTime
  /\ AIController.aggressiveness ai1 = AIController.aggressiveness ai
  /\ AIController.reactionTime ai1 = AIController.reactionTime ai
  /\ AIController.reactionSpeed ai1 = AIController.reactionSpeed ai.
Proof.
  cbv zeta. unfold AIController.updateDecision. cbv zeta.
  destruct (_ >? _); [ | controls_red; repeat split; reflexivity ].
  unfold AIController.makeDecision. cbv zeta.
  destruct (_ && _); [ | destruct (_ && _); [ | destruct (_ && _) ] ];
    controls_red; repeat split; reflexivity.
Qed.

Lemma wantKick_iff (wanted : bool) (rearm : R) (st : Controls * AIController.t) :
  c_kick (fst st) = false ->
  let st' := AIActions.wantKick wanted rearm st in
  (c_kick (fst st') = true
   <-> wanted = true /\ AIController.kickTimer (snd st) <= 0)
  /\ (c_kick (fst st') = true -> AIController.kickTimer (snd st') = rearm)
  /\ (c_kick (fst st') = false ->
      AIController.kickTimer (snd st') = AIController.kickTimer (snd st)).
Proof.
  intros Hc. cbv zeta. unfold AIActions.wantKick. destruct st as [c ai].
  controls_red.
  destruct wanted; cbn [andb];
    [ destruct (_ <=? _) eqn:Hk | ]; controls_red; rewrite ?Hc.
  - apply leb_true_iff in Hk. repeat split; try reflexivity; try discriminate.
    exact Hk.
  - apply leb_false_iff in Hk.
    split; [ split; [ discriminate | intros [_ H]; lra ] | ].
    split; [ discriminate | reflexivity ].
  - split; [ split; [ discriminate | intros [H _]; discriminate ] | ].
    split; [ discriminate | reflexivity ].
Qed.

(** How far the computer player kicks from, and the time for which a
    kick re-arms the kick timer, by behaviour. *)
Lemma executeAction_kick (cameraWidth random : R) (player : Player.t)
  (ball : Ball.t) (opponent : Player.t) (ai : AIController.t) :
  let st := AIActions.executeAction cameraWidth random player ball opponent ai in
  let dist :=
    Distance.Between (Player.x player) (Player.y player) (Ball.x ball)
      (Ball.y ball) in
  let reach :=
    match AIController.currentAction ai with
    | Action.chase => 60 | Action.attack => 70 | Action.defend => 80
    | Action.idle => 0
    end in
  let rearm :=
    match AIController.currentAction ai with
    | Action.chase => 800 | Action.attack => 600 | Action.defend => 700
    | Action.idle => 0
    end in
  (c_kick (fst st) = true
   <-> AIController.currentAction ai <> Action.idle
       /\ dist < reach /\ AIController.kickTimer ai <= 0)
  /\ (c_kick (fst st) = true -> AIController.kickTimer (snd st) = rearm)
  /\ (c_kick (fst st) = false ->
      AIController.kickTimer (snd st) = AIController.kickTimer ai).
Proof.
  cbv zeta. unfold AIActions.executeAction. cbv zeta.
  destruct (AIController.currentAction ai).
  - (* idle *)
    unfold AIActions.idleAI. cbv zeta.
    match goal with
    | |- context [AIActions.moveToward ?a ?b ?c ?d] =>
        destruct (moveToward_keys a b c d) as (_ & _ & K);
        set (m := AIActions.moveToward a b c d) in *
    end.
    cbv zeta in K. change (c_kick AIActions.noControls) with false in K.
    destruct (_ && _); [ destruct (_ <? _) | ]; controls_red; rewrite K;
      (split; [ split; [ discriminate | intros [H _]; congruence ] | ];
       split; [ discriminate | reflexivity ]).
  - (* chase *)
    unfold AIActions.chaseAI. cbv zeta.
    match goal with
    | |- context [AIActions.wantKick ?w ?r ?st] =>
        assert (K0 : c_kick (fst st) = false);
        [ | destruct (wantKick_iff w r st K0) as (A & B & C);
            cbv zeta in A, B, C ]
    end.
    { match goal with
      | |- context [AIActions.wantJump ?w ?r (?c, ?a)] =>
          destruct (wantJump_keys w r c a) as (_ & _ & _ & K & _);
          cbv zeta in K; rewrite K
      end.
      match goal with
      | |- context [AIActions.moveToward ?a ?b ?c ?d] =>
          destruct (moveToward_keys a b c d) as (_ & _ & K');
          cbv zeta in K'; now rewrite K'
      end. }
    match type of C with
    | _ -> _ = AIController.kickTimer (snd (AIActions.wantJump ?w ?r (?c, ?a))) =>
        destruct (wantJump_keys w r c a) as (_ & _ & _ & _ & T & _);
        cbv zeta in T; rewrite T in A, C
    end.
    split; [ | split; assumption ].
    rewrite A. rewrite ltb_true_iff.
    split; [ intros [H1 H2]; repeat split; [ discriminate | | ]; assumption
           | intros (_ & H1 & H2); now split ].
  - (* defend *)
    unfold AIActions.defendAI. cbv zeta.
    match goal with
    | |- context [AIActions.wantKick ?w ?r ?st] =>
        assert (K0 : c_kick (fst st) = false);
        [ | destruct (wantKick_iff w r st K0) as (A & B & C);
            cbv zeta in A, B, C ]
    end.
    { match goal with
      | |- context [AIActions.wantJump ?w ?r (?c, ?a)] =>
          destruct (wantJump_keys w r c a) as (_ & _ & _ & K & _);
          cbv zeta in K; rewrite K
      end.
      match goal with
      | |- context [AIActions.moveToward ?a ?b ?c ?d] =>
          destruct (moveToward_keys a b c d) as (_ & _ & K');
          cbv zeta in K'; now rewrite K'
      end. }
    match type of C with
    | _ -> _ = AIController.kickTimer (snd (AIActions.wantJump ?w ?r (?c, ?a))) =>
        destruct (wantJump_keys w r c a) as (_ & _ & _ & _ & T & _);
        cbv zeta in T; rewrite T in A, C
    end.
    split; [ | split; assumption ].
    rewrite A. rewrite ltb_true_iff.
    split; [ intros [H1 H2]; repeat split; [ discriminate | | ]; assumption
           | intros (_ & H1 & H2); now split ].
  - (* attack *)
    unfold AIActions.attackAI. cbv zeta.
    match goal with
    | |- context [AIActions.wantKick ?w ?r ?st] =>
        assert (K0 : c_kick (fst st) = false);
        [ | destruct (wantKick_iff w r st K0) as (A & B & C);
            cbv zeta in A, B, C;
            destruct (AIActions.wantKick w r st) as [c2 ai2] ]
    end.
    { match goal with
      | |- context [AIActions.wantJump ?w ?r (?c, ?a)] =>
          destruct (wantJump_keys w r c a) as (_ & _ & _ & K & _);
          cbv zeta in K; rewrite K
      end.
      match goal with
      | |- context [AIActions.moveToward ?a ?b ?c ?d] =>
          destruct (moveToward_keys a b c d) as (_ & _ & K');
          cbv zeta in K'; now rewrite K'
      end. }
    match type of C with
    | _ -> _ = AIController.kickTimer (snd (AIActions.wantJump ?w ?r (?c, ?a))) =>
        destruct (wantJump_keys w r c a) as (_ & _ & _ & _ & T & _);
        cbv zeta in T; rewrite T in A, C
    end.
    cbn [fst snd] in A, B, C.
    assert (G : (c_kick c2 = true
                 <-> Action.attack <> Action.idle
                     /\ Distance.Between (Player.x player) (Player.y player)
                          (Ball.x ball) (Ball.y ball) < 70
                     /\ AIController.kickTimer ai <= 0)).
    { rewrite A. rewrite ltb_true_iff.
      split; [ intros [H1 H2]; repeat split; [ discriminate | | ]; assumption
             | intros (_ & H1 & H2); now split ]. }
    destruct (_ && _ && _); controls_red; (split; [ exact G | split; assumption ]).
Qed.

(** The slide key is pressed by the attack behaviour only. *)
Lemma executeAction_slide (cameraWidth random : R) (player : Player.t)
  (ball : Ball.t) (opponent : Player.t) (ai : AIController.t) :
  let st := AIActions.executeAction cameraWidth random player ball opponent ai in
  c_slide (fst st) = true
  <-> AIController.currentAction ai = Action.attack
      /\ Distance.Between (Player.x opponent) (Player.y opponent) (Ball.x ball)
           (Ball.y ball) < 80
      /\ Distance.Between (Player.x player) (Player.y player) (Player.x opponent)
           (Player.y opponent) < 100
      /\ random < AIController.aggressiveness ai.
Proof.
  cbv zeta. unfold AIActions.executeAction. cbv zeta.
  destruct (AIController.currentAction ai).
  - unfold AIActions.idleAI. cbv zeta.
    match goal with
    | |- context [AIActions.moveToward ?a ?b ?c ?d] =>
        destruct (moveToward_keys a b c d) as (_ & K & _);
        set (m := AIActions.moveToward a b c d) in *
    end.
    cbv zeta in K. change (c_slide AIActions.noControls) with false in K.
    destruct (_ && _); [ destruct (_ <? _) | ]; controls_red; rewrite K;
      (split; [ discriminate | intros [H _]; discriminate ]).
  - unfold AIActions.chaseAI. cbv zeta.
    match goal with
    | |- context [AIActions.wantKick ?w ?r ?st] =>
        destruct (wantKick_keys w r st) as (_ & _ & _ & K & _);
        cbv zeta in K; rewrite K
    end.
    match goal with
    | |- context [AIActions.wantJump ?w ?r (?c, ?a)] =>
        destruct (wantJump_keys w r c a) as (_ & _ & K2 & _);
        cbv zeta in K2; rewrite K2
    end.
    match goal with
    | |- context [AIActions.moveToward ?a ?b ?c ?d] =>
        destruct (moveToward_keys a b c d) as (_ & K' & _);
        cbv zeta in K'; rewrite K'
    end.
    split; [ discriminate | intros [H _]; discriminate ].
  - unfold AIActions.defendAI. cbv zeta.
    match goal with
    | |- context [AIActions.wantKick ?w ?r ?st] =>
        destruct (wantKick_keys w r st) as (_ & _ & _ & K & _);
        cbv zeta in K; rewrite K
    end.
    match goal with
    | |- context [AIActions.wantJump ?w ?r (?c, ?a)] =>
        destruct (wantJump_keys w r c a) as (_ & _ & K2 & _);
        cbv zeta in K2; rewrite K2
    end.
    match goal with
    | |- context [AIActions.moveToward ?a ?b ?c ?d] =>
        destruct (moveToward_keys a b c d) as (_ & K' & _);
        cbv zeta in K'; rewrite K'
    end.
    split; [ discriminate | intros [H _]; discriminate ].
  - unfold AIActions.attackAI. cbv zeta.
    match goal with
    | |- context [AIActions.wantKick ?w ?r ?st] =>
        destruct (wantKick_keys w r st) as (_ & _ & _ & K & _ & _ & G);
        cbv zeta in K, G;
        assert (K0 : c_slide (fst st) = false);
        [ | assert (G0 : AIController.aggressiveness (snd st)
                         = AIController.aggressiveness ai);
            [ | rewrite K0 in K; rewrite G0 in G;
                destruct (AIActions.wantKick w r st) as [c2 ai2] ] ]
    end.
    { match goal with
      | |- context [AIActions.wantJump ?w ?r (?c, ?a)] =>
          destruct (wantJump_keys w r c a) as (_ & _ & K2 & _);
          cbv zeta in K2; rewrite K2
      end.
      match goal with
      | |- context [AIActions.moveToward ?a ?b ?c ?d] =>
          destruct (moveToward_keys a b c d) as (_ & K' & _);
          cbv zeta in K'; now rewrite K'
      end. }
    { match goal with
      | |- context [AIActions.wantJump ?w ?r (?c, ?a)] =>
          destruct (wantJump_keys w r c a) as (_ & _ & _ & _ & _ & _ & G2);
          cbv zeta in G2; exact G2
      end. }
    cbn [fst snd] in K, G. rewrite G.
    destruct (_ <? 80) eqn:H1; cbn [andb];
      [ destruct (_ <? 100) eqn:H2; cbn [andb];
        [ destruct (_ >? random) eqn:H3 | ] | ]; controls_red; rewrite ?K.
    + apply ltb_true_iff in H1, H2. apply gtb_true_iff in H3.
      split; [ intros _; now repeat split | reflexivity ].
    + apply gtb_false_iff in H3.
      split; [ discriminate | intros (_ & _ & _ & H); lra ].
    + apply ltb_false_iff in H2.
      split; [ discriminate | intros (_ & _ & H & _); lra ].
    + apply ltb_false_iff in H1.
      split; [ discriminate | intros (_ & H & _); lra ].
Qed.

Section AIKicks.

Variables (deltaTime now cameraWidth random1 random2 : R).
Variables (player opponent : Player.t) (ball : Ball.t).
Variable ai : AIController.t.

Let decided : AIController.t :=
  AIController.updateDecision deltaTime now player ball cameraWidth random1 ai.

Let pressed : Controls :=
  fst (AIActions.synthesize deltaTime now cameraWidth random1 random2 player
         ball opponent ai).

Lemma synthesize_kick :
  let dist :=
    Distance.Between (Player.x player) (Player.y player) (Ball.x ball)
      (Ball.y ball) in
  let reach :=
    match AIController.currentAction decided with
    | Action.chase => 60 | Action.attack => 70 | Action.defend => 80
    | Action.idle => 0
    end in
  let after :=
    AIController.kickTimer
      (snd (AIActions.synthesize deltaTime now cameraWidth random1 random2
              player ball opponent ai)) in
  (c_kick pressed = true
   <-> AIController.currentAction decided <> Action.idle
       /\ dist < reach
       /\ AIController.kickTimer ai - deltaTime <= 0
       /\ Player.isKicking player = false)
  /\ (c_kick pressed = true -> 600 <= after)
  /\ (0 < AIController.kickTimer ai - deltaTime ->
      c_kick pressed = false
      /\ after = AIController.kickTimer ai - deltaTime).
Proof.
  cbv zeta. unfold pressed, AIActions.synthesize. cbv zeta.
  fold decided.
  destruct (updateDecision_fields deltaTime now player ball cameraWidth
              random1 ai) as (T & _).
  cbv zeta in T. fold decided in T.
  destruct (executeAction_kick cameraWidth random2 player ball opponent decided)
    as (A & B & C).
  cbv zeta in A, B, C. rewrite T in A, C.
  destruct (AIActions.executeAction cameraWidth random2 player ball opponent
              decided) as [c ai2].
  cbn [fst snd] in *.
  destruct (limitActions_keys player ai2 c) as (_ & _ & _ & _ & K).
  cbv zeta in K. rewrite K.
  split; [ | split ].
  - rewrite andb_true_iff, negb_true_iff, A. tauto.
  - rewrite andb_true_iff. intros [H _]. rewrite (B H).
    destruct (proj1 A H) as (Hn & _).
    destruct (AIController.currentAction decided); try lra. congruence.
  - intros Hpos.
    assert (Hc : c_kick c = false).
    { destruct (c_kick c); [ | reflexivity ].
      destruct (proj1 A eq_refl) as (_ & _ & H). lra. }
    rewrite Hc. split; [ reflexivity | now apply C ].
Qed.

(** X22.  When the computer player kicks and slides.  In a frame of
    [update] the kick key goes to the player exactly when the behaviour
    selected after the decision of the frame is not idle, the ball is
    within the behaviour's reach (60 chasing, 70 attacking, 80
    defending), the controller's kick timer has run out and the player
    is not already kicking.  The slide key goes to the player exactly
    when the behaviour is attack, the opponent is within 80 of the ball
    and within 100 of the player, the random draw is below the
    aggressiveness, and the player is not already sliding. *)
Theorem ai_kick_and_slide_conditions :
  let dist :=
    Distance.Between (Player.x player) (Player.y player) (Ball.x ball)
      (Ball.y ball) in
  let reach :=
    match AIController.currentAction decided with
    | Action.chase => 60 | Action.attack => 70 | Action.defend => 80
    | Action.idle => 0
    end in
  (c_kick pressed = true
   <-> AIController.currentAction decided <> Action.idle
       /\ dist < reach
       /\ AIController.kickTimer ai - deltaTime <= 0
       /\ Player.isKicking player = false)
  /\ (c_slide pressed = true
      <-> AIController.currentAction decided = Action.attack
          /\ Distance.Between (Player.x opponent) (Player.y opponent)
               (Ball.x ball) (Ball.y ball) < 80
          /\ Distance.Between (Player.x player) (Player.y player)
               (Player.x opponent) (Player.y opponent) < 100
          /\ random2 < AIController.aggressiveness ai
          /\ Player.isSliding player = false).
Proof.
  cbv zeta. split; [ exact (proj1 synthesize_kick) | ].
  unfold pressed, AIActions.synthesize. cbv zeta. fold decided.
  destruct (updateDecision_fields deltaTime now player ball cameraWidth
              random1 ai) as (_ & _ & G & _).
  cbv zeta in G. fold decided in G.
  pose proof (executeAction_slide cameraWidth random2 player ball opponent
                decided) as S.
  cbv zeta in S. rewrite G in S.
  destruct (AIActions.executeAction cameraWidth random2 player ball opponent
              decided) as [c ai2].
  cbn [fst snd] in *.
  destruct (limitActions_keys player ai2 c) as (_ & _ & _ & K & _).
  cbv zeta in K. rewrite K.
  rewrite andb_true_iff, negb_true_iff, S. tauto.
Qed.

End AIKicks.

Lemma run_no_kick (fs : list AIFrames.Frame) :
  forall ai : AIController.t,
  Forall (fun f => 0 <= AIFrames.deltaTime f) fs ->
  AIFrames.duration fs < AIController.kickTimer ai ->
  Forall (fun c => c_kick c = false) (fst (AIFrames.run fs ai)).
Proof.
  induction fs as [ | f rest IH ]; intros ai Hpos Hd;
    cbn [AIFrames.run AIFrames.duration] in *.
  - constructor.
  - inversion Hpos as [ | ? ? Hf Hrest ]; subst.
    assert (Hr : 0 <= AIFrames.duration rest).
    { clear -Hrest. induction Hrest; cbn [AIFrames.duration]; lra. }
    destruct (synthesize_kick (AIFrames.deltaTime f) (AIFrames.now f)
                (AIFrames.cameraWidth f) (AIFrames.random1 f)
                (AIFrames.random2 f) (AIFrames.player f) (AIFrames.opponent f)
                (AIFrames.ball f) ai) as (_ & _ & N).
    cbv zeta in N. specialize (N ltac:(lra)). destruct N as [N1 N2].
    fold (AIFrames.frame f ai) in N1, N2.
    destruct (AIFrames.frame f ai) as [c ai1]. cbn [fst snd] in N1, N2.
    specialize (IH ai1 Hrest ltac:(lra)).
    destruct (AIFrames.run rest ai1) as [cs ai2]. cbn [fst] in *.
    constructor; assumption.
Qed.

(** X23.  The computer player's kicks are at least 600 ms apart.  After
    a frame in which [update] hands a pressed kick key to the player,
    the kick key stays released in all following frames that together
    take less than 600 ms, whatever the ball and the players do in
    them. *)
Theorem ai_kicks_are_spaced (f : AIFrames.Frame) (fs : list AIFrames.Frame)
  (ai : AIController.t) :
  c_kick (fst (AIFrames.frame f ai)) = true ->
  Forall (fun g => 0 <= AIFrames.deltaTime g) fs ->
  AIFrames.duration fs < 600 ->
  Forall (fun c => c_kick c = false)
    (fst (AIFrames.run fs (snd (AIFrames.frame f ai)))).
Proof.
  intros Hk Hpos Hd. apply run_no_kick; [ exact Hpos | ].
  destruct (synthesize_kick (AIFrames.deltaTime f) (AIFrames.now f)
              (AIFrames.cameraWidth f) (AIFrames.random1 f)
              (AIFrames.random2 f) (AIFrames.player f) (AIFrames.opponent f)
              (AIFrames.ball f) ai) as (_ & B & _).
  cbv zeta in B. fold (AIFrames.frame f ai) in B.
  specialize (B Hk). lra.
Qed.

(** ** The sample scenarios *)

Lemma airKicker_facts :
  Player.playerState Scenario.airKicker = kicking
  /\ Player.jumpLandTimer Scenario.airKicker = Some (TimerEvent.delayedCall 600).
Proof.
  unfold Scenario.airKicker. rewrite airborne_eq.
  rewrite triggerKick_ready by (player_red; lra).
  player_red. split; reflexivity.
Qed.

Lemma strandedJumper_facts :
  Player.playerState Scenario.strandedJumper = jumping
  /\ PlayerSteps.landTimerSpent Scenario.strandedJumper.
Proof.
  unfold Scenario.strandedJumper, PlayerSteps.landTimerSpent.
  rewrite airborne_eq. player_red. split; reflexivity.
Qed.

Lemma land_timer_grounds_witness :
  Player.playerState
    (Player.clockUpdate Sample.playerConfig 600 Sample.airborne) = idle
  /\ Player.y (Player.clockUpdate Sample.playerConfig 600 Sample.airborne) = 648.
Proof.
  assert (H1 : Player.playerState Sample.airborne = jumping)
    by (rewrite airborne_eq; reflexivity).
  assert (H2 : Player.jumpLandTimer Sample.airborne
               = Some (TimerEvent.delayedCall 600))
    by (rewrite airborne_eq; reflexivity).
  assert (H3 : TimerEvent.delay (TimerEvent.delayedCall 600)
               <= TimerEvent.elapsed (TimerEvent.delayedCall 600) + 600)
    by (cbn [TimerEvent.delayedCall TimerEvent.delay TimerEvent.elapsed]; lra).
  destruct (land_timer_grounds Sample.playerConfig 600
              (TimerEvent.delayedCall 600) Sample.airborne H1 H2 eq_refl H3)
    as (A & B & _).
  split; assumption.
Defined.

Lemma land_timer_lost_during_kick_witness :
  Player.playerState
    (Player.clockUpdate Sample.playerConfig 600 Scenario.airKicker) = kicking
  /\ PlayerSteps.landTimerSpent
       (Player.clockUpdate Sample.playerConfig 600 Scenario.airKicker).
Proof.
  destruct airKicker_facts as [H1 H2].
  assert (H3 : TimerEvent.delay (TimerEvent.delayedCall 600)
               <= TimerEvent.elapsed (TimerEvent.delayedCall 600) + 600)
    by (cbn [TimerEvent.delayedCall TimerEvent.delay TimerEvent.elapsed]; lra).
  destruct (land_timer_lost_during_kick Sample.playerConfig 600 16
              (TimerEvent.delayedCall 600) Scenario.airKicker H1 H2 eq_refl H3)
    as (A & _ & _ & B & _).
  split; assumption.
Defined.

Lemma jumping_without_land_timer_is_stuck_witness :
  Player.playerState
    (PlayerSteps.run Sample.playerConfig
       [PlayerSteps.ClockStep 1000;
        PlayerSteps.FrameStep 16 AIActions.noControls;
        PlayerSteps.ClockStep 1000]
       Scenario.strandedJumper) = jumping.
Proof.
  destruct strandedJumper_facts as [H1 H2].
  exact (proj1 (jumping_without_land_timer_is_stuck Sample.playerConfig
                  [PlayerSteps.ClockStep 1000;
                   PlayerSteps.FrameStep 16 AIActions.noControls;
                   PlayerSteps.ClockStep 1000]
                  Scenario.strandedJumper H1 H2)).
Defined.

Lemma kickoff_delay_reactivates_witness :
  GameScene.delayedCalls Sample.scene = []
  /\ GameScene.isGameActive
       (GameScene.clockUpdate Sample.screenSize Sample.gameConfig
          Sample.playerConfig 1000
          (GameScene.resetToKickoff Sample.screenSize Sample.gameConfig
             Sample.scene)) = true.
Proof.
  split; [ reflexivity | ].
  destruct (kickoff_delay_reactivates Sample.screenSize Sample.gameConfig
              Sample.playerConfig 1000 Sample.scene eq_refl) as (_ & H & _).
  apply H. cbn [kickoffDelay Sample.gameConfig]. lra.
Defined.


Lemma aiFrame_kicks :
  c_kick (fst (AIFrames.frame Scenario.aiFrame (AIController.new medium))) = true.
Proof.
  unfold AIFrames.frame.
  apply (proj1 (synthesize_kick _ _ _ _ _ _ _ _ _)).
  cbn [AIFrames.deltaTime AIFrames.now AIFrames.cameraWidth AIFrames.random1
       AIFrames.random2 AIFrames.player AIFrames.ball AIFrames.opponent
       Scenario.aiFrame].
  assert (Hd : Distance.Between (Player.x (Player.new 0 0 Side.right))
                 (Player.y (Player.new 0 0 Side.right))
                 (Ball.x (Sample.ballAt 30 40)) (Ball.y (Sample.ballAt 30 40)) = 50)
    by exact distance_3_4_5.
  assert (Ha : AIController.currentAction
                 (AIController.updateDecision 16 1000 (Player.new 0 0 Side.right)
                    (Sample.ballAt 30 40) 1152 0.5 (AIController.new medium))
               = Action.attack).
  { unfold AIController.updateDecision. cbv zeta.
    unfold AIController.new, AIController.setDifficulty. controls_red.
    rewrite (proj2 (gtb_true_iff (1000 - 0) (200 / 1.0))) by lra.
    controls_red.
    unfold AIController.makeDecision. cbv zeta.
    rewrite Hd. rewrite (proj2 (ltb_true_iff 50 80)) by lra.
    assert (Hv : Ball.isMoving (Sample.ballAt 30 40) = false).
    { apply isMoving_false_iff.
      change (Ball.velocity (Sample.ballAt 30 40)) with (Vector2.mk 0 0).
      rewrite length_zero. lra. }
    rewrite Hv. reflexivity. }
  rewrite Ha, Hd.
  split; [ discriminate | ].
  split; [ lra | ].
  split; [ | reflexivity ].
  unfold AIController.new, AIController.setDifficulty. controls_red. lra.
Qed.

Lemma ai_kicks_are_spaced_witness :
  c_kick (fst (AIFrames.frame Scenario.aiFrame (AIController.new medium))) = true
  /\ Forall (fun c => c_kick c = false)
       (fst (AIFrames.run [Scenario.aiFrame; Scenario.aiFrame]
               (snd (AIFrames.frame Scenario.aiFrame (AIController.new medium))))).
Proof.
  split; [ exact aiFrame_kicks | ].
  apply (ai_kicks_are_spaced Scenario.aiFrame
           [Scenario.aiFrame; Scenario.aiFrame] (AIController.new medium)
           aiFrame_kicks).
  - repeat constructor;
      cbn [AIFrames.deltaTime Scenario.aiFrame]; lra.
  - cbn [AIFrames.duration AIFrames.deltaTime Scenario.aiFrame]. lra.
Defined.

(** ** AIController: the decision clock *)

Lemma makeDecision_fields (player : Player.t) (ball : Ball.t)
  (cameraWidth random : R) (ai : AIController.t) :
  let ai' := AIController.makeDecision player ball cameraWidth random ai in
  AIController.reactionTime ai' = AIController.reactionTime ai
  /\ AIController.reactionSpeed ai' = AIController.reactionSpeed ai
  /\ AIController.lastDecisionTime ai' = AIController.lastDecisionTime ai
  /\ (0 <= random < 1 -> 400 <= AIController.actionTimer ai' < 1500).
Proof.
  cbv zeta. unfold AIController.makeDecision. cbv zeta.
  destruct (_ && _); [ | destruct (_ && _); [ | destruct (_ && _) ] ];
    controls_red; repeat split; try reflexivity; lra.
Qed.

(** The behaviour that [makeDecision] selects does not depend on the
    controller. *)
Lemma makeDecision_action (player : Player.t) (ball : Ball.t)
  (cameraWidth random : R) (ai ai' : AIController.t) :
  AIController.currentAction
    (AIController.makeDecision player ball cameraWidth random ai)
  = AIController.currentAction
      (AIController.makeDecision player ball cameraWidth random ai').
Proof.
  unfold AIController.makeDecision. cbv zeta.
  destruct (_ && _); [ | destruct (_ && _); [ | destruct (_ && _) ] ];
    reflexivity.
Qed.

(** X24.  The decision clock of the computer player.  With the
    parameters of a difficulty, [update] takes a decision exactly when
    more than the difficulty's interval has passed since the last one:
    4000/7 ms (easy), 200 ms (medium), 1000/13 ms (hard).  A decision
    selects the behaviour of [makeDecision], stamps the scene time and
    sets an action timer between 400 and 1500 (for a random draw in
    [0, 1)); without one the behaviour and the stamp stay and the action
    timer only counts down.  So after a decision at [now] the behaviour
    is kept in every frame up to [now + interval]. *)
Theorem decision_clock (d : Difficulty) (ai0 : AIController.t)
  (deltaTime now : R) (player : Player.t) (ball : Ball.t)
  (cameraWidth random : R) :
  let ai := AIController.setDifficulty d ai0 in
  let interval :=
    match d with easy => 4000 / 7 | medium => 200 | hard => 1000 / 13 end in
  let ai1 :=
    AIController.updateDecision deltaTime now player ball cameraWidth random ai in
  (interval < now - AIController.lastDecisionTime ai0 ->
   AIController.lastDecisionTime ai1 = now
   /\ AIController.currentAction ai1
      = AIController.currentAction
          (AIController.makeDecision player ball cameraWidth random ai)
   /\ (0 <= random < 1 -> 400 <= AIController.actionTimer ai1 < 1500)
   /\ (forall deltaTime' now' player' ball' cameraWidth' random',
         now' - now <= interval ->
         let ai2 :=
           AIController.updateDecision deltaTime' now' player' ball'
             cameraWidth' random' ai1 in
         AIController.currentAction ai2 = AIController.currentAction ai1
         /\ AIController.lastDecisionTime ai2 = now
         /\ AIController.actionTimer ai2
            = AIController.actionTimer ai1 - deltaTime'))
  /\ (now - AIController.lastDecisionTime ai0 <= interval ->
      AIController.currentAction ai1 = AIController.currentAction ai0
      /\ AIController.lastDecisionTime ai1 = AIController.lastDecisionTime ai0
      /\ AIController.actionTimer ai1 = AIController.actionTimer ai0 - deltaTime).
Proof.
  cbv zeta.
  set (interval :=
         match d with easy => 4000 / 7 | medium => 200 | hard => 1000 / 13 end).
  set (ai := AIController.setDifficulty d ai0).
  assert (Hi : AIController.reactionTime ai / AIController.reactionSpeed ai
               = interval).
  { unfold ai, interval, AIController.setDifficulty.
    destruct d; cbv beta iota zeta; controls_red; lra. }
  assert (Hl : AIController.lastDecisionTime ai
               = AIController.lastDecisionTime ai0).
  { unfold ai, AIController.setDifficulty. destruct d; reflexivity. }
  assert (Hc : AIController.currentAction ai = AIController.currentAction ai0).
  { unfold ai, AIController.setDifficulty. destruct d; reflexivity. }
  assert (Ht : AIController.actionTimer ai = AIController.actionTimer ai0).
  { unfold ai, AIController.setDifficulty. destruct d; reflexivity. }
  split.
  - intros Hdue.
    unfold AIController.updateDecision. cbv zeta. controls_red.
    rewrite Hi, Hl. rewrite (proj2 (gtb_true_iff _ _) Hdue).
    match goal with
    | |- context [AIController.makeDecision ?p ?b ?c ?r ?a] =>
        destruct (makeDecision_fields p b c r a) as (M1 & M2 & _ & M4);
        cbv zeta in M1, M2, M4;
        pose proof (makeDecision_action p b c r a ai) as M5;
        set (m := AIController.makeDecision p b c r a) in *
    end.
    controls_red.
    split; [ reflexivity | ].
    split; [ exact M5 | ].
    split; [ exact M4 | ].
    intros dt' now' p' b' cw' r' Hw.
    rewrite M1, M2, Hi.
    rewrite (proj2 (gtb_false_iff _ _) Hw). controls_red.
    repeat split; reflexivity.
  - intros Hw. unfold AIController.updateDecision. cbv zeta. controls_red.
    rewrite Hi, Hl. rewrite (proj2 (gtb_false_iff _ _) Hw). controls_red.
    rewrite Hc, Ht. repeat split; reflexivity.
Qed.

(** ** GameScene: the manual check of [update] *)

Section ManualCheck.

Variable screenSize : ScreenSize.
Variable fieldConfig : FieldConfig.
Variable gameConfig : GameConfig.
Variable playerConfig : PlayerConfig.
Variable ballConfig : BallConfig.

(** X25.  The manual goal-line test is stricter than the overlap
    callback.  In an active match a crossing of the goal line that the
    manual test sees more than 1000 after the last goal is handled as
    the overlap callback handles it.  At exactly 1000 after the last
    goal, and in a match without a goal so far during the first 1000 of
    scene time, the manual test ignores the crossing, while the overlap
    callback at the same moment counts the goal and stops play. *)
Theorem manual_goal_test_is_stricter (now : R) (q : PlayerId)
  (s : GameScene.t) :
  GameScene.isGameActive s = true ->
  let last := GameScene.lastGoalTime s in
  let viaOverlap := GameScene.handleGoal gameConfig now q s in
  let viaManual := GameScene.manualGoal gameConfig true now q s in
  (1000 < now - last ->
   viaManual = viaOverlap /\ GameScene.isGameActive viaManual = false)
  /\ (now - last = 1000 \/ (last = 0 /\ now <= 1000) ->
      viaManual = s
      /\ GameScene.isGameActive viaOverlap = false
      /\ (GameScene.player1Score viaOverlap + GameScene.player2Score viaOverlap
          = S (GameScene.player1Score s + GameScene.player2Score s))%nat).
Proof.
  intros Ha. cbv zeta. split.
  - intros Hw. unfold GameScene.manualGoal.
    rewrite (proj2 (gtb_true_iff _ _) Hw). split; [ reflexivity | ].
    destruct (handleGoal_accepted gameConfig now q s Ha
                (or_intror (Rlt_le _ _ Hw))) as (H & _).
    exact H.
  - intros Hb.
    assert (Hle : now - GameScene.lastGoalTime s <= 1000) by (destruct Hb; lra).
    assert (Hacc : GameScene.lastGoalTime s = 0
                   \/ 1000 <= now - GameScene.lastGoalTime s)
      by (destruct Hb as [H | [H _]]; [ right; lra | now left ]).
    split; [ now apply manualGoal_debounced | ].
    destruct (handleGoal_accepted gameConfig now q s Ha Hacc)
      as (H & _ & S1 & S2 & _).
    split; [ exact H | ].
    rewrite S1, S2. destruct q; lia.
Qed.

Lemma handlePlayerBallContact_stamps (who : PlayerId) (s : GameScene.t) :
  let s' := GameScene.handlePlayerBallContact playerConfig ballConfig who s in
  GameScene.lastManualCollisionP1 s' = GameScene.lastManualCollisionP1 s
  /\ GameScene.lastManualCollisionP2 s' = GameScene.lastManualCollisionP2 s.
Proof.
  cbv zeta. unfold GameScene.handlePlayerBallContact.
  destruct (negb _ || _); [ split; reflexivity | ].
  cbv zeta. destruct (GameScene.isProperKick _ _).
  - unfold GameScene.properKick. cbv zeta.
    destruct who; scene_red; destruct (negb _ && negb _); scene_red;
      split; reflexivity.
  - unfold GameScene.bodyBounce. cbv zeta. scene_red. split; reflexivity.
Qed.

Lemma handleGoal_stamps (now : R) (q : PlayerId) (s : GameScene.t) :
  let s' := GameScene.handleGoal gameConfig now q s in
  GameScene.lastManualCollisionP1 s' = GameScene.lastManualCollisionP1 s
  /\ GameScene.lastManualCollisionP2 s' = GameScene.lastManualCollisionP2 s.
Proof.
  cbv zeta. unfold GameScene.handleGoal.
  destruct (negb _); [ split; reflexivity | ].
  destruct (_ && _); [ split; reflexivity | ].
  cbv zeta. destruct q; scene_red; split; reflexivity.
Qed.

Lemma manualGoal_stamps (crossed : bool) (now : R) (q : PlayerId)
  (s : GameScene.t) :
  let s' := GameScene.manualGoal gameConfig crossed now q s in
  GameScene.lastManualCollisionP1 s' = GameScene.lastManualCollisionP1 s
  /\ GameScene.lastManualCollisionP2 s' = GameScene.lastManualCollisionP2 s.
Proof.
  cbv zeta. unfold GameScene.manualGoal.
  destruct crossed; [ | split; reflexivity ].
  destruct (_ >? _); [ apply handleGoal_stamps | split; reflexivity ].
Qed.

(** X26.  The manual contact test is limited to one contact per player
    in 200 time-units.  A check at [now] in an active, unpaused match
    stamps [now] on each player that is closer than 70 to the ball and
    whose last stamp is more than 200 old, and leaves the other stamps
    as they are; and a check at a time when both stamps are at most 200
    old and the last goal at most 1000 old changes nothing at all. *)
Theorem manual_contacts_are_rate_limited (now : R) (s : GameScene.t) :
  let s' := GameScene.checkManualCollisions fieldConfig gameConfig playerConfig
              ballConfig now s in
  let dist (p : Player.t) :=
    sqrt ((Ball.x (GameScene.ball s) - Player.x p)
          * (Ball.x (GameScene.ball s) - Player.x p)
          + (Ball.y (GameScene.ball s) - Player.y p)
            * (Ball.y (GameScene.ball s) - Player.y p)) in
  (GameScene.isGameActive s = true ->
   GameUI.isPaused (GameScene.gameUI s) = false ->
   GameScene.lastManualCollisionP1 s'
   = (if (dist (GameScene.player1 s) <? 70)
         && (now - GameScene.lastManualCollisionP1 s >? 200)
      then now else GameScene.lastManualCollisionP1 s)
   /\ GameScene.lastManualCollisionP2 s'
      = (if (dist (GameScene.player2 s) <? 70)
            && (now - GameScene.lastManualCollisionP2 s >? 200)
         then now else GameScene.lastManualCollisionP2 s))
  /\ (now - GameScene.lastManualCollisionP1 s <= 200 ->
      now - GameScene.lastManualCollisionP2 s <= 200 ->
      now - GameScene.lastGoalTime s <= 1000 ->
      s' = s).
Proof.
  cbv zeta. split.
  - intros Ha Hp. unfold GameScene.checkManualCollisions.
    rewrite Ha, Hp. cbn [negb orb]. cbv zeta.
    match goal with
    | |- context [GameScene.manualGoal _ ?c now P1 ?x] =>
        destruct (manualGoal_stamps c now P1 x) as (A1 & A2);
        cbv zeta in A1, A2; rewrite A1, A2; clear A1 A2
    end.
    match goal with
    | |- context [GameScene.manualGoal _ ?c now P2 ?x] =>
        destruct (manualGoal_stamps c now P2 x) as (A1 & A2);
        cbv zeta in A1, A2; rewrite A1, A2; clear A1 A2
    end.
    unfold GameScene.manualContact. cbv zeta.
    set (c1 := (_ <? 70) && (now - GameScene.lastManualCollisionP1 s >? 200)).
    set (c2 := (_ <? 70) && (now - GameScene.lastManualCollisionP2 _ >? 200)).
    destruct c1 eqn:E1.
    + destruct (handlePlayerBallContact_stamps P1
                  (GameScene.set_lastManualCollisionP1 now s)) as (B1 & B2).
      cbv zeta in B1, B2.
      set (s1 := GameScene.handlePlayerBallContact playerConfig ballConfig P1
                   (GameScene.set_lastManualCollisionP1 now s)) in *.
      assert (Hc2 : c2 = (sqrt ((Ball.x (GameScene.ball s)
                                 - Player.x (GameScene.player2 s))
                                * (Ball.x (GameScene.ball s)
                                   - Player.x (GameScene.player2 s))
                                + (Ball.y (GameScene.ball s)
                                   - Player.y (GameScene.player2 s))
                                  * (Ball.y (GameScene.ball s)
                                     - Player.y (GameScene.player2 s))) <? 70)
                         && (now - GameScene.lastManualCollisionP2 s >? 200)).
      { unfold c2. rewrite B2. reflexivity. }
      rewrite <- Hc2.
      destruct c2.
      * destruct (handlePlayerBallContact_stamps P2
                    (GameScene.set_lastManualCollisionP2 now s1)) as (C1 & C2).
        cbv zeta in C1, C2. rewrite C1, C2. scene_red.
        split; [ exact B1 | reflexivity ].
      * split; [ exact B1 | exact B2 ].
    + fold c2. destruct c2 eqn:E2.
      * destruct (handlePlayerBallContact_stamps P2
                    (GameScene.set_lastManualCollisionP2 now s)) as (C1 & C2).
        cbv zeta in C1, C2. rewrite C1, C2. scene_red.
        split; reflexivity.
      * split; reflexivity.
  - intros H1 H2 Hg. unfold GameScene.checkManualCollisions.
    destruct (negb _ || _); [ reflexivity | ].
    cbv zeta. unfold GameScene.manualContact. cbv zeta.
    rewrite (proj2 (gtb_false_iff _ _) H1), andb_false_r.
    rewrite (proj2 (gtb_false_iff _ _) H2), andb_false_r.
    rewrite (manualGoal_debounced gameConfig _ now P2 s Hg).
    rewrite (manualGoal_debounced gameConfig _ now P1 s Hg). reflexivity.
Qed.

(** A clock tick of an inactive match with no delayed call pending. *)
Lemma clockUpdate_idle_clock (delta : R) (s : GameScene.t) :
  GameScene.delayedCalls s = [] ->
  let s' := GameScene.clockUpdate screenSize gameConfig playerConfig delta s in
  GameScene.isGameActive s' = GameScene.isGameActive s
  /\ GameScene.player1Score s' = GameScene.player1Score s
  /\ GameScene.player2Score s' = GameScene.player2Score s
  /\ GameScene.ball s' = GameScene.ball s
  /\ GameScene.delayedCalls s' = [].
Proof.
  intros Hd. cbv zeta. unfold GameScene.clockUpdate. cbv zeta. scene_red.
  rewrite Hd. cbn [GameScene.runDelayedCalls app]. scene_red.
  repeat split; reflexivity.
Qed.

(** X27.  The end of the game and the delayed calls.  [handleGameEnd]
    makes the match inactive and cancels nothing.  With no delayed call
    pending, no event then changes the scores or the ball and the match
    stays inactive.  With the kickoff delay pending, the clock tick on
    which the delay comes due makes the match active again, although the
    game has ended. *)
Theorem game_end_keeps_delayed_calls (s : GameScene.t) :
  let ended := GameScene.handleGameEnd s in
  (GameScene.delayedCalls s = [] ->
   forall evs : list GameScene.Event,
   let s' := GameScene.run screenSize fieldConfig gameConfig playerConfig
               ballConfig evs ended in
   GameScene.isGameActive s' = false
   /\ GameScene.player1Score s' = GameScene.player1Score s
   /\ GameScene.player2Score s' = GameScene.player2Score s
   /\ GameScene.ball s' = GameScene.ball s)
  /\ (forall (e : TimerEvent.t) (delta : R),
        GameScene.delayedCalls s = [(e, AfterKickoff)] ->
        TimerEvent.hasDispatched e = false ->
        TimerEvent.delay e <= TimerEvent.elapsed e + delta ->
        GameScene.isGameActive ended = false
        /\ GameScene.isGameActive
             (GameScene.clockUpdate screenSize gameConfig playerConfig delta ended)
           = true).
Proof.
  cbv zeta. split.
  - intros Hd evs.
    assert (G : forall x : GameScene.t,
               GameScene.isGameActive x = false ->
               GameScene.delayedCalls x = [] ->
               let x' := GameScene.run screenSize fieldConfig gameConfig
                           playerConfig ballConfig evs x in
               GameScene.isGameActive x' = false
               /\ GameScene.player1Score x' = GameScene.player1Score x
               /\ GameScene.player2Score x' = GameScene.player2Score x
               /\ GameScene.ball x' = GameScene.ball x).
    { induction evs as [ | ev evs IH ]; intros x Hx Hdx; cbv zeta.
      - cbn [GameScene.run fold_left]. now repeat split.
      - cbn [GameScene.run fold_left].
        change (fold_left _ evs ?y)
          with (GameScene.run screenSize fieldConfig gameConfig playerConfig
                  ballConfig evs y).
        pose proof (handle_inactive screenSize fieldConfig gameConfig
                      playerConfig ballConfig ev x Hx) as Hev.
        destruct ev as [n q | who | | delta | n dl c1 c2 ];
          try (cbv zeta in Hev; rewrite Hev; now apply IH).
        cbn [GameScene.handle].
        destruct (clockUpdate_idle_clock delta x Hdx) as (A & B & C & D & E).
        cbv zeta in A, B, C, D, E.
        destruct (IH (GameScene.clockUpdate screenSize gameConfig playerConfig
                        delta x)) as (I1 & I2 & I3 & I4);
          [ congruence | exact E | ].
        cbv zeta in I1, I2, I3, I4.
        repeat split; congruence. }
    apply (G (GameScene.handleGameEnd s)); [ reflexivity | exact Hd ].
  - intros e delta Hd He Hdue. split; [ reflexivity | ].
    rewrite (clockUpdate_one_pending screenSize gameConfig playerConfig delta e
               AfterKickoff (GameScene.handleGameEnd s) Hd He).
    cbv zeta. rewrite (proj2 (geb_true_iff _ _) Hdue).
    reflexivity.
Qed.

End ManualCheck.

Lemma manual_goal_test_is_stricter_witness :
  GameScene.isGameActive Sample.scene = true
  /\ GameScene.manualGoal Sample.gameConfig true 500 P1 Sample.scene
     = Sample.scene
  /\ GameScene.isGameActive
       (GameScene.handleGoal Sample.gameConfig 500 P1 Sample.scene) = false.
Proof.
  split; [ reflexivity | ].
  destruct (manual_goal_test_is_stricter Sample.gameConfig 500 P1 Sample.scene
              eq_refl) as (_ & H).
  destruct H as (A & B & _).
  - right. split; [ reflexivity | lra ].
  - split; assumption.
Defined.

(** ** GameScene: from a goal back to play *)

Section GoalCycle.

Variable screenSize : ScreenSize.
Variable fieldConfig : FieldConfig.
Variable gameConfig : GameConfig.
Variable playerConfig : PlayerConfig.
Variable ballConfig : BallConfig.

Lemma handleGoal_groundTopY (now : R) (p : PlayerId) (s : GameScene.t) :
  GameScene.groundTopY (GameScene.handleGoal gameConfig now p s)
  = GameScene.groundTopY s.
Proof.
  unfold GameScene.handleGoal.
  destruct (negb _); [ reflexivity | ].
  destruct (_ && _); [ reflexivity | ].
  cbv zeta. destruct p; scene_red; reflexivity.
Qed.

(** The clock tick on which the end of the celebration comes due, it
    being the only delayed call pending: the players' jump timers are
    served and the scene is reset to the kickoff. *)
Lemma celebration_tick (delta d : R) (s1 : GameScene.t) :
  GameScene.delayedCalls s1 = [(TimerEvent.delayedCall d, AfterCelebration)] ->
  d <= delta ->
  exists s0 : GameScene.t,
    GameScene.clockUpdate screenSize gameConfig playerConfig delta s1
    = GameScene.resetToKickoff screenSize gameConfig s0
    /\ GameScene.delayedCalls s0 = []
    /\ GameScene.groundTopY s0 = GameScene.groundTopY s1
    /\ GameScene.player1Score s0 = GameScene.player1Score s1
    /\ GameScene.player2Score s0 = GameScene.player2Score s1
    /\ GameScene.gameUI s0 = GameScene.gameUI s1.
Proof.
  intros Hdc Hd.
  rewrite (clockUpdate_one_pending screenSize gameConfig playerConfig delta _ _ s1
             Hdc eq_refl).
  cbv zeta.
  cbn [TimerEvent.delayedCall TimerEvent.elapsed TimerEvent.delay].
  rewrite (proj2 (geb_true_iff (0 + delta) d)) by lra.
  cbn [GameScene.runCallback].
  eexists. split; [ reflexivity | ].
  scene_red. repeat split; reflexivity.
Qed.

(** The scene that the kickoff reset makes, and the tick that ends the
    kickoff delay after it. *)
Lemma reset_then_kickoff (d2 : R) (s0 : GameScene.t) :
  GameScene.delayedCalls s0 = [] ->
  kickoffDelay gameConfig * 1000 <= d2 ->
  let s2 := GameScene.resetToKickoff screenSize gameConfig s0 in
  let s3 := GameScene.clockUpdate screenSize gameConfig playerConfig d2 s2 in
  (GameScene.isGameActive s2 = false
   /\ GameScene.ball s2
      = Ball.mk (width screenSize / 2) (GameScene.groundTopY s0 - 1 - 25)
          (Vector2.mk 0 0) 0
   /\ Player.playerState (GameScene.player1 s2) = idle
   /\ Player.playerState (GameScene.player2 s2) = idle)
  /\ GameScene.isGameActive s3 = true
  /\ GameScene.delayedCalls s3 = []
  /\ GameScene.ball s3 = GameScene.ball s2
  /\ GameScene.player1 s3 = GameScene.player1 s2
  /\ GameScene.player2 s3 = GameScene.player2 s2
  /\ GameScene.player1Score s3 = GameScene.player1Score s0
  /\ GameScene.player2Score s3 = GameScene.player2Score s0
  /\ GameScene.gameUI s3 = GameScene.gameUI s0.
Proof.
  intros H0 Hd2.
  destruct (kickoff_reset_facts screenSize gameConfig playerConfig s0)
    as (Hdc & Hp1 & Hp2).
  rewrite H0 in Hdc.
  destruct (kickoff_tick screenSize gameConfig playerConfig d2 _ _ Hdc
              (Hp1 d2) (Hp2 d2)) as (_ & B & C & D & E & F & G & H).
  destruct (B Hd2) as [B1 B2].
  cbv zeta. rewrite B1, B2, C, D, E, F, G, H.
  rewrite scene_resetToKickoff_eq. scene_red.
  rewrite !resetToKickoff_eq. player_red.
  repeat split; reflexivity.
Qed.

(** X28.  Play resumes after a goal.  After an accepted goal in a match
    with no delayed call pending, the clock tick that reaches the
    celebration time resets the scene to the kickoff (match inactive,
    ball at rest at the centre, both players idle), and the following
    tick that reaches the kickoff delay makes the match active again
    with no delayed call left; ball and players stay as the reset put
    them and the scores are those of the goal, shown by the interface. *)
Theorem play_resumes_after_goal (now d1 d2 : R) (p : PlayerId)
  (s : GameScene.t) :
  GameScene.isGameActive s = true ->
  GameScene.lastGoalTime s = 0 \/ 1000 <= now - GameScene.lastGoalTime s ->
  GameScene.delayedCalls s = [] ->
  goalCelebrationTime gameConfig * 1000 <= d1 ->
  kickoffDelay gameConfig * 1000 <= d2 ->
  let s1 := GameScene.handleGoal gameConfig now p s in
  let s2 := GameScene.clockUpdate screenSize gameConfig playerConfig d1 s1 in
  let s3 := GameScene.clockUpdate screenSize gameConfig playerConfig d2 s2 in
  (GameScene.isGameActive s2 = false
   /\ GameScene.ball s2
      = Ball.mk (width screenSize / 2) (GameScene.groundTopY s - 1 - 25)
          (Vector2.mk 0 0) 0
   /\ Player.playerState (GameScene.player1 s2) = idle
   /\ Player.playerState (GameScene.player2 s2) = idle)
  /\ (GameScene.isGameActive s3 = true
      /\ GameScene.delayedCalls s3 = []
      /\ GameScene.ball s3 = GameScene.ball s2
      /\ GameScene.player1 s3 = GameScene.player1 s2
      /\ GameScene.player2 s3 = GameScene.player2 s2
      /\ GameScene.player1Score s3 = GameScene.player1Score s1
      /\ GameScene.player2Score s3 = GameScene.player2Score s1
      /\ Scoreboard.shown s3).
Proof.
  intros Ha Hacc Hd Hd1 Hd2.
  destruct (handleGoal_accepted gameConfig now p s Ha Hacc)
    as (_ & _ & _ & _ & U1 & U2 & _ & _ & _ & Hdc).
  rewrite Hd in Hdc.
  pose proof (handleGoal_groundTopY now p s) as Hg.
  destruct (celebration_tick d1 _ _ Hdc Hd1)
    as (s0 & E & H0 & G0 & S1 & S2 & SU).
  destruct (reset_then_kickoff d2 s0 H0 Hd2)
    as ((A2 & B2 & P1i & P2i) & A3 & D3 & B3 & Q1 & Q2 & T1 & T2 & TU).
  cbv zeta. rewrite E.
  split.
  - split; [ exact A2 | ].
    split; [ rewrite B2, G0, Hg; reflexivity | ].
    split; assumption.
  - split; [ exact A3 | ].
    split; [ exact D3 | ].
    split; [ exact B3 | ].
    split; [ exact Q1 | ].
    split; [ exact Q2 | ].
    split; [ rewrite T1; exact S1 | ].
    split; [ rewrite T2; exact S2 | ].
    unfold Scoreboard.shown. rewrite TU, T1, T2, SU, S1, S2.
    split; assumption.
Qed.

End GoalCycle.

Lemma play_resumes_after_goal_witness :
  GameScene.isGameActive Sample.scene = true
  /\ GameScene.isGameActive
       (GameScene.clockUpdate Sample.screenSize Sample.gameConfig
          Sample.playerConfig 1000
          (GameScene.clockUpdate Sample.screenSize Sample.gameConfig
             Sample.playerConfig 2000
             (GameScene.handleGoal Sample.gameConfig 5000 P1 Sample.scene)))
     = true.
Proof.
  split; [ reflexivity | ].
  assert (H1 : goalCelebrationTime Sample.gameConfig * 1000 <= 2000)
    by (cbn [goalCelebrationTime Sample.gameConfig]; lra).
  assert (H2 : kickoffDelay Sample.gameConfig * 1000 <= 1000)
    by (cbn [kickoffDelay Sample.gameConfig]; lra).
  destruct (play_resumes_after_goal Sample.screenSize Sample.gameConfig
              Sample.playerConfig 5000 2000 1000 P1 Sample.scene eq_refl
              (or_introl eq_refl) eq_refl H1 H2) as (_ & H & _).
  exact H.
Defined.
